(** * Verdict-caching ModSecurity middleware (traefik-modsecurity-plugin)

    A shallow embedding of the Go sources

      - modsecurity.go           (Config, CreateConfig, New, ServeHTTP,
                                  PrepareForwardedRequest, forwardResponse)
      - modsecurity_handlers.go  (HandleRequestBodyMaxSize,
                                  HandleCacheAndForwardRequest)
      - modesecurity_cache.go    (CacheKeyConditions.Check, the response pool,
                                  generateCacheKey, GetCachedResponse)
      - modesecurity_helpers.go  (contains, isWebsocket, removeTrackingParams)

    together with the parts of the Go standard library and of go-cache that
    these functions call (crypto/sha256, net/url, net/http, textproto).

    Go strings and byte slices are [string] (a sequence of 8-bit [ascii]),
    [int] and [int64] are [Z], Go maps are [gmap], [*bool] is [option bool],
    and [*http.Response] is a location in an explicit heap.

    The evaluation service, the backend handler, the clock, the order of a
    [range] over a map, the choice made by [sync.Pool.Get] and the way the
    two goroutines of [ServeHTTP] share the request body are inputs of the
    model ([Env]).  Log output and the dialer, TLS and connection-pool
    settings of the HTTP client are left out. *)

From Stdlib Require Import ZArith Ascii String List Bool Lia.
From stdpp Require Import gmap strings list fin_maps sorting.

Local Open Scope Z_scope.

(** ** Go strings *)

Module GoString.

Definition byte_of (c : ascii) : Z := Z.of_N (N_of_ascii c).
Definition of_byte (z : Z) : ascii := ascii_of_N (Z.to_N (z mod 256)).

Definition bytes (s : string) : list Z := map byte_of (list_ascii_of_string s).

(** [len(s)] *)
Definition len (s : string) : Z := Z.of_nat (String.length s).

(** [strings.Contains(s, string(c))] for a one-byte separator. *)
Fixpoint containsByte (c : ascii) (s : string) : bool :=
  match s with
  | EmptyString => false
  | String a s' => if Ascii.eqb a c then true else containsByte c s'
  end.

(** [strings.Count(s, string(c))] for a one-byte separator. *)
Fixpoint countByte (c : ascii) (s : string) : nat :=
  match s with
  | EmptyString => O
  | String a s' => (if Ascii.eqb a c then 1 else 0) + countByte c s'
  end%nat.

(** [strings.Cut(s, string(c))]: text before and after the first [c],
    and whether [c] was found; [(s, "", false)] when it is absent. *)
Fixpoint cut (c : ascii) (s : string) : string * string * bool :=
  match s with
  | EmptyString => (EmptyString, EmptyString, false)
  | String a s' =>
      if Ascii.eqb a c then (EmptyString, s', true)
      else let '(b, r, f) := cut c s' in (String a b, r, f)
  end.

(** [strings.HasPrefix] *)
Definition hasPrefix (s p : string) : bool := String.prefix p s.

(** [strings.HasSuffix(s, string(c))] for a one-byte suffix. *)
Fixpoint hasSuffixByte (c : ascii) (s : string) : bool :=
  match s with
  | EmptyString => false
  | String a EmptyString => Ascii.eqb a c
  | String _ s' => hasSuffixByte c s'
  end.

(** [s[:len(s)-1]] *)
Fixpoint dropLast (s : string) : string :=
  match s with
  | EmptyString => EmptyString
  | String _ EmptyString => EmptyString
  | String a s' => String a (dropLast s')
  end.

(** [strings.LastIndex(s, string(c))] as a split: the text before the last
    [c] and the text after it, [None] when [c] does not occur. *)
Fixpoint cutLast (c : ascii) (s : string) : option (string * string) :=
  match s with
  | EmptyString => None
  | String a s' =>
      match cutLast c s' with
      | Some (b, r) => Some (String a b, r)
      | None => if Ascii.eqb a c then Some (EmptyString, s') else None
      end
  end.

(** [strings.Join(l, sep)] *)
Fixpoint join (sep : string) (l : list string) : string :=
  match l with
  | [] => EmptyString
  | [x] => x
  | x :: l' => String.append x (String.append sep (join sep l'))
  end.

(** [strings.Split(s, string(c))] *)
Fixpoint split (c : ascii) (s : string) : list string :=
  match s with
  | EmptyString => [EmptyString]
  | String a s' =>
      if Ascii.eqb a c then EmptyString :: split c s'
      else match split c s' with
           | x :: l => String a x :: l
           | [] => [String a EmptyString]
           end
  end.

Definition isLower (c : ascii) : bool := (97 <=? byte_of c) && (byte_of c <=? 122).
Definition isUpper (c : ascii) : bool := (65 <=? byte_of c) && (byte_of c <=? 90).
Definition isDigit (c : ascii) : bool := (48 <=? byte_of c) && (byte_of c <=? 57).
Definition isAlpha (c : ascii) : bool := isLower c || isUpper c.

Definition toLowerByte (c : ascii) : ascii :=
  if isUpper c then of_byte (byte_of c + 32) else c.
Definition toUpperByte (c : ascii) : ascii :=
  if isLower c then of_byte (byte_of c - 32) else c.

Fixpoint mapBytes (f : ascii -> ascii) (s : string) : string :=
  match s with
  | EmptyString => EmptyString
  | String a s' => String (f a) (mapBytes f s')
  end.

End GoString.

(** ** crypto/sha256 and the [%x] verb *)

Module Sha256.

Definition w32 (x : Z) : Z := x mod 4294967296.
Definition add32 (x y : Z) : Z := w32 (x + y).
Definition rotr (n x : Z) : Z := Z.lor (Z.shiftr x n) (w32 (Z.shiftl x (32 - n))).
Definition shr (n x : Z) : Z := Z.shiftr x n.
Definition not32 (x : Z) : Z := 4294967295 - x.

Definition Ch (x y z : Z) := Z.lxor (Z.land x y) (Z.land (not32 x) z).
Definition Maj (x y z : Z) := Z.lxor (Z.lxor (Z.land x y) (Z.land x z)) (Z.land y z).
Definition bigS0 x := Z.lxor (Z.lxor (rotr 2 x) (rotr 13 x)) (rotr 22 x).
Definition bigS1 x := Z.lxor (Z.lxor (rotr 6 x) (rotr 11 x)) (rotr 25 x).
Definition smallS0 x := Z.lxor (Z.lxor (rotr 7 x) (rotr 18 x)) (shr 3 x).
Definition smallS1 x := Z.lxor (Z.lxor (rotr 17 x) (rotr 19 x)) (shr 10 x).

(** The round constants are the first 32 bits of the fractional parts of the
    cube roots of the first 64 primes, the initial hash value those of the
    square roots of the first 8 primes (FIPS 180-4, sections 4.2.2, 5.3.3). *)
Definition primes64 : list Z :=
  [ 2; 3; 5; 7; 11; 13; 17; 19; 23; 29; 31; 37; 41; 43; 47; 53;
    59; 61; 67; 71; 73; 79; 83; 89; 97; 101; 103; 107; 109; 113; 127; 131;
    137; 139; 149; 151; 157; 163; 167; 173; 179; 181; 191; 193; 197; 199; 211; 223;
    227; 229; 233; 239; 241; 251; 257; 263; 269; 271; 277; 281; 283; 293; 307; 311 ].

(** The integer cube root of [n], bit by bit from bit [k - 1] down. *)
Fixpoint icbrt (k : nat) (n r : Z) : Z :=
  match k with
  | O => r
  | S k' =>
      let c := r + 2 ^ Z.of_nat k' in
      icbrt k' n (if c * c * c <=? n then c else r)
  end.

Definition K : list Z :=
  Eval vm_compute in map (fun p => w32 (icbrt 36 (p * 2 ^ 96) 0)) primes64.

Definition H0 : list Z :=
  Eval vm_compute in map (fun p => w32 (Z.sqrt (p * 2 ^ 64))) (firstn 8 primes64).

(** Message padding: 0x80, zeros up to 56 mod 64, the bit length on 8 bytes. *)
Definition be_bytes (n : nat) (x : Z) : list Z :=
  map (fun i => Z.shiftr x (8 * Z.of_nat i) mod 256) (rev (seq 0 n)).

Definition pad (msg : list Z) : list Z :=
  let l := Z.of_nat (length msg) in
  let k := Z.to_nat ((55 - l) mod 64) in
  msg ++ [128] ++ repeat 0 k ++ be_bytes 8 (8 * l).

Fixpoint words (fuel : nat) (bs : list Z) : list Z :=
  match fuel, bs with
  | S f, a :: b :: c :: d :: r =>
      (Z.shiftl a 24 + Z.shiftl b 16 + Z.shiftl c 8 + d) :: words f r
  | _, _ => []
  end.

(** The message schedule, most recent word first. *)
Fixpoint extend (n : nat) (w : list Z) : list Z :=
  match n with
  | O => w
  | S n' =>
      let x := add32 (add32 (smallS1 (nth 1 w 0)) (nth 6 w 0))
                     (add32 (smallS0 (nth 14 w 0)) (nth 15 w 0)) in
      extend n' (x :: w)
  end.

Definition round (st : list Z) (kw : Z * Z) : list Z :=
  match st with
  | [a; b; c; d; e; f; g; h] =>
      let t1 := add32 (add32 (add32 h (bigS1 e)) (add32 (Ch e f g) (fst kw))) (snd kw) in
      let t2 := add32 (bigS0 a) (Maj a b c) in
      [add32 t1 t2; a; b; c; add32 d t1; e; f; g]
  | _ => st
  end.

Definition block (h : list Z) (blk : list Z) : list Z :=
  let w := rev (extend 48 (rev (words 16 blk))) in
  let st := fold_left round (combine K w) h in
  map (fun p => add32 (fst p) (snd p)) (combine h st).

Fixpoint blocks (fuel : nat) (h : list Z) (bs : list Z) : list Z :=
  match fuel with
  | O => h
  | S f =>
      match bs with
      | [] => h
      | _ => blocks f (block h (firstn 64 bs)) (skipn 64 bs)
      end
  end.

(** [sha256.Sum256]: the 32 digest bytes. *)
Definition sum (msg : list Z) : list Z :=
  let p := pad msg in
  flat_map (be_bytes 4) (blocks (S (length p / 64)) H0 p).

Definition hexDigit (x : Z) : ascii :=
  GoString.of_byte (if x <? 10 then 48 + x else 87 + x).

(** [fmt.Sprintf("%x", b)] for a byte slice: two lower-case digits per byte. *)
Fixpoint hex (bs : list Z) : string :=
  match bs with
  | [] => EmptyString
  | b :: r => String (hexDigit (b / 16)) (String (hexDigit (b mod 16)) (hex r))
  end.

Definition hexdigest (s : string) : string := hex (sum (GoString.bytes s)).

End Sha256.


(** ** net/url

    The functions of Go's net/url that [removeTrackingParams] and
    [http.NewRequestWithContext] go through: [Parse], [URL.Query],
    [Values.Del], [Values.Encode] and [URL.String]. *)

Module NetURL.
Import GoString.

Inductive encoding :=
| encodePath | encodePathSegment | encodeHost | encodeZone
| encodeUserPassword | encodeQueryComponent | encodeFragment.

Definition encoding_eqb (a b : encoding) : bool :=
  match a, b with
  | encodePath, encodePath | encodePathSegment, encodePathSegment
  | encodeHost, encodeHost | encodeZone, encodeZone
  | encodeUserPassword, encodeUserPassword
  | encodeQueryComponent, encodeQueryComponent
  | encodeFragment, encodeFragment => true
  | _, _ => false
  end.

(** [c] is one of the bytes of [set]. *)
Definition oneOf (set : string) (c : ascii) : bool := containsByte c set.

Definition isAlnum (c : ascii) : bool := isAlpha c || isDigit c.

Definition ishex (c : ascii) : bool :=
  isDigit c || ((97 <=? byte_of c) && (byte_of c <=? 102))
            || ((65 <=? byte_of c) && (byte_of c <=? 70)).

Definition unhex (c : ascii) : Z :=
  if isDigit c then byte_of c - 48
  else if (97 <=? byte_of c) && (byte_of c <=? 102) then byte_of c - 97 + 10
  else if (65 <=? byte_of c) && (byte_of c <=? 70) then byte_of c - 65 + 10
  else 0.

Definition upperhex (x : Z) : ascii :=
  of_byte (if x <? 10 then 48 + x else 55 + x).

Definition doubleQuote : ascii := ascii_of_nat 34.

(** [shouldEscape(c, mode)] *)
Definition shouldEscape (c : ascii) (mode : encoding) : bool :=
  if isAlnum c then false
  else if (encoding_eqb mode encodeHost || encoding_eqb mode encodeZone)
          && (oneOf "!$&'()*+,;=:[]<>" c || Ascii.eqb c doubleQuote) then false
  else if oneOf "-_.~" c then false
  else if oneOf "$&+,/:;=?@" c then
    match mode with
    | encodePath => Ascii.eqb c "?"
    | encodePathSegment => oneOf "/;,?" c
    | encodeUserPassword => oneOf "@/?:" c
    | encodeQueryComponent => true
    | encodeFragment => false
    | encodeHost | encodeZone => true
    end
  else if encoding_eqb mode encodeFragment && oneOf "!()*" c then false
  else true.

(** [unescape(s, mode)]; [None] stands for the [EscapeError] or
    [InvalidHostError] result.  Go validates the whole string and then
    decodes it; one pass that stops at the first malformed byte has the
    same outcome. *)
Fixpoint unescape (s : string) (mode : encoding) : option string :=
  match s with
  | EmptyString => Some EmptyString
  | String c r =>
      if Ascii.eqb c "%" then
        match r with
        | String a (String b r') =>
            if negb (ishex a && ishex b) then None
            else if encoding_eqb mode encodeHost && (unhex a <? 8)
                    && negb (Ascii.eqb a "2" && Ascii.eqb b "5") then None
            else if encoding_eqb mode encodeZone
                    && negb (Ascii.eqb a "2" && Ascii.eqb b "5")
                    && negb (unhex a * 16 + unhex b =? 32)
                    && shouldEscape (of_byte (unhex a * 16 + unhex b)) encodeHost then None
            else option_map (String (of_byte (unhex a * 16 + unhex b))) (unescape r' mode)
        | _ => None
        end
      else if Ascii.eqb c "+" then
        option_map (String (if encoding_eqb mode encodeQueryComponent then " "%char else c))
                   (unescape r mode)
      else if (encoding_eqb mode encodeHost || encoding_eqb mode encodeZone)
              && (byte_of c <? 128) && shouldEscape c encodeHost then None
      else option_map (String c) (unescape r mode)
  end.

(** [escape(s, mode)] *)
Fixpoint escape (s : string) (mode : encoding) : string :=
  match s with
  | EmptyString => EmptyString
  | String c r =>
      if shouldEscape c mode then
        if Ascii.eqb c " " && encoding_eqb mode encodeQueryComponent
        then String "+" (escape r mode)
        else String "%" (String (upperhex (byte_of c / 16))
               (String (upperhex (byte_of c mod 16)) (escape r mode)))
      else String c (escape r mode)
  end.

Definition QueryUnescape (s : string) : option string := unescape s encodeQueryComponent.
Definition QueryEscape (s : string) : string := escape s encodeQueryComponent.

(** [validEncoded(s, mode)] *)
Fixpoint validEncoded (s : string) (mode : encoding) : bool :=
  match s with
  | EmptyString => true
  | String c r =>
      (oneOf "!$&'()*+,;=:@[]%" c || negb (shouldEscape c mode)) && validEncoded r mode
  end.

(** [stringContainsCTLByte] *)
Fixpoint stringContainsCTLByte (s : string) : bool :=
  match s with
  | EmptyString => false
  | String c r => (byte_of c <? 32) || (byte_of c =? 127) || stringContainsCTLByte r
  end.

Record Userinfo := mkUserinfo
  { username : string; password : string; passwordSet : bool }.

Record URL := mkURL
  { Scheme : string;
    Opaque : string;
    User : option Userinfo;
    Host : string;
    Path : string;
    RawPath : string;
    OmitHost : bool;
    ForceQuery : bool;
    RawQuery : string;
    Fragment : string;
    RawFragment : string }.

Definition withQuery (q : string) (force : bool) (u : URL) : URL :=
  mkURL (Scheme u) (Opaque u) (User u) (Host u) (Path u) (RawPath u)
        (OmitHost u) force q (Fragment u) (RawFragment u).

Definition withFragment (f raw : string) (u : URL) : URL :=
  mkURL (Scheme u) (Opaque u) (User u) (Host u) (Path u) (RawPath u)
        (OmitHost u) (ForceQuery u) (RawQuery u) f raw.

(** The scan of [getScheme], with [first] telling whether [i == 0]. *)
Inductive schemeScan :=
| NoScheme
| MissingScheme
| FoundScheme (scheme rest : string).

Fixpoint scanScheme (first : bool) (s : string) : schemeScan :=
  match s with
  | EmptyString => NoScheme
  | String c r =>
      if isAlpha c then
        match scanScheme false r with
        | FoundScheme sch rest => FoundScheme (String c sch) rest
        | other => other
        end
      else if isDigit c || oneOf "+-." c then
        if first then NoScheme
        else match scanScheme false r with
             | FoundScheme sch rest => FoundScheme (String c sch) rest
             | other => other
             end
      else if Ascii.eqb c ":" then
        if first then MissingScheme else FoundScheme EmptyString r
      else NoScheme
  end.

(** [getScheme(rawURL)]: the scheme and what follows it. *)
Definition getScheme (rawURL : string) : option (string * string) :=
  match scanScheme true rawURL with
  | NoScheme => Some (EmptyString, rawURL)
  | MissingScheme => None
  | FoundScheme sch rest => Some (sch, rest)
  end.

(** The query split of [parse]: a lone trailing [?] sets [ForceQuery]. *)
Definition splitQuery (rest : string) : string * string * bool :=
  if hasSuffixByte "?" rest && (countByte "?" rest =? 1)%nat
  then (dropLast rest, EmptyString, true)
  else let '(r, q, _) := cut "?" rest in (r, q, false).

(** [validOptionalPort] *)
Fixpoint allDigits (s : string) : bool :=
  match s with
  | EmptyString => true
  | String c r => isDigit c && allDigits r
  end.

Definition validOptionalPort (port : string) : bool :=
  match port with
  | EmptyString => true
  | String c r => Ascii.eqb c ":" && allDigits r
  end.

(** [validUserinfo] *)
Fixpoint validUserinfo (s : string) : bool :=
  match s with
  | EmptyString => true
  | String c r => (isAlnum c || oneOf "-._:~!$&'()*+,;=%@" c) && validUserinfo r
  end.

(** [strings.Index(s, "%25")], as the text before the match and the text
    from the match on. *)
Fixpoint cutZone (s : string) : option (string * string) :=
  match s with
  | EmptyString => None
  | String c r =>
      if hasPrefix s "%25" then Some (EmptyString, s)
      else match cutZone r with
           | Some (b, z) => Some (String c b, z)
           | None => None
           end
  end.

(** [parseHost] *)
Definition parseHost (host : string) : option string :=
  if hasPrefix host "[" then
    match cutLast "]" host with
    | None => None
    | Some (inner, colonPort) =>
        if negb (validOptionalPort colonPort) then None
        else match cutZone inner with
             | Some (h1, z) =>
                 match unescape h1 encodeHost, unescape z encodeZone,
                       unescape (String "]" colonPort) encodeHost with
                 | Some a, Some b, Some c => Some (a +:+ b +:+ c)
                 | _, _, _ => None
                 end
             | None => unescape host encodeHost
             end
    end
  else
    match cutLast ":" host with
    | Some (_, port) =>
        if negb (validOptionalPort (String ":" port)) then None
        else unescape host encodeHost
    | None => unescape host encodeHost
    end.

(** [parseAuthority] *)
Definition parseAuthority (authority : string) : option (option Userinfo * string) :=
  match cutLast "@" authority with
  | None => option_map (fun h => (None, h)) (parseHost authority)
  | Some (userinfo, hostpart) =>
      match parseHost hostpart with
      | None => None
      | Some host =>
          if negb (validUserinfo userinfo) then None
          else if negb (containsByte ":" userinfo) then
            option_map (fun u => (Some (mkUserinfo u "" false), host))
                       (unescape userinfo encodeUserPassword)
          else
            let '(name, pass, _) := cut ":" userinfo in
            match unescape name encodeUserPassword, unescape pass encodeUserPassword with
            | Some n, Some p => Some (Some (mkUserinfo n p true), host)
            | _, _ => None
            end
      end
  end.

(** [URL.setPath] on a URL whose other fields are [base]. *)
Definition setPath (p : string) (base : URL) : option URL :=
  match unescape p encodePath with
  | None => None
  | Some path =>
      let raw := if String.eqb p (escape path encodePath) then EmptyString else p in
      Some (mkURL (Scheme base) (Opaque base) (User base) (Host base) path raw
                  (OmitHost base) (ForceQuery base) (RawQuery base)
                  (Fragment base) (RawFragment base))
  end.

(** What [parse] does with the text [rest] that is left once the scheme and
    the query have been split off ([viaRequest] is false for [Parse]). *)
Definition parseHier (scheme rest : string) : option URL :=
  let u0 := mkURL scheme "" None "" "" "" false false "" "" "" in
  if negb (hasPrefix rest "/") && negb (String.eqb scheme "") then
    Some (mkURL scheme rest None "" "" "" false false "" "" "")
  else if negb (hasPrefix rest "/")
          && containsByte ":" (fst (fst (cut "/" rest))) then None
  else if (negb (String.eqb scheme "") || negb (hasPrefix rest "///"))
          && hasPrefix rest "//" then
    let after := String.substring 2 (String.length rest - 2) rest in
    let '(authority, tail, found) := cut "/" after in
    let path := if found then String "/" tail else EmptyString in
    match parseAuthority authority with
    | None => None
    | Some (user, host) =>
        setPath path (mkURL scheme "" user host "" "" false false "" "" "")
    end
  else if negb (String.eqb scheme "") && hasPrefix rest "/" then
    setPath rest (mkURL scheme "" None "" "" "" true false "" "" "")
  else setPath rest u0.

(** [parse(rawURL, false)] *)
Definition parse (rawURL : string) : option URL :=
  if stringContainsCTLByte rawURL then None
  else if String.eqb rawURL "*" then
    Some (mkURL "" "" None "" "*" "" false false "" "" "")
  else
    match getScheme rawURL with
    | None => None
    | Some (scheme, rest) =>
        let '(rest', rawq, force) := splitQuery rest in
        option_map (withQuery rawq force) (parseHier (mapBytes toLowerByte scheme) rest')
    end.

(** [URL.setFragment] *)
Definition setFragment (f : string) (u : URL) : option URL :=
  match unescape f encodeFragment with
  | None => None
  | Some frag =>
      Some (withFragment frag
              (if String.eqb f (escape frag encodeFragment) then EmptyString else f) u)
  end.

(** [url.Parse(rawURL)]; [None] is the error result. *)
Definition Parse (rawURL : string) : option URL :=
  let '(u, frag, _) := cut "#" rawURL in
  match parse u with
  | None => None
  | Some url => if String.eqb frag "" then Some url else setFragment frag url
  end.

(** [URL.EscapedPath] *)
Definition EscapedPath (u : URL) : string :=
  if negb (String.eqb (RawPath u) "") && validEncoded (RawPath u) encodePath
     && match unescape (RawPath u) encodePath with
        | Some p => String.eqb p (Path u)
        | None => false
        end
  then RawPath u
  else if String.eqb (Path u) "*" then "*"
  else escape (Path u) encodePath.

(** [URL.EscapedFragment] *)
Definition EscapedFragment (u : URL) : string :=
  if negb (String.eqb (RawFragment u) "") && validEncoded (RawFragment u) encodeFragment
     && match unescape (RawFragment u) encodeFragment with
        | Some f => String.eqb f (Fragment u)
        | None => false
        end
  then RawFragment u
  else escape (Fragment u) encodeFragment.

(** [Userinfo.String] *)
Definition Userinfo_String (ui : Userinfo) : string :=
  escape (username ui) encodeUserPassword
  +:+ (if passwordSet ui then ":" +:+ escape (password ui) encodeUserPassword else "").

(** The part of [URL.String] written before the query: scheme, opaque text
    or authority, and path. *)
Definition hierString (u : URL) : string :=
  let buf0 := if String.eqb (Scheme u) "" then "" else Scheme u +:+ ":" in
  if negb (String.eqb (Opaque u) "") then buf0 +:+ Opaque u
  else
    let hasUser := match User u with Some _ => true | None => false end in
    let buf1 :=
      if negb (String.eqb (Scheme u) "") || negb (String.eqb (Host u) "") || hasUser then
        if OmitHost u && String.eqb (Host u) "" && negb hasUser then buf0
        else
          buf0
          +:+ (if negb (String.eqb (Host u) "") || negb (String.eqb (Path u) "") || hasUser
               then "//" else "")
          +:+ match User u with Some ui => Userinfo_String ui +:+ "@" | None => "" end
          +:+ (if negb (String.eqb (Host u) "") then escape (Host u) encodeHost else "")
      else buf0 in
    let path := EscapedPath u in
    let buf2 :=
      if negb (String.eqb path "") && negb (hasPrefix path "/")
         && negb (String.eqb (Host u) "")
      then buf1 +:+ "/" else buf1 in
    let buf3 :=
      if String.eqb buf2 "" && containsByte ":" (fst (fst (cut "/" path)))
      then buf2 +:+ "./" else buf2 in
    buf3 +:+ path.

(** [URL.String] *)
Definition URL_String (u : URL) : string :=
  hierString u
  +:+ (if ForceQuery u || negb (String.eqb (RawQuery u) "") then "?" +:+ RawQuery u else "")
  +:+ (if negb (String.eqb (Fragment u) "") then "#" +:+ EscapedFragment u else "").

(** [url.Values] is [map[string][]string]. *)
Abbreviation Values := (gmap string (list string)).

(** The body of the loop of [parseQuery] for one [&]-separated piece. *)
Definition parsePair (m : Values) (piece : string) : Values :=
  if containsByte ";" piece then m
  else if String.eqb piece "" then m
  else
    let '(key, value, _) := cut "=" piece in
    match QueryUnescape key with
    | None => m
    | Some key =>
        match QueryUnescape value with
        | None => m
        | Some value => <[ key := (m !!! key) ++ [value] ]> m
        end
    end.

(** [parseQuery(m, query)].  The loop [for query != "" { key, query, _ =
    strings.Cut(query, "&") ... }] visits the [&]-separated pieces of
    [query] from left to right; the empty piece that [Split] reports after
    a trailing [&], or for an empty query, is skipped by the loop's own
    [key == ""] test. *)
Definition parseQuery (m : Values) (query : string) : Values :=
  fold_left parsePair (split "&" query) m.

(** [URL.Query]: [ParseQuery(u.RawQuery)] with the error dropped. *)
Definition Query (u : URL) : Values := parseQuery ∅ (RawQuery u).

(** [Values.Del] *)
Definition Del (key : string) (v : Values) : Values := delete key v.

(** [sort.Strings]: ascending in the byte-wise order of Go's strings. *)
Definition sortStrings (l : list string) : list string := merge_sort String.le l.

(** [Values.Encode]: keys in sorted order, each value as [key=value].  The
    keys are collected by a range over the map and then sorted, so the order
    of that range does not show in the result. *)
Definition encodeKey (v : Values) (buf : string) (k : string) : string :=
  fold_left
    (fun buf val =>
       (if String.eqb buf "" then buf else buf +:+ "&")
       +:+ QueryEscape k +:+ "=" +:+ QueryEscape val)
    (v !!! k) buf.

Definition Encode (v : Values) : string :=
  fold_left (encodeKey v) (sortStrings (map fst (map_to_list v))) "".

End NetURL.

(** ** net/http and net/textproto *)

Module NetHTTP.
Import GoString.

(** [http.Header] is [map[string][]string]. *)
Abbreviation Header := (gmap string (list string)).

(** [http.StatusText] *)
Definition StatusTextTable : list (Z * string) :=
  [ (100, "Continue"); (101, "Switching Protocols"); (102, "Processing");
    (103, "Early Hints");
    (200, "OK"); (201, "Created"); (202, "Accepted");
    (203, "Non-Authoritative Information"); (204, "No Content");
    (205, "Reset Content"); (206, "Partial Content"); (207, "Multi-Status");
    (208, "Already Reported"); (226, "IM Used");
    (300, "Multiple Choices"); (301, "Moved Permanently"); (302, "Found");
    (303, "See Other"); (304, "Not Modified"); (305, "Use Proxy");
    (307, "Temporary Redirect"); (308, "Permanent Redirect");
    (400, "Bad Request"); (401, "Unauthorized"); (402, "Payment Required");
    (403, "Forbidden"); (404, "Not Found"); (405, "Method Not Allowed");
    (406, "Not Acceptable"); (407, "Proxy Authentication Required");
    (408, "Request Timeout"); (409, "Conflict"); (410, "Gone");
    (411, "Length Required"); (412, "Precondition Failed");
    (413, "Request Entity Too Large"); (414, "Request URI Too Long");
    (415, "Unsupported Media Type"); (416, "Requested Range Not Satisfiable");
    (417, "Expectation Failed"); (418, "I'm a teapot");
    (421, "Misdirected Request"); (422, "Unprocessable Entity");
    (423, "Locked"); (424, "Failed Dependency"); (425, "Too Early");
    (426, "Upgrade Required"); (428, "Precondition Required");
    (429, "Too Many Requests"); (431, "Request Header Fields Too Large");
    (451, "Unavailable For Legal Reasons");
    (500, "Internal Server Error"); (501, "Not Implemented");
    (502, "Bad Gateway"); (503, "Service Unavailable");
    (504, "Gateway Timeout"); (505, "HTTP Version Not Supported");
    (506, "Variant Also Negotiates"); (507, "Insufficient Storage");
    (508, "Loop Detected"); (510, "Not Extended");
    (511, "Network Authentication Required") ].

Fixpoint lookupStatus (code : Z) (t : list (Z * string)) : string :=
  match t with
  | [] => ""
  | (c, txt) :: r => if c =? code then txt else lookupStatus code r
  end.

Definition StatusText (code : Z) : string := lookupStatus code StatusTextTable.

Definition StatusBadGateway : Z := 502.
Definition StatusRequestEntityTooLarge : Z := 413.

(** [validHeaderFieldByte]: the token bytes of RFC 7230. *)
Definition validHeaderFieldByte (c : ascii) : bool :=
  isAlpha c || isDigit c || containsByte c "!#$%&'*+-.^_`|~".

Fixpoint allBytes (p : ascii -> bool) (s : string) : bool :=
  match s with
  | EmptyString => true
  | String c r => p c && allBytes p r
  end.

Fixpoint canonicalize (upper : bool) (s : string) : string :=
  match s with
  | EmptyString => EmptyString
  | String c r =>
      let c' := if upper then toUpperByte c else toLowerByte c in
      String c' (canonicalize (Ascii.eqb c' "-") r)
  end.

(** [textproto.CanonicalMIMEHeaderKey]: a key with a byte outside the
    token set is returned unchanged. *)
Definition CanonicalMIMEHeaderKey (s : string) : string :=
  if allBytes validHeaderFieldByte s then canonicalize true s else s.

(** [Header.Add] and [Header.Set] *)
Definition Header_Add (key value : string) (h : Header) : Header :=
  let k := CanonicalMIMEHeaderKey key in <[ k := (h !!! k) ++ [value] ]> h.

Definition Header_Set (key value : string) (h : Header) : Header :=
  <[ CanonicalMIMEHeaderKey key := [value] ]> h.

(** [validMethod]: a non-empty token. *)
Definition isTokenByte (c : ascii) : bool :=
  (byte_of c <? 127) && (isAlpha c || isDigit c || containsByte c "!#$%&'*+-.^_`|~").

Definition validMethod (m : string) : bool :=
  (0 <? len m) && allBytes isTokenByte m.

(** The fields of [http.Request] the middleware reads.  [Header_] is the
    field [Header] ([Header] names its type here), and [Body] is the content
    of the request's body stream when the request arrives. *)
Record Request := mkRequest
  { Method : string;
    RequestURI : string;
    Header_ : Header;
    Host : string;
    RemoteAddr : string;
    ContentLength : Z;
    Body : string }.

(** [http.ResponseWriter]: the header map, the status line once written,
    and the body bytes written so far. *)
Record ResponseWriter := mkRW
  { rw_Header : Header;
    rw_status : option Z;
    rw_body : string }.

Definition freshRW : ResponseWriter := mkRW ∅ None "".

(** [rw.WriteHeader(code)]: a second call is ignored.  (Go panics on a code
    outside 100..999; its own client and server never produce one.) *)
Definition WriteHeader (code : Z) (rw : ResponseWriter) : ResponseWriter :=
  match rw_status rw with
  | Some _ => rw
  | None => mkRW (rw_Header rw) (Some code) (rw_body rw)
  end.

(** [rw.Write(data)]: writes the 200 status line first if none was written. *)
Definition Write (data : string) (rw : ResponseWriter) : ResponseWriter :=
  let rw' := WriteHeader 200 rw in
  mkRW (rw_Header rw') (rw_status rw') (rw_body rw' +:+ data).

Definition newline : string := String (ascii_of_nat 10) "".

(** [http.Error(rw, msg, code)] *)
Definition Error (msg : string) (code : Z) (rw : ResponseWriter) : ResponseWriter :=
  let h := Header_Set "X-Content-Type-Options" "nosniff"
             (Header_Set "Content-Type" "text/plain; charset=utf-8" (rw_Header rw)) in
  Write (msg +:+ newline)
        (WriteHeader code (mkRW h (rw_status rw) (rw_body rw))).

(** What one reader of a stream obtains from it: some bytes, then either
    end-of-file ([None]) or a read error. *)
Record Stream := mkStream { s_bytes : string; s_err : option string }.

Definition errBodyTooLarge : string := "http: request body too large".

(** [n, err := io.Copy(ioutil.Discard, http.MaxBytesReader(rw, r, limit))]:
    a negative limit counts as 0; once more than [limit] bytes arrive the
    copy stops with the too-large error after [limit] bytes.  (On that error
    the server's own response writer is also told to close the connection;
    this is not kept.) *)
Definition copyMaxBytes (limit : Z) (r : Stream) : Z * option string :=
  let n := if limit <? 0 then 0 else limit in
  if n <? len (s_bytes r) then (n, Some errBodyTooLarge)
  else (len (s_bytes r), s_err r).

(** The body of an [http.Response]: [ioutil.NopCloser] around a byte
    reader, whose [Close] does nothing, or a network body. *)
Inductive RespBody :=
| NilBody
| NopCloser (data : string)
| NetBody (data : string) (closed : bool).

Definition closeBody (b : RespBody) : RespBody :=
  match b with
  | NetBody d _ => NetBody d true
  | other => other
  end.

(** The bytes [io.Copy] obtains from a response body. *)
Definition readAll (b : RespBody) : string :=
  match b with
  | NopCloser d => d
  | NetBody d false => d
  | _ => ""
  end.

(** The fields [StatusCode], [Header] and [Body] of [http.Response]. *)
Record Response := mkResponse
  { StatusCode : Z;
    RespHeader : Header;
    RespBody_ : RespBody }.

End NetHTTP.

(** ** go-cache

    [cache.New(5*time.Minute, 10*time.Minute)]: every item carries the
    instant (in nanoseconds) at which it expires.  The janitor that runs
    every ten minutes deletes items that [Get] already reports as missing,
    so it is not modelled. *)

Module GoCache.

Record Item := mkItem { Object : Z; Expiration : Z }.

Abbreviation Cache := (gmap string Item).

Definition DefaultExpiration : Z := 5 * 60 * 1000000000.

(** [c.Get(k)] at clock reading [now]. *)
Definition Get (now : Z) (k : string) (c : Cache) : option Z :=
  match c !! k with
  | None => None
  | Some it =>
      if (0 <? Expiration it) && (Expiration it <? now) then None
      else Some (Object it)
  end.

(** [c.SetDefault(k, x)] at clock reading [now]. *)
Definition SetDefault (now : Z) (k : string) (x : Z) (c : Cache) : Cache :=
  <[ k := mkItem x (now + DefaultExpiration) ]> c.

End GoCache.

(** ** The plugin *)

Module Plugin.
Import GoString NetHTTP.

(** *** modesecurity_helpers.go *)

Fixpoint contains (methods : list string) (method : string) : bool :=
  match methods with
  | [] => false
  | m :: r => if String.eqb m method then true else contains r method
  end.

(** Check if the request is a websocket upgrade *)
Definition isWebsocket (req : Request) : bool :=
  contains (Header_ req !!! "Upgrade") "websocket".

Definition trackingParams : list string :=
  [ "fbclid"; "gclid"; "gclsrc"; "dclid";
    "utm_content"; "utm_term"; "utm_campaign"; "utm_medium"; "utm_source"; "utm_id";
    "_ga"; "mc_cid"; "mc_eid"; "_bta_tid"; "_bta_c";
    "trk_contact"; "trk_msg"; "trk_module"; "trk_sid";
    "gdfms"; "gdftrk"; "gdffi"; "_ke";
    "redirect_log_mongo_id"; "redirect_mongo_id"; "sb_referer_host";
    "mkwid"; "pcrid"; "ef_id"; "s_kwcid"; "msclkid"; "dm_i"; "epik";
    "pk_campaign"; "pk_kwd"; "pk_keyword";
    "piwik_campaign"; "piwik_kwd"; "piwik_keyword";
    "mtm_campaign"; "mtm_keyword"; "mtm_source"; "mtm_medium"; "mtm_content";
    "mtm_cid"; "mtm_group"; "mtm_placement";
    "matomo_campaign"; "matomo_keyword"; "matomo_source"; "matomo_medium";
    "matomo_content"; "matomo_cid"; "matomo_group"; "matomo_placement";
    "hsa_cam"; "hsa_grp"; "hsa_mt"; "hsa_src"; "hsa_ad"; "hsa_acc";
    "hsa_net"; "hsa_kw"; "hsa_tgt"; "hsa_ver" ].

Definition removeTrackingParams (inputURL : string) : string :=
  match NetURL.Parse inputURL with
  | None => inputURL
  | Some parsedURL =>
      let query := NetURL.Query parsedURL in
      let query := fold_left (fun q param => NetURL.Del param q) trackingParams query in
      NetURL.URL_String
        (NetURL.withQuery (NetURL.Encode query) (NetURL.ForceQuery parsedURL) parsedURL)
  end.

(** *** modesecurity_cache.go *)

(** CacheKeyConditions contains the conditions for generating a cache key. *)
Record CacheKeyConditions := mkConditions
  { Methods : list string;
    NoBody : option bool }.

(** CacheKeyOptions contains the options for generating a cache key. *)
Record CacheKeyOptions := mkOptions
  { IncludeMethod : option bool;
    IncludeRequestURI : option bool;
    IncludeHeaders : option bool;
    Headers : list string;
    MatchAllHeaders : option bool;
    IncludeHost : option bool;
    IncludeRemoteAddress : option bool }.

(** [p != nil && *p] *)
Definition isSet (p : option bool) : bool :=
  match p with Some b => b | None => false end.

(** Check evaluates if the current request meets the caching conditions. *)
Definition Check (c : CacheKeyConditions) (req : Request) : bool :=
  if (0 <? Z.of_nat (length (Methods c))) && negb (contains (Methods c) (Method req))
  then false
  else match NoBody c with
       | Some nb => if negb (Bool.eqb nb (ContentLength req =? 0)) then false else true
       | None => true
       end.

(** The order in which one [for key, values := range h] statement yields
    the entries of the map [h].  Go leaves it unspecified and varies it
    from one loop to the next; every order is some arrangement of the
    entries of the map. *)
Definition RangeOrder := Header -> list (string * list string).

Definition validRange (range : RangeOrder) : Prop :=
  forall h, range h ≡ₚ map_to_list h.

(** The writes of one header entry: the key, then each value. *)
Definition headerWrites (kv : string * list string) : list string :=
  fst kv :: snd kv.

(** The byte strings passed to [hasher.Write], in order. *)
Definition hasherWrites (range : RangeOrder) (req : Request)
           (options : CacheKeyOptions) : list string :=
  (if isSet (IncludeMethod options) then [Method req] else [])
  ++ (if isSet (IncludeRequestURI options)
      then [removeTrackingParams (RequestURI req)] else [])
  ++ (if isSet (IncludeHeaders options) then
        if isSet (MatchAllHeaders options) then
          flat_map headerWrites (range (Header_ req))
        else
          let headerKeys : gset string := list_to_set (Headers options) in
          flat_map headerWrites
            (filter (fun kv => fst kv ∈ headerKeys) (range (Header_ req)))
      else [])
  ++ (if isSet (IncludeHost options) then [Host req] else [])
  ++ (if isSet (IncludeRemoteAddress options) then [RemoteAddr req] else []).

(** generateCacheKey creates a cache key based on the request and options
    provided. *)
Definition generateCacheKey (range : RangeOrder) (req : Request)
           (options : CacheKeyOptions) : string :=
  Sha256.hexdigest (String.concat "" (hasherWrites range req options)).

(** *** modsecurity.go: configuration *)

Record Config := mkConfig
  { TimeoutMillis : Z;
    ModSecurityUrl : string;
    MaxBodySize : Z;
    CacheEnabled : option bool;
    CacheConditionsMethods : list string;
    CacheConditionsNoBody : option bool;
    CacheKeyIncludeMethod : option bool;
    CacheKeyIncludeRequestURI : option bool;
    CacheKeyIncludeHeaders : option bool;
    CacheKeyHeaders : list string;
    CacheKeyMatchAllHeaders : option bool;
    CacheKeyIncludeHost : option bool;
    CacheKeyIncludeRemoteAddress : option bool;
    CacheConditions : CacheKeyConditions;
    CacheKey : CacheKeyOptions }.

Definition boolPtr (b : bool) : option bool := Some b.

(** CreateConfig creates a default plugin configuration with predefined
    values.  Fields that [finalize] does not mention hold Go's zero value. *)
Definition CreateConfig : Config :=
  let init_CacheEnabled := boolPtr true in
  let init_CacheConditionsMethods := ["GET"] in
  let init_CacheConditionsNoBody := boolPtr true in
  let init_CacheKeyIncludeHost := boolPtr true in
  let init_CacheKeyIncludeMethod := boolPtr true in
  let init_CacheKeyIncludeRequestURI := boolPtr true in
  let init_CacheKeyIncludeHeaders := boolPtr false in
  let init_CacheKeyMatchAllHeaders := boolPtr false in
  let init_CacheKeyHeaders := ["Authorization"; "User-Agent"; "Cache-Control"] in
  let init_CacheKeyIncludeRemoteAddress := boolPtr false in
  {| TimeoutMillis := 2000;
     ModSecurityUrl := "";
     MaxBodySize := 10 * 1024 * 1024;
     CacheEnabled := init_CacheEnabled;
     CacheConditionsMethods := [];
     CacheConditionsNoBody := None;
     CacheKeyIncludeMethod := None;
     CacheKeyIncludeRequestURI := None;
     CacheKeyIncludeHeaders := None;
     CacheKeyHeaders := [];
     CacheKeyMatchAllHeaders := None;
     CacheKeyIncludeHost := None;
     CacheKeyIncludeRemoteAddress := None;
     CacheConditions :=
       {| Methods := init_CacheConditionsMethods;
          NoBody := init_CacheConditionsNoBody |};
     CacheKey :=
       {| IncludeMethod := init_CacheKeyIncludeMethod;
          IncludeRequestURI := init_CacheKeyIncludeRequestURI;
          IncludeHeaders := init_CacheKeyIncludeHeaders;
          MatchAllHeaders := init_CacheKeyMatchAllHeaders;
          Headers := init_CacheKeyHeaders;
          IncludeHost := init_CacheKeyIncludeHost;
          IncludeRemoteAddress := init_CacheKeyIncludeRemoteAddress |} |}.

(** The fields of [Modsecurity] that are plain data.  [next], [httpClient]
    and [cache] are the collaborators of the [Env] and the [World] below;
    of the client only its [Timeout] (in nanoseconds) is kept. *)
Record Modsecurity := mkModsecurity
  { modSecurityUrl : string;
    maxBodySize : Z;
    name : string;
    httpClientTimeout : Z;
    cacheEnabled : bool;
    cacheConditions : CacheKeyConditions;
    cacheKey : CacheKeyOptions }.

(** [int64] arithmetic wraps around. *)
Definition wrap64 (z : Z) : Z := (z + 2^63) mod 2^64 - 2^63.
Definition MaxInt64 : Z := 2^63 - 1.

Definition Second : Z := 1000000000.
Definition Millisecond : Z := 1000000.

(** New create a new Modsecurity plugin with the given configuration.
    The error result is [inr]. *)
Definition New (config : Config) (name : string) : Modsecurity + string :=
  if len (ModSecurityUrl config) =? 0 then inr "modSecurityUrl cannot be empty"
  else
    let timeout :=
      if TimeoutMillis config =? 0 then 2 * Second
      else wrap64 (TimeoutMillis config * Millisecond) in
    inl {| modSecurityUrl := ModSecurityUrl config;
           maxBodySize := MaxBodySize config;
           name := name;
           httpClientTimeout := timeout;
           cacheEnabled := isSet (CacheEnabled config);
           cacheConditions := CacheConditions config;
           cacheKey := CacheKey config |}.

(** *** The collaborators and the shared state *)

(** The request that [PrepareForwardedRequest] hands to the HTTP client.
    [pr_Body] is what the client obtains when it reads [req.Body]. *)
Record ProxyRequest := mkProxyRequest
  { pr_Method : string;
    pr_URL : string;
    pr_Header : Header;
    pr_Body : Stream }.

(** [req.Body] as the backend handler finds it. *)
Inductive ReqBody :=
| Unread (data : string)
| Closed.

Inductive Event :=
| EvCacheGet (key : string)
| EvCacheSet (key : string) (code : Z)
| EvEvaluate (proxyReq : ProxyRequest)
| EvBackend (req : Request) (body : ReqBody).

(** What outlives one request: the verdict cache, the [*http.Response]
    objects with the pool of released ones, and the log of the calls made
    to the cache, to the evaluation service and to the backend. *)
Record World := mkWorld
  { cache : GoCache.Cache;
    heap : gmap nat Response;
    cacheResponsePool : list nat;
    nextLoc : nat;
    trace : list Event }.

Definition initialWorld : World := mkWorld ∅ ∅ [] 0 [].

(** What one call of [ServeHTTP] meets outside the plugin.  The two
    goroutines of [ServeHTTP] read the one stream [req.Body]; [guardReads]
    and [clientReads] are what each of them obtains from it. *)
Record Env := mkEnv
  { guardReads : Stream;
    clientReads : Stream;
    rangeKey : RangeOrder;
    rangeForward : RangeOrder;
    poolPick : nat;
    clockGet : Z;
    clockSet : Z;
    httpClientDo : ProxyRequest -> Response + string;
    next : Request -> ReqBody -> ResponseWriter -> ResponseWriter }.

(** The two readers share the bytes of a prefix of the body between them. *)
Inductive interleave : list ascii -> list ascii -> list ascii -> Prop :=
| interleave_nil : interleave [] [] []
| interleave_l c a b m : interleave a b m -> interleave (c :: a) b (c :: m)
| interleave_r c a b m : interleave a b m -> interleave a (c :: b) (c :: m).

Definition sharesBody (body : string) (g c : Stream) : Prop :=
  exists m rest,
    interleave (list_ascii_of_string (s_bytes g)) (list_ascii_of_string (s_bytes c)) m
    /\ list_ascii_of_string body = m ++ rest.

(** State passing over the [World]. *)
Definition M (A : Type) : Type := World -> A * World.

#[export] Instance M_ret : MRet M := fun A x w => (x, w).
#[export] Instance M_bind : MBind M :=
  fun A B f m w => let '(x, w') := m w in f x w'.

Definition logEvent (e : Event) : M unit :=
  fun w => (tt, mkWorld (cache w) (heap w) (cacheResponsePool w) (nextLoc w)
                        (trace w ++ [e])).

Definition cacheGet (now : Z) (k : string) : M (option Z) :=
  fun w => (GoCache.Get now k (cache w),
            mkWorld (cache w) (heap w) (cacheResponsePool w) (nextLoc w)
                    (trace w ++ [EvCacheGet k])).

Definition cacheSetDefault (now : Z) (k : string) (x : Z) : M unit :=
  fun w => (tt, mkWorld (GoCache.SetDefault now k x (cache w)) (heap w)
                        (cacheResponsePool w) (nextLoc w)
                        (trace w ++ [EvCacheSet k x])).

(** A new [http.Response] object. *)
Definition alloc (r : Response) : M nat :=
  fun w => (nextLoc w,
            mkWorld (cache w) (<[ nextLoc w := r ]> (heap w)) (cacheResponsePool w)
                    (S (nextLoc w)) (trace w)).

(** [cacheResponsePool.New]: [&http.Response{Header: make(http.Header)}]. *)
Definition poolNew : Response := mkResponse 0 ∅ NilBody.

#[export] Instance Response_inhabited : Inhabited Response := populate poolNew.

Definition load (l : nat) : M Response := fun w => (heap w !!! l, w).

Definition store (l : nat) (r : Response) : M unit :=
  fun w => (tt, mkWorld (cache w) (<[ l := r ]> (heap w)) (cacheResponsePool w)
                        (nextLoc w) (trace w)).

(** [cacheResponsePool.Get()]: some pooled object, which leaves the pool,
    or the result of [New] when there is none to take; [pick] is the
    choice the runtime makes. *)
Definition poolGet (pick : nat) : M nat :=
  fun w =>
    match cacheResponsePool w !! pick with
    | Some l =>
        (l, mkWorld (cache w) (heap w) (delete pick (cacheResponsePool w))
                    (nextLoc w) (trace w))
    | None => alloc poolNew w
    end.

(** [cacheResponsePool.Put(resp)] *)
Definition poolPut (l : nat) : M unit :=
  fun w => (tt, mkWorld (cache w) (heap w) (l :: cacheResponsePool w)
                        (nextLoc w) (trace w)).

Definition newPooledCacheResponse (pick : nat) (statusCode : Z) (body : string) : M nat :=
  resp ← poolGet pick;
  r ← load resp;
  (* Set the status text based on the body *)
  let statusText := if 0 <? len body then body else StatusText statusCode in
  store resp (mkResponse statusCode
                         (Header_Set "Status-Text" statusText (RespHeader r))
                         (NopCloser body));;
  mret resp.

Definition putResponse (resp : nat) : M unit :=
  r ← load resp;
  store resp (mkResponse (StatusCode r) ∅ (closeBody (RespBody_ r)));;
  poolPut resp.

(** [http.NewRequestWithContext(context.Background(), method, url, body)] *)
Definition NewRequestWithContext (method url : string) (body : Stream)
  : ProxyRequest + string :=
  let method := if String.eqb method "" then "GET" else method in
  if negb (validMethod method) then inr "net/http: invalid method"
  else match NetURL.Parse url with
       | None => inr "parse error"
       | Some _ => inl (mkProxyRequest method url ∅ body)
       end.

(** *** modsecurity.go: PrepareForwardedRequest *)

Definition PrepareForwardedRequest (a : Modsecurity) (env : Env) (req : Request)
  : M (nat + string) :=
  let url := modSecurityUrl a +:+ RequestURI req in
  match NewRequestWithContext (Method req) url (clientReads env) with
  | inr err => mret (inr err)
  | inl proxyReq =>
      let proxyReq := mkProxyRequest (pr_Method proxyReq) (pr_URL proxyReq)
                                     (Header_ req) (pr_Body proxyReq) in
      logEvent (EvEvaluate proxyReq);;
      match httpClientDo env proxyReq with
      | inr err => mret (inr err)
      | inl resp => l ← alloc resp; mret (inl l)
      end
  end.

(** *** modesecurity_cache.go: GetCachedResponse *)

Definition GetCachedResponse (a : Modsecurity) (env : Env) (req : Request)
           (options : CacheKeyOptions) : M (nat + string) :=
  let cacheKey := generateCacheKey (rangeKey env) req options in
  found ← cacheGet (clockGet env) cacheKey;
  match found with
  | Some cachedCode =>
      (* convert cachedCode to a 3-digit code *)
      let statusCode := Z.rem cachedCode 1000 in
      let body := StatusText statusCode in
      resp ← newPooledCacheResponse (poolPick env) statusCode body;
      (* the deferred putResponse(resp) runs as the function returns *)
      putResponse resp;;
      mret (inl resp)
  | None =>
      r ← PrepareForwardedRequest a env req;
      match r with
      | inr err => mret (inr err)
      | inl resp =>
          (* only cache response codes *)
          rv ← load resp;
          let cachedCode := Z.rem (StatusCode rv) 1000 in
          cacheSetDefault (clockSet env) cacheKey cachedCode;;
          mret (inl resp)
      end
  end.

(** *** modsecurity_handlers.go *)

(** HandleRequestBodyMaxSize - handle request body max size.  [reads] is
    what the reads of [req.Body] return; the result is the response writer
    and the error, if any. *)
Definition HandleRequestBodyMaxSize (a : Modsecurity) (reads : Stream)
           (rw : ResponseWriter) : ResponseWriter * option string :=
  let '(n, err) := copyMaxBytes (wrap64 (maxBodySize a + 1)) reads in
  match err with
  | Some e =>
      if String.eqb e "http: request body too large"
      then (Error "" StatusRequestEntityTooLarge rw, Some e)
      else (Error "" StatusBadGateway rw, Some e)
  | None =>
      if maxBodySize a <? n
      then (Error "" StatusRequestEntityTooLarge rw,
            Some "http: request body too large")
      else (rw, None)
  end.

Definition HandleCacheAndForwardRequest (a : Modsecurity) (env : Env) (req : Request)
  : M (nat + string) :=
  (* if cache is disabled, immediately forward to modsecurity *)
  if negb (cacheEnabled a) then PrepareForwardedRequest a env req
  (* get from our memory cache if possible *)
  else if Check (cacheConditions a) req then
    GetCachedResponse a env req (cacheKey a)
  (* forward to modsecurity *)
  else PrepareForwardedRequest a env req.

(** *** modsecurity.go: ServeHTTP and forwardResponse *)

(** Forward the HTTP response to the client *)
Definition forwardResponse (range : RangeOrder) (resp : Response)
           (rw : ResponseWriter) : ResponseWriter :=
  (* copy other headers *)
  let h := fold_left
             (fun h kv => fold_left (fun h v => Header_Add (fst kv) v h) (snd kv) h)
             (range (RespHeader resp)) (rw_Header rw) in
  (* copy status *)
  let rw := WriteHeader (StatusCode resp) (mkRW h (rw_status rw) (rw_body rw)) in
  (* copy body *)
  Write (readAll (RespBody_ resp)) rw.

(** [ServeHTTP].  The two goroutines meet only in [req.Body]: the body guard
    otherwise touches [rw] alone, the verdict task the cache, the pool and
    the evaluation service alone.  Given what each of them reads from the
    body ([guardReads], [clientReads]) their effects are those of running
    one after the other, which is how they are written here.

    This is the request served with no other request at work between the
    join and the reads of [resp] that follow it.  On a cache hit [resp] is
    by then back in the package-level pool, within reach of every other
    request: [ServeHTTPAmong] below is the same code with other requests
    in that place. *)
Definition ServeHTTP (a : Modsecurity) (env : Env) (rw : ResponseWriter)
           (req : Request) : M ResponseWriter :=
  if isWebsocket req then
    logEvent (EvBackend req (Unread (Body req)));;
    mret (next env req (Unread (Body req)) rw)
  else
    let '(rw, reqErr) := HandleRequestBodyMaxSize a (guardReads env) rw in
    r ← HandleCacheAndForwardRequest a env req;
    match reqErr, r with
    | None, inl resp =>
        rv ← load resp;
        if 400 <=? StatusCode rv then
          let rw := forwardResponse (rangeForward env) rv rw in
          (* deferred Body.Close() *)
          store resp (mkResponse (StatusCode rv) (RespHeader rv)
                                 (closeBody (RespBody_ rv)));;
          mret rw
        else
          logEvent (EvBackend req Closed);;
          let rw := next env req Closed rw in
          store resp (mkResponse (StatusCode rv) (RespHeader rv)
                                 (closeBody (RespBody_ rv)));;
          mret rw
    | _, _ => mret rw
    end.

(** The verdict tasks of other requests served by the same plugin, one after
    the other.  The verdict task is where a request touches what requests
    share, the cache of the plugin and the package-level pool with its
    objects.  The log stays that of the request under study. *)
Fixpoint runOthers (a : Modsecurity) (others : list (Env * Request)) : M unit :=
  match others with
  | [] => mret tt
  | (env', req') :: rest =>
      fun w =>
        let w' := snd (HandleCacheAndForwardRequest a env' req' w) in
        runOthers a rest
          (mkWorld (cache w') (heap w') (cacheResponsePool w') (nextLoc w') (trace w))
  end.

(** [ServeHTTP] while other requests are served: the verdict tasks of
    [others] run once the two goroutines of this request have joined
    ([wg.Wait()] has returned) and before the code that follows reads
    [resp].  With no other request this is [ServeHTTP]. *)
Definition ServeHTTPAmong (others : list (Env * Request)) (a : Modsecurity)
           (env : Env) (rw : ResponseWriter) (req : Request) : M ResponseWriter :=
  if isWebsocket req then
    logEvent (EvBackend req (Unread (Body req)));;
    mret (next env req (Unread (Body req)) rw)
  else
    let '(rw, reqErr) := HandleRequestBodyMaxSize a (guardReads env) rw in
    r ← HandleCacheAndForwardRequest a env req;
    runOthers a others;;
    match reqErr, r with
    | None, inl resp =>
        rv ← load resp;
        if 400 <=? StatusCode rv then
          let rw := forwardResponse (rangeForward env) rv rw in
          (* deferred Body.Close() *)
          store resp (mkResponse (StatusCode rv) (RespHeader rv)
                                 (closeBody (RespBody_ rv)));;
          mret rw
        else
          logEvent (EvBackend req Closed);;
          let rw := next env req Closed rw in
          store resp (mkResponse (StatusCode rv) (RespHeader rv)
                                 (closeBody (RespBody_ rv)));;
          mret rw
    | _, _ => mret rw
    end.

End Plugin.

(** * Events and sample scenarios *)

Import GoString NetHTTP Plugin.

(** An event that is a call to the evaluation service. *)
Definition isEvaluate (e : Event) : Prop := exists p, e = EvEvaluate p.

(** An event that is a call of the backend handler. *)
Definition isBackend (e : Event) : Prop := exists r b, e = EvBackend r b.

Definition wsRequest : Request :=
  mkRequest "GET" "/chat" {[ "Upgrade" := ["websocket"] ]} "example.com"
            "10.0.0.1:4000" 0 "hello".

Definition quietEnv : Env :=
  mkEnv (mkStream "" None) (mkStream "" None) map_to_list map_to_list 0 0 0
        (fun _ => inr "connection refused") (fun _ _ rw => Write "backend" rw).

Definition defaultPlugin : Modsecurity :=
  mkModsecurity "http://waf" (10 * 1024 * 1024) "waf" (2 * Second) true
                (CacheConditions CreateConfig) (CacheKey CreateConfig).


Definition postRequest : Request :=
  mkRequest "POST" "/login" ∅ "example.com" "10.0.0.1:4000" 1 "x".

Definition getRequest : Request :=
  mkRequest "GET" "/index.html" ∅ "example.com" "10.0.0.1:4000" 0 "".

(** [CreateConfig()] with the service address set and [maxBodySize: 0]. *)
Definition zeroSizeConfig : Config :=
  mkConfig (TimeoutMillis CreateConfig) "http://waf" 0
           (CacheEnabled CreateConfig) [] None None None None [] None None None
           (CacheConditions CreateConfig) (CacheKey CreateConfig).

(** [CreateConfig()] with the service address set and [timeoutMillis: 0]. *)
Definition zeroTimeoutConfig : Config :=
  mkConfig 0 "http://waf" (MaxBodySize CreateConfig)
           (CacheEnabled CreateConfig) [] None None None None [] None None None
           (CacheConditions CreateConfig) (CacheKey CreateConfig).

(** A world whose cache holds the verdict 403 for [getRequest] under the
    default key options, written at clock reading 0. *)
Definition warmWorld : World :=
  mkWorld (GoCache.SetDefault 0
             (generateCacheKey map_to_list getRequest (CacheKey CreateConfig)) 403 ∅)
          ∅ [] 0 [].



(** No event of the list is a call of the backend handler. *)
Definition noBackendCall (evs : list Event) : Prop :=
  Forall (fun e => ~ isBackend e) evs.

(** The events of the verdict sub-pipeline. *)
Definition isVerdictEvent (e : Event) : Prop :=
  isEvaluate e \/ (exists k, e = EvCacheGet k) \/ (exists k c, e = EvCacheSet k c).

(** An evaluation service that rejects with 403 and one that allows. *)
Definition rejectingEnv : Env :=
  mkEnv (mkStream "" None) (mkStream "" None) map_to_list map_to_list 0 10 20
        (fun _ => inl (mkResponse 403 {[ "Content-Type" := ["text/html"] ]}
                                  (NetBody "Blocked" false)))
        (fun _ _ rw => Write "backend" rw).

Definition allowingEnv : Env :=
  mkEnv (mkStream "" None) (mkStream "" None) map_to_list map_to_list 0 10 20
        (fun _ => inl (mkResponse 200 ∅ (NetBody "Response from waf" false)))
        (fun _ _ rw => Write "backend" rw).


(** A plugin with a four-byte ceiling and a POST of five bytes.  The body
    guard reads all five bytes; the HTTP client, reading the same stream,
    finds it at end-of-file. *)
Definition smallPlugin : Modsecurity :=
  mkModsecurity "http://waf" 4 "waf" (2 * Second) true
                (CacheConditions CreateConfig) (CacheKey CreateConfig).

Definition oversizedPost : Request :=
  mkRequest "POST" "/upload" ∅ "example.com" "10.0.0.1:4000" 5 "abcde".

Definition guardFirstEnv : Env :=
  mkEnv (mkStream "abcde" None) (mkStream "" None) map_to_list map_to_list 0 10 20
        (fun _ => inl (mkResponse 200 ∅ (NetBody "Response from waf" false)))
        (fun _ _ rw => Write "backend" rw).

(** The same request when the HTTP client takes the last byte of the body
    before the guard gets to it. *)
Definition clientTakesByteEnv : Env :=
  mkEnv (mkStream "abcd" None) (mkStream "e" None) map_to_list map_to_list 0 10 20
        (fun _ => inl (mkResponse 200 ∅ (NetBody "Response from waf" false)))
        (fun _ _ rw => Write "backend" rw).

Definition exactPost : Request :=
  mkRequest "POST" "/upload" ∅ "example.com" "10.0.0.1:4000" 4 "abcd".

Definition exactEnv : Env :=
  mkEnv (mkStream "abcd" None) (mkStream "" None) map_to_list map_to_list 0 10 20
        (fun _ => inl (mkResponse 200 ∅ (NetBody "Response from waf" false)))
        (fun _ _ rw => Write "backend" rw).

(** The number of calls to the evaluation service in a log. *)
Definition isEvaluateb (e : Event) : bool :=
  match e with EvEvaluate _ => true | _ => false end.

Definition evaluations (evs : list Event) : nat :=
  length (List.filter isEvaluateb evs).

(** A plugin whose cache key includes every header, and one request with two
    headers, handled twice; the second time the runtime ranges over the
    header map in the opposite order. *)
Definition allHeadersOptions : CacheKeyOptions :=
  mkOptions (Some true) (Some true) (Some true) [] (Some true) (Some true) (Some false).

Definition allHeadersPlugin : Modsecurity :=
  mkModsecurity "http://waf" (10 * 1024 * 1024) "waf" (2 * Second) true
                (CacheConditions CreateConfig) allHeadersOptions.

Definition twoHeaderRequest : Request :=
  mkRequest "GET" "/index.html"
            {[ "Accept" := ["text/html"]; "User-Agent" := ["curl/8.0"] ]}
            "example.com" "10.0.0.1:4000" 0 "".

Definition reversedRange : RangeOrder := fun h => reverse (map_to_list h).

Definition firstVisitEnv : Env :=
  mkEnv (mkStream "" None) (mkStream "" None) map_to_list map_to_list 0 10 20
        (fun _ => inl (mkResponse 200 ∅ (NetBody "Response from waf" false)))
        (fun _ _ rw => Write "backend" rw).

Definition secondVisitEnv : Env :=
  mkEnv (mkStream "" None) (mkStream "" None) reversedRange map_to_list 0 30 40
        (fun _ => inl (mkResponse 200 ∅ (NetBody "Response from waf" false)))
        (fun _ _ rw => Write "backend" rw).

Definition allowListOptions : CacheKeyOptions :=
  mkOptions (Some true) (Some true) (Some true) ["Accept"; "User-Agent"] (Some false)
            (Some true) (Some false).

(** The entries of the header map that take part in the key, in the order
    the range over the map yields them. *)
Definition selectedHeaders (options : CacheKeyOptions)
           (entries : list (string * list string)) : list (string * list string) :=
  if isSet (MatchAllHeaders options) then entries
  else filter (fun kv => fst kv ∈ (list_to_set (Headers options) : gset string)) entries.

(** A later request for the same resource from another client port. *)
Definition getRequestAgain : Request :=
  mkRequest "GET" "/index.html" ∅ "example.com" "10.0.0.1:4001" 0 "".

(** *** Request URIs that differ in tracking parameters *)

(** The key of one [&]-separated piece of a raw query: the text before its
    first [=]. *)
Definition pieceKey (piece : string) : string := fst (fst (cut "=" piece)).

(** The piece names a parameter of the built-in removal set. *)
Definition isTrackingPiece (piece : string) : bool :=
  contains trackingParams (pieceKey piece).

(** The pieces that [removeTrackingParams] is to let through: those that
    name a parameter outside the removal set.  An empty piece, as found
    between [&&] or after a trailing [&], names no parameter. *)
Definition droppedPiece (piece : string) : bool :=
  String.eqb piece "" || isTrackingPiece piece.

Definition keptPieces (pieces : list string) : list string :=
  List.filter (fun p => negb (droppedPiece p)) pieces.

(** The query text of a request URI with the given pieces: nothing when
    there is none, else [?] and the pieces joined by [&]. *)
Definition queryText (pieces : list string) : string :=
  match pieces with
  | [] => ""
  | _ => String "?" (join "&" pieces)
  end.

(** A request URI: the text before the query, the query, and the fragment
    text ([""] or [#] and a fragment). *)
Definition uriOf (base : string) (pieces : list string) (frag : string) : string :=
  base +:+ queryText pieces +:+ frag.

(** The text can stand between two [&] of a query. *)
Definition queryPiece (p : string) : Prop :=
  containsByte "&" p = false /\ containsByte "#" p = false.

(** [parse] past its test for ["*"]. *)
Definition parseGeneral (rawURL : string) : option NetURL.URL :=
  match NetURL.getScheme rawURL with
  | None => None
  | Some (scheme, rest) =>
      let '(rest', rawq, force) := NetURL.splitQuery rest in
      option_map (NetURL.withQuery rawq force)
                 (NetURL.parseHier (mapBytes toLowerByte scheme) rest')
  end.

(** The loop of [removeTrackingParams] over [trackingParams]. *)
Definition delTracking (q : NetURL.Values) : NetURL.Values :=
  fold_left (fun q param => NetURL.Del param q) trackingParams q.

(** Two query maps agree on every key outside the removal set. *)
Definition agreeOutsideTracking (m m' : NetURL.Values) : Prop :=
  forall k, k ∉ trackingParams -> m !! k = m' !! k.

(** The fragment fields [url.Parse] leaves in a URL whose fragment text is
    [frag] ([""] or [#] and a fragment), [g] being the URL before the
    fragment is set. *)
Definition fragFields (frag : string) (g : NetURL.URL) : string * string :=
  match frag with
  | String _ f =>
      if String.eqb f "" then (NetURL.Fragment g, NetURL.RawFragment g)
      else match NetURL.unescape f NetURL.encodeFragment with
           | Some fr =>
               (fr, if String.eqb f (NetURL.escape fr NetURL.encodeFragment)
                    then "" else f)
           | None => (NetURL.Fragment g, NetURL.RawFragment g)
           end
  | EmptyString => (NetURL.Fragment g, NetURL.RawFragment g)
  end.

(** Two URLs that [URL.String] cannot tell apart once their query is
    overwritten. *)
Definition sameOutsideQuery (u u' : NetURL.URL) : Prop :=
  NetURL.hierString u = NetURL.hierString u'
  /\ NetURL.Fragment u = NetURL.Fragment u'
  /\ NetURL.RawFragment u = NetURL.RawFragment u'.

(** The URI pair of the C7 counterexample and requests that carry them. *)
Definition bareQueryRequest : Request :=
  mkRequest "GET" "/p?" ∅ "example.com" "10.0.0.1:4000" 0 "".

Definition trackedRequest : Request :=
  mkRequest "GET" "/p?utm_source=x" ∅ "example.com" "10.0.0.1:4000" 0 "".

Definition brokenFragmentRequest (value : string) : Request :=
  mkRequest "GET" ("/p?utm_source=" +:+ value +:+ "#%zz") ∅ "example.com"
            "10.0.0.1:4000" 0 "".

(** * The earlier middleware (src/unnamed/part_000)

    The repository also holds the plugin as it was before the cache: one
    [ServeHTTP] that buffers the body, asks the evaluation service and then
    relays or hands over, with its own [Config], [CreateConfig], [New] and
    [forwardResponse].  [isWebsocket] is the function of the same text in
    modesecurity_helpers.go.  The test table of src/unnamed/part_001 runs
    against this [ServeHTTP]. *)

Module Legacy.
Import GoString NetHTTP Plugin.

(** Config the plugin configuration. *)
Record Config := mkConfig
  { TimeoutMillis : Z;
    ModSecurityUrl : string;
    MaxBodySize : Z }.

(** CreateConfig creates the default plugin configuration. *)
Definition CreateConfig : Config :=
  {| TimeoutMillis := 2000;
     ModSecurityUrl := "";
     (* Safe default: if the max body size was not specified, use 10MB *)
     MaxBodySize := 10 * 1024 * 1024 |}.

(** Modsecurity a Modsecurity plugin; [next], [httpClient] and [logger] are
    collaborators ([Env]), of the client only its [Timeout] is kept. *)
Record Modsecurity := mkModsecurity
  { modSecurityUrl : string;
    maxBodySize : Z;
    name : string;
    httpClientTimeout : Z }.

(** New created a new Modsecurity plugin. *)
Definition New (config : Config) (name : string) : Modsecurity + string :=
  if len (ModSecurityUrl config) =? 0 then inr "modSecurityUrl cannot be empty"
  else
    let timeout :=
      if TimeoutMillis config =? 0 then 2 * Second
      else wrap64 (TimeoutMillis config * Millisecond) in
    inl {| modSecurityUrl := ModSecurityUrl config;
           maxBodySize := MaxBodySize config;
           name := name;
           httpClientTimeout := timeout |}.

(** What one call of [ServeHTTP] meets outside the plugin; [bodyReads] is
    what reading [req.Body] returns. *)
Record Env := mkEnv
  { bodyReads : Stream;
    rangeForward : RangeOrder;
    httpClientDo : ProxyRequest -> Response + string;
    next : Request -> ReqBody -> ResponseWriter -> ResponseWriter }.

(** [body, err := ioutil.ReadAll(http.MaxBytesReader(rw, r, limit))]: the
    bytes read and the error; a negative limit counts as 0, and once more
    than [limit] bytes arrive the read stops with the too-large error. *)
Definition readAllMaxBytes (limit : Z) (r : Stream) : string * option string :=
  let n := if limit <? 0 then 0 else limit in
  if n <? len (s_bytes r)
  then (String.substring 0 (Z.to_nat n) (s_bytes r), Some errBodyTooLarge)
  else (s_bytes r, s_err r).

(** [forwardResponse], with [rw.Header().Set(k, v)] for each value. *)
Definition forwardResponse (range : RangeOrder) (resp : Response)
           (rw : ResponseWriter) : ResponseWriter :=
  (* copy headers *)
  let h := fold_left
             (fun h kv => fold_left (fun h v => Header_Set (fst kv) v h) (snd kv) h)
             (range (RespHeader resp)) (rw_Header rw) in
  (* copy status *)
  let rw := WriteHeader (StatusCode resp) (mkRW h (rw_status rw) (rw_body rw)) in
  (* copy body *)
  Write (readAll (RespBody_ resp)) rw.

Definition ServeHTTP (a : Modsecurity) (env : Env) (rw : ResponseWriter)
           (req : Request) : M ResponseWriter :=
  (* Websocket not supported *)
  if isWebsocket req then
    logEvent (EvBackend req (Unread (Body req)));;
    mret (next env req (Unread (Body req)) rw)
  else
    (* we need to buffer the body if we want to read it here and send it
       in the request. *)
    let '(body, err) := readAllMaxBytes (maxBodySize a) (bodyReads env) in
    match err with
    | Some e =>
        if String.eqb e "http: request body too large"
        then mret (Error "" StatusRequestEntityTooLarge rw)
        else mret (Error "" StatusBadGateway rw)
    | None =>
        (* req.Body = ioutil.NopCloser(bytes.NewReader(body)) *)
        (* create a new url from the raw RequestURI sent by the client *)
        let url := modSecurityUrl a +:+ RequestURI req in
        match NewRequestWithContext (Method req) url (mkStream body None) with
        | inr _ => mret (Error "" StatusBadGateway rw)
        | inl proxyReq =>
            (* proxyReq.Header[h] = val for every entry of req.Header *)
            let proxyReq := mkProxyRequest (pr_Method proxyReq) (pr_URL proxyReq)
                                           (Header_ req) (pr_Body proxyReq) in
            logEvent (EvEvaluate proxyReq);;
            match httpClientDo env proxyReq with
            | inr _ => mret (Error "" StatusBadGateway rw)
            | inl resp =>
                l ← alloc resp;
                if 400 <=? StatusCode resp then
                  let rw := forwardResponse (rangeForward env) resp rw in
                  (* deferred resp.Body.Close() *)
                  store l (mkResponse (StatusCode resp) (RespHeader resp)
                                      (closeBody (RespBody_ resp)));;
                  mret rw
                else
                  logEvent (EvBackend req (Unread body));;
                  let rw := next env req (Unread body) rw in
                  store l (mkResponse (StatusCode resp) (RespHeader resp)
                                      (closeBody (RespBody_ resp)));;
                  mret rw
            end
        end
    end.

End Legacy.

(** * Further notions used by the properties below *)

Import GoString NetHTTP Plugin.

Definition isNetBody (b : RespBody) : bool :=
  match b with
  | NetBody _ _ => true
  | _ => false
  end.

(** Every object in the pool is one that was allocated, its header map is
    empty, and its body is not one received from the network. *)
Definition poolReset (w : World) : Prop :=
  forall l, l ∈ cacheResponsePool w ->
            (l < nextLoc w)%nat
            /\ RespHeader (heap w !!! l) = ∅
            /\ isNetBody (RespBody_ (heap w !!! l)) = false.

(** A request with a body, sent to a plugin whose rule wants none. *)
Definition getWithBody : Request :=
  mkRequest "GET" "/index.html" ∅ "example.com" "10.0.0.1:4000" 7 "payload".

(** An environment whose clock reads later than the expiry of an entry
    written at reading 0. *)
Definition lateEnv : Env :=
  mkEnv (mkStream "" None) (mkStream "" None) map_to_list map_to_list 0
        (GoCache.DefaultExpiration + 1) (GoCache.DefaultExpiration + 2)
        (fun _ => inl (mkResponse 200 ∅ (NetBody "Response from waf" false)))
        (fun _ _ rw => Write "backend" rw).

(** A configuration written without [CreateConfig]: [CacheEnabled] is nil. *)
Definition cacheOffConfig : Config :=
  mkConfig 0 "http://waf" 1024 None ["GET"] None None None None [] None None None
           (CacheConditions CreateConfig) (CacheKey CreateConfig).

(** The world a cache hit for [getRequest] leaves behind: the verdict in the
    cache, and the synthesized response, released, in the pool. *)
Definition pooledWorld : World :=
  mkWorld (cache warmWorld)
          {[ 0%nat := mkResponse 403 ∅ (NopCloser "Forbidden") ]} [0%nat] 1 [].

(** One of [0-9a-f]. *)
Definition isLowerHex (c : ascii) : bool :=
  isDigit c || ((97 <=? byte_of c) && (byte_of c <=? 102)).

(** Two requests whose request URI and host, written one after the other,
    give the same text, split at different places. *)
Definition shortPathRequest : Request :=
  mkRequest "GET" "/a" ∅ "b.example.com" "10.0.0.1:4000" 0 "".

Definition longPathRequest : Request :=
  mkRequest "GET" "/ab" ∅ ".example.com" "10.0.0.1:4000" 0 "".

(** A request whose method is no token, and so never leaves the plugin. *)
Definition badMethodRequest : Request :=
  mkRequest "GE T" "/index.html" ∅ "example.com" "10.0.0.1:4000" 0 "".

(** The earlier plugin with the service address set and a four-byte
    ceiling, and what its [ServeHTTP] meets: a body of four bytes, then of
    five, an evaluation service that allows, one that cannot be reached. *)
Definition legacyPlugin : Legacy.Modsecurity :=
  Legacy.mkModsecurity "http://waf" 4 "waf" (2 * Second).

Definition legacyAllows (body : string) : Legacy.Env :=
  Legacy.mkEnv (mkStream body None) map_to_list
               (fun _ => inl (mkResponse 200 ∅ (NetBody "Response from waf" false)))
               (fun _ _ rw => Write "backend" rw).

Definition legacyUnreachable : Legacy.Env :=
  Legacy.mkEnv (mkStream "abcd" None) map_to_list
               (fun _ => inr "connection refused")
               (fun _ _ rw => Write "backend" rw).

(** A verdict with one header of two values. *)
Definition twoCookies : Response :=
  mkResponse 403 {[ "Set-Cookie" := ["a=1"; "b=2"] ]} (NetBody "Blocked" false).
(** * Properties *)

(** ** Helper lemmas *)

Lemma contains_true_iff (l : list string) (x : string) :
  contains l x = true <-> x ∈ l.
Proof.
  induction l as [|m l IH]; simpl.
  - split; [discriminate | intros H; inversion H].
  - destruct (String.eqb m x) eqn:E.
    + apply String.eqb_eq in E. subst. split; [intros _; left | reflexivity].
    + apply String.eqb_neq in E. rewrite IH. split.
      * intros H. by right.
      * intros H. inversion H; subst; [congruence | done].
Qed.

Lemma contains_false_iff (l : list string) (x : string) :
  contains l x = false <-> x ∉ l.
Proof.
  rewrite <- contains_true_iff. destruct (contains l x); split; congruence.
Qed.

(** [PrepareForwardedRequest] leaves the cache and the pool alone and logs
    nothing but its call to the evaluation service. *)
Lemma PrepareForwardedRequest_frame a env req w :
  let '(_, w') := PrepareForwardedRequest a env req w in
  cache w' = cache w
  /\ cacheResponsePool w' = cacheResponsePool w
  /\ exists evs, trace w' = trace w ++ evs /\ Forall isEvaluate evs.
Proof.
  unfold PrepareForwardedRequest.
  destruct (NewRequestWithContext _ _ _) as [p|err]; simpl.
  - unfold mbind, M_bind, logEvent, mret, M_ret; simpl.
    destruct (httpClientDo env _) as [resp|err]; simpl.
    + repeat split; try done. eexists; split; [done|].
      constructor; [by eexists | constructor].
    + repeat split; try done. eexists; split; [done|].
      constructor; [by eexists | constructor].
  - unfold mret, M_ret. repeat split; try done.
    exists []. by rewrite app_nil_r.
Qed.

Lemma PrepareForwardedRequest_ok a env req w0 l w' :
  PrepareForwardedRequest a env req w0 = (inl l, w') ->
  exists p r,
    l = nextLoc w0
    /\ w' = mkWorld (cache w0) (<[ nextLoc w0 := r ]> (heap w0)) (cacheResponsePool w0)
                    (S (nextLoc w0)) (trace w0 ++ [EvEvaluate p]).
Proof.
  unfold PrepareForwardedRequest.
  destruct (NewRequestWithContext _ _ _) as [p|err]; simpl; [|discriminate].
  unfold mbind, M_bind, logEvent, mret, M_ret, alloc; simpl.
  destruct (httpClientDo env _) as [resp|err]; simpl; [|discriminate].
  intros H. injection H as <- <-. by eexists _, _.
Qed.

(** Whether [PrepareForwardedRequest] contacts the evaluation service, and
    with which request. *)
Lemma PrepareForwardedRequest_contact a env req w :
  let method := if String.eqb (Method req) "" then "GET" else Method req in
  let url := modSecurityUrl a +:+ RequestURI req in
  if validMethod method
     && match NetURL.Parse url with Some _ => true | None => false end
  then trace (snd (PrepareForwardedRequest a env req w))
       = trace w ++ [EvEvaluate (mkProxyRequest method url (Header_ req)
                                                (clientReads env))]
  else snd (PrepareForwardedRequest a env req w) = w
       /\ exists e, fst (PrepareForwardedRequest a env req w) = inr e.
Proof.
  unfold PrepareForwardedRequest, NewRequestWithContext. simpl.
  destruct (validMethod _); simpl.
  - destruct (NetURL.Parse _) as [u|]; simpl.
    + unfold mbind, M_bind, logEvent, mret, M_ret, alloc. simpl.
      destruct (httpClientDo env _); reflexivity.
    + split; [reflexivity | by eexists].
  - split; [reflexivity | by eexists].
Qed.

(** ** C9: protocol upgrades bypass the plugin *)

(** C9. For every request carrying an [Upgrade] header with value
    ["websocket"], [ServeHTTP] calls the backend handler on the request as it
    arrived (body unread, headers as they are) and on the response writer as
    it was handed in; the only thing logged is that call, so the body guard,
    the cache and the evaluation service are not exercised, and the cache,
    the response objects and the pool are as before. *)
Theorem websocket_goes_straight_to_backend
        (a : Modsecurity) (env : Env) (rw : ResponseWriter) (req : Request) (w : World) :
  "websocket" ∈ (Header_ req !!! "Upgrade" : list string) ->
  ServeHTTP a env rw req w =
    (next env req (Unread (Body req)) rw,
     mkWorld (cache w) (heap w) (cacheResponsePool w) (nextLoc w)
             (trace w ++ [EvBackend req (Unread (Body req))])).
Proof.
  intros Hws. unfold ServeHTTP, isWebsocket.
  apply contains_true_iff in Hws. rewrite Hws. reflexivity.
Qed.

Lemma websocket_goes_straight_to_backend_witness :
  "websocket" ∈ (Header_ wsRequest !!! "Upgrade" : list string)
  /\ ServeHTTP defaultPlugin quietEnv freshRW wsRequest initialWorld =
       (mkRW ∅ (Some 200) "backend",
        mkWorld ∅ ∅ [] 0 [EvBackend wsRequest (Unread "hello")]).
Proof.
  assert (H : "websocket" ∈ (Header_ wsRequest !!! "Upgrade" : list string)).
  { apply contains_true_iff. vm_compute. reflexivity. }
  split; [exact H|].
  rewrite (websocket_goes_straight_to_backend defaultPlugin quietEnv freshRW
             wsRequest initialWorld H).
  reflexivity.
Defined.

(** ** C5: ineligible methods never touch the cache *)

(** C5. For every request whose method is not in the configured (non-empty)
    eligible-methods list, whatever the cache already holds, the verdict
    sub-pipeline is exactly the forwarding of the request to the evaluation
    service.  The cache is left unchanged and is neither read nor written:
    when the outbound request can be built (the method is a token and the
    service address followed by the request URI parses) the one event
    logged is the call to the evaluation service, with the method, that
    address, the headers and the body of the request; when it cannot be
    built, nothing at all happens and an error is returned. *)
Theorem ineligible_method_bypasses_cache
        (a : Modsecurity) (env : Env) (req : Request) (w : World) :
  Methods (cacheConditions a) <> [] ->
  Method req ∉ Methods (cacheConditions a) ->
  HandleCacheAndForwardRequest a env req w = PrepareForwardedRequest a env req w
  /\ cache (snd (HandleCacheAndForwardRequest a env req w)) = cache w
  /\ let method := if String.eqb (Method req) "" then "GET" else Method req in
     let url := modSecurityUrl a +:+ RequestURI req in
     if validMethod method
        && match NetURL.Parse url with Some _ => true | None => false end
     then trace (snd (HandleCacheAndForwardRequest a env req w))
          = trace w ++ [EvEvaluate (mkProxyRequest method url (Header_ req)
                                                   (clientReads env))]
     else snd (HandleCacheAndForwardRequest a env req w) = w
          /\ exists e, fst (HandleCacheAndForwardRequest a env req w) = inr e.
Proof.
  intros Hne Hnot.
  assert (E : HandleCacheAndForwardRequest a env req w
              = PrepareForwardedRequest a env req w).
  { unfold HandleCacheAndForwardRequest.
    destruct (cacheEnabled a); simpl; [|reflexivity].
    unfold Check. apply contains_false_iff in Hnot. rewrite Hnot.
    destruct (Methods (cacheConditions a)) as [|m l]; [congruence|].
    reflexivity. }
  rewrite E. split; [reflexivity|]. split.
  - pose proof (PrepareForwardedRequest_frame a env req w) as F.
    destruct (PrepareForwardedRequest a env req w) as [r w']. simpl.
    by destruct F as (Hc & _).
  - apply PrepareForwardedRequest_contact.
Qed.

Lemma ineligible_method_bypasses_cache_witness :
  Methods (cacheConditions defaultPlugin) <> []
  /\ (Method postRequest ∉ Methods (cacheConditions defaultPlugin))
  /\ cache (snd (HandleCacheAndForwardRequest defaultPlugin allowingEnv postRequest
                   warmWorld))
     = cache warmWorld
  /\ trace (snd (HandleCacheAndForwardRequest defaultPlugin allowingEnv postRequest
                   warmWorld))
     = [EvEvaluate (mkProxyRequest "POST" "http://waf/login" ∅ (mkStream "" None))].
Proof.
  assert (H1 : Methods (cacheConditions defaultPlugin) <> []) by (simpl; discriminate).
  assert (H2 : Method postRequest ∉ Methods (cacheConditions defaultPlugin)).
  { apply contains_false_iff. reflexivity. }
  split; [exact H1|]. split; [exact H2|].
  destruct (ineligible_method_bypasses_cache defaultPlugin allowingEnv postRequest
              warmWorld H1 H2) as (_ & Hc & Ht).
  split; [exact Hc|].
  exact Ht.
Defined.

(** ** C8: a zero maximum body size *)

(** C8 (the code departs from it). [New] copies [config.MaxBodySize] as it
    is: with [maxBodySize: 0] the plugin's ceiling is 0 bytes, not the
    documented default of 10 MiB, and the body guard answers 413 to a body of
    one byte.  The sibling option [timeoutMillis] is defaulted when it is 0. *)
Theorem zero_max_body_size_is_not_defaulted :
  exists a,
    New zeroSizeConfig "waf" = inl a
    /\ maxBodySize a = 0
    /\ maxBodySize a <> 10 * 1024 * 1024
    /\ HandleRequestBodyMaxSize a (mkStream "x" None) freshRW
       = (Error "" StatusRequestEntityTooLarge freshRW,
          Some "http: request body too large")
    /\ exists b, New zeroTimeoutConfig "waf" = inl b
                 /\ httpClientTimeout b = 2 * Second.
Proof.
  eexists. split; [reflexivity|]. simpl.
  split; [reflexivity|]. split; [discriminate|]. split; [reflexivity|].
  eexists. split; reflexivity.
Qed.

(** ** C3: a failed call to the evaluation service *)

Lemma guard_pass_keeps_writer a reads rw :
  snd (HandleRequestBodyMaxSize a reads rw) = None ->
  HandleRequestBodyMaxSize a reads rw = (rw, None).
Proof.
  unfold HandleRequestBodyMaxSize.
  destruct (copyMaxBytes _ _) as [n [e|]].
  - destruct (String.eqb e _); simpl; discriminate.
  - destruct (maxBodySize a <? n); simpl; [discriminate | reflexivity].
Qed.

(** When the verdict sub-pipeline fails it has written nothing to the cache
    and has not called the backend. *)
Lemma HandleCacheAndForwardRequest_failure a env req w err w' :
  HandleCacheAndForwardRequest a env req w = (inr err, w') ->
  cache w' = cache w
  /\ exists evs, trace w' = trace w ++ evs
       /\ Forall (fun e => isEvaluate e \/ exists k, e = EvCacheGet k) evs.
Proof.
  unfold HandleCacheAndForwardRequest.
  assert (P : forall w0, PrepareForwardedRequest a env req w0 = (inr err, w') ->
            cache w' = cache w0 /\ exists evs, trace w' = trace w0 ++ evs
              /\ Forall (fun e => isEvaluate e \/ exists k, e = EvCacheGet k) evs).
  { intros w0 H. pose proof (PrepareForwardedRequest_frame a env req w0) as F.
    rewrite H in F. destruct F as (Hc & _ & evs & Ht & Hf).
    split; [exact Hc|]. exists evs. split; [exact Ht|].
    eapply Forall_impl; [exact Hf|]. intros e He. by left. }
  destruct (cacheEnabled a); simpl; [|apply P].
  destruct (Check _ _); [|apply P].
  unfold GetCachedResponse, mbind, M_bind, cacheGet. simpl.
  destruct (GoCache.Get _ _ _) as [code|].
  - unfold newPooledCacheResponse, putResponse, mbind, M_bind.
    destruct (poolGet _ _) as [l w1]. simpl. discriminate.
  - intros H.
    destruct (PrepareForwardedRequest a env req _) as [[l|e] w1] eqn:E; simpl in H.
    + discriminate.
    + unfold mret, M_ret in H. injection H as <- <-.
      apply P in E. simpl in E. destruct E as (Hc & evs & Ht & Hf).
      split; [exact Hc|]. eexists (EvCacheGet _ :: evs).
      split; [rewrite Ht, <- app_assoc; reflexivity|].
      constructor; [right; by eexists | exact Hf].
Qed.

(** C3 (the code departs from it). For every non-upgrade request that
    passes the body guard and whose call to the evaluation service fails,
    [ServeHTTP] returns with the response writer exactly as it received it:
    no 502 (and nothing else) is written.  The backend handler is not called
    and the cache is unchanged, as the claim says. *)
Theorem evaluation_failure_writes_no_response
        (a : Modsecurity) (env : Env) (rw : ResponseWriter) (req : Request)
        (w w' : World) (err : string) :
  isWebsocket req = false ->
  snd (HandleRequestBodyMaxSize a (guardReads env) rw) = None ->
  HandleCacheAndForwardRequest a env req w = (inr err, w') ->
  ServeHTTP a env rw req w = (rw, w')
  /\ cache w' = cache w
  /\ exists evs, trace w' = trace w ++ evs
       /\ Forall (fun e => isEvaluate e \/ exists k, e = EvCacheGet k) evs.
Proof.
  intros Hws Hguard Hfail.
  split.
  - unfold ServeHTTP. rewrite Hws.
    rewrite (guard_pass_keeps_writer _ _ _ Hguard).
    unfold mbind, M_bind. rewrite Hfail. reflexivity.
  - eapply HandleCacheAndForwardRequest_failure; eassumption.
Qed.

Lemma evaluation_failure_writes_no_response_witness :
  isWebsocket getRequest = false
  /\ snd (HandleRequestBodyMaxSize defaultPlugin (guardReads quietEnv) freshRW) = None
  /\ (exists w', HandleCacheAndForwardRequest defaultPlugin quietEnv getRequest initialWorld
                 = (inr "connection refused", w'))
  /\ rw_status (fst (ServeHTTP defaultPlugin quietEnv freshRW getRequest initialWorld))
     = None.
Proof.
  assert (H1 : isWebsocket getRequest = false) by reflexivity.
  assert (H2 : snd (HandleRequestBodyMaxSize defaultPlugin (guardReads quietEnv) freshRW)
               = None) by reflexivity.
  assert (H3 : HandleCacheAndForwardRequest defaultPlugin quietEnv getRequest initialWorld
               = (inr "connection refused",
                  snd (HandleCacheAndForwardRequest defaultPlugin quietEnv getRequest
                         initialWorld))) by (vm_compute; reflexivity).
  split; [exact H1|]. split; [exact H2|]. split; [eexists; exact H3|].
  rewrite (proj1 (evaluation_failure_writes_no_response defaultPlugin quietEnv
                    freshRW getRequest initialWorld _ _ H1 H2 H3)).
  reflexivity.
Defined.

(** ** C10: a cache hit returns an object that is already back in the pool *)

Lemma canonical_Status_Text : CanonicalMIMEHeaderKey "Status-Text" = "Status-Text".
Proof. reflexivity. Qed.

(** What [GetCachedResponse] does on a cache hit. *)
Lemma GetCachedResponse_hit a env req options w code :
  GoCache.Get (clockGet env) (generateCacheKey (rangeKey env) req options) (cache w)
  = Some code ->
  exists resp w0 w',
    let statusCode := Z.rem code 1000 in
    newPooledCacheResponse (poolPick env) statusCode (StatusText statusCode)
      (snd (cacheGet (clockGet env) (generateCacheKey (rangeKey env) req options) w))
    = (resp, w0)
    /\ RespHeader (heap w0 !!! resp) !! "Status-Text" = Some [StatusText statusCode]
    /\ GetCachedResponse a env req options w = (inl resp, w')
    /\ cacheResponsePool w' = resp :: cacheResponsePool w0
    /\ heap w' !! resp
       = Some (mkResponse statusCode ∅ (NopCloser (StatusText statusCode)))
    /\ cache w' = cache w
    /\ trace w' = trace w ++ [EvCacheGet (generateCacheKey (rangeKey env) req options)].
Proof.
  intros Hhit.
  unfold GetCachedResponse, mbind, M_bind, cacheGet. rewrite Hhit. simpl.
  unfold newPooledCacheResponse, putResponse, mbind, M_bind.
  destruct (poolGet (poolPick env) _) as [l w1] eqn:Eg.
  assert (Hw1 : cache w1 = cache w
                /\ trace w1 = trace w ++ [EvCacheGet (generateCacheKey (rangeKey env) req options)]).
  { unfold poolGet in Eg. simpl in Eg.
    destruct (cacheResponsePool w !! poolPick env); injection Eg as <- <-; done. }
  destruct Hw1 as [Hc Ht].
  unfold load, store, poolPut, mret, M_ret. simpl.
  eexists l, _, _. split; [reflexivity|]. simpl.
  split.
  { rewrite lookup_total_insert_eq. simpl. unfold Header_Set.
    rewrite canonical_Status_Text, lookup_insert_eq.
    destruct (0 <? len (StatusText (Z.rem code 1000))) eqn:E; [reflexivity|].
    apply Z.ltb_ge in E. unfold len in E.
    destruct (StatusText (Z.rem code 1000)); [reflexivity | simpl in E; lia]. }
  split; [reflexivity|]. simpl.
  split; [reflexivity|].
  split.
  { rewrite lookup_insert_eq, lookup_total_insert_eq. reflexivity. }
  split; assumption.
Qed.

(** What [GetCachedResponse] does on a miss that the evaluation service
    answers. *)
Lemma GetCachedResponse_miss_ok a env req options w l w' :
  GoCache.Get (clockGet env) (generateCacheKey (rangeKey env) req options) (cache w)
  = None ->
  GetCachedResponse a env req options w = (inl l, w') ->
  exists p r,
    let key := generateCacheKey (rangeKey env) req options in
    l = nextLoc w
    /\ w' = mkWorld (GoCache.SetDefault (clockSet env) key (Z.rem (StatusCode r) 1000)
                       (cache w))
                    (<[ nextLoc w := r ]> (heap w)) (cacheResponsePool w)
                    (S (nextLoc w))
                    (trace w ++ [EvCacheGet key; EvEvaluate p;
                                 EvCacheSet key (Z.rem (StatusCode r) 1000)]).
Proof.
  intros Hmiss. unfold GetCachedResponse, mbind, M_bind, cacheGet.
  rewrite Hmiss. simpl.
  destruct (PrepareForwardedRequest a env req _) as [[l0|e] w0] eqn:Ep; simpl;
    [|discriminate].
  apply PrepareForwardedRequest_ok in Ep as (p & r & -> & ->).
  unfold load, cacheSetDefault, mret, M_ret. simpl.
  rewrite lookup_total_insert_eq. intros H. injection H as <- <-.
  exists p, r. split; [reflexivity|]. by rewrite <- !app_assoc.
Qed.

(** C10. For every cache hit, [GetCachedResponse] returns a response object
    on which the deferred [putResponse] has already run: during synthesis the
    object carried the [Status-Text] header, at the point of return its
    header map is the empty map, the object is in the pool, and the next
    [Get] on the pool can hand the very same object to another request. *)
Theorem cache_hit_returns_released_response
        (a : Modsecurity) (env : Env) (req : Request) (options : CacheKeyOptions)
        (w : World) (code : Z) :
  GoCache.Get (clockGet env) (generateCacheKey (rangeKey env) req options) (cache w)
  = Some code ->
  exists resp w0 w',
    let statusCode := Z.rem code 1000 in
    newPooledCacheResponse (poolPick env) statusCode (StatusText statusCode)
      (snd (cacheGet (clockGet env) (generateCacheKey (rangeKey env) req options) w))
    = (resp, w0)
    /\ RespHeader (heap w0 !!! resp) !! "Status-Text" = Some [StatusText statusCode]
    /\ GetCachedResponse a env req options w = (inl resp, w')
    /\ resp ∈ cacheResponsePool w'
    /\ heap w' !! resp
       = Some (mkResponse statusCode ∅ (NopCloser (StatusText statusCode)))
    /\ fst (poolGet 0 w') = resp.
Proof.
  intros Hhit.
  destruct (GetCachedResponse_hit a env req options w code Hhit)
    as (resp & w0 & w' & H1 & H2 & H3 & H4 & H5 & _).
  exists resp, w0, w'. simpl in *.
  split; [exact H1|]. split; [exact H2|]. split; [exact H3|].
  split; [rewrite H4; left|]. split; [exact H5|].
  unfold poolGet. rewrite H4. reflexivity.
Qed.

Lemma cache_hit_returns_released_response_witness :
  GoCache.Get 0 (generateCacheKey map_to_list getRequest (CacheKey CreateConfig))
              (cache warmWorld) = Some 403
  /\ exists resp w',
       GetCachedResponse defaultPlugin
         quietEnv getRequest (CacheKey CreateConfig) warmWorld = (inl resp, w')
       /\ resp ∈ cacheResponsePool w'
       /\ heap w' !! resp = Some (mkResponse 403 ∅ (NopCloser "Forbidden")).
Proof.
  assert (H : GoCache.Get 0
                (generateCacheKey map_to_list getRequest (CacheKey CreateConfig))
                (cache warmWorld) = Some 403) by (vm_compute; reflexivity).
  split; [exact H|].
  destruct (cache_hit_returns_released_response defaultPlugin
              quietEnv getRequest (CacheKey CreateConfig) warmWorld 403 H)
    as (resp & w0 & w' & _ & _ & Hg & Hp & Hh & _).
  exists resp, w'. split; [exact Hg|]. split; [exact Hp|]. exact Hh.
Defined.

(** ** C2: the verdict decides between relay and backend *)




(** The verdict sub-pipeline logs cache reads, cache writes and calls to the
    evaluation service, and nothing else. *)
Lemma HandleCacheAndForwardRequest_trace a env req w :
  exists evs,
    trace (snd (HandleCacheAndForwardRequest a env req w)) = trace w ++ evs
    /\ Forall isVerdictEvent evs.
Proof.
  assert (P : forall w0, exists evs,
             trace (snd (PrepareForwardedRequest a env req w0)) = trace w0 ++ evs
             /\ Forall isVerdictEvent evs).
  { intros w0. pose proof (PrepareForwardedRequest_frame a env req w0) as F.
    destruct (PrepareForwardedRequest a env req w0) as [r w1].
    destruct F as (_ & _ & evs & Ht & Hf). exists evs. split; [exact Ht|].
    eapply Forall_impl; [exact Hf|]. intros e He. by left. }
  unfold HandleCacheAndForwardRequest.
  destruct (cacheEnabled a); simpl; [|apply P].
  destruct (Check _ _); [|apply P].
  unfold GetCachedResponse, mbind, M_bind, cacheGet. simpl.
  destruct (GoCache.Get _ _ _) as [code|].
  - unfold newPooledCacheResponse, putResponse, mbind, M_bind.
    destruct (poolGet _ _) as [l w1] eqn:Eg. simpl.
    assert (trace w1 = trace w ++ [EvCacheGet (generateCacheKey (rangeKey env) req (cacheKey a))]) as ->.
    { unfold poolGet in Eg. simpl in Eg.
      destruct (cacheResponsePool w !! poolPick env); injection Eg as <- <-; reflexivity. }
    eexists. split; [reflexivity|]. constructor; [|constructor].
    right; left. by eexists.
  - destruct (P (mkWorld (cache w) (heap w) (cacheResponsePool w) (nextLoc w)
                   (trace w ++ [EvCacheGet (generateCacheKey (rangeKey env) req (cacheKey a))])))
      as (evs & Ht & Hf).
    destruct (PrepareForwardedRequest a env req _) as [[l|e] w1]; simpl in *.
    + rewrite Ht, <- app_assoc, <- app_assoc. eexists. split; [reflexivity|].
      constructor; [right; left; by eexists|].
      apply Forall_app. split; [exact Hf|].
      constructor; [|constructor]. right; right. by eexists _, _.
    + rewrite Ht, <- app_assoc. eexists. split; [reflexivity|].
      constructor; [right; left; by eexists | exact Hf].
Qed.

Lemma verdict_events_no_backend evs : Forall isVerdictEvent evs -> noBackendCall evs.
Proof.
  intros H. eapply Forall_impl; [exact H|].
  intros e [[p ->]|[[k ->]|(k & c & ->)]] (r & b & E); discriminate.
Qed.

(** With no other request at work, [ServeHTTPAmong] is [ServeHTTP]. *)
Lemma ServeHTTPAmong_alone a env rw req w :
  ServeHTTPAmong [] a env rw req w = ServeHTTP a env rw req w.
Proof.
  unfold ServeHTTPAmong, ServeHTTP.
  destruct (isWebsocket req); [reflexivity|].
  destruct (HandleRequestBodyMaxSize a (guardReads env) rw) as [rw1 reqErr].
  unfold mbind, M_bind.
  destruct (HandleCacheAndForwardRequest a env req w) as [r w1]. reflexivity.
Qed.









(** ** C4: the body guard at its boundary *)

(** Settles a boolean comparison of integers that [lia] can decide. *)
Ltac settle_ltb :=
  repeat match goal with
         | |- context [?x <? ?y] =>
             first [ replace (x <? y) with true by (symmetry; apply Z.ltb_lt; lia)
                   | replace (x <? y) with false by (symmetry; apply Z.ltb_ge; lia) ]
         end.

Lemma wrap64_small (z : Z) : - 2^63 <= z < 2^63 -> wrap64 z = z.
Proof. intros H. unfold wrap64. rewrite Z.mod_small; lia. Qed.

Lemma len_nonneg (s : string) : 0 <= len s.
Proof. unfold len. lia. Qed.

(** C4, as the claim states it, fails in two ways.  A POST whose body is one
    byte over the ceiling is answered 413 by the body guard, and yet the
    verdict task, which runs beside the guard and does not wait for it, has
    called the evaluation service for that request.  And when the HTTP client
    takes one byte of that body from the shared stream, the guard counts only
    [maxBodySize] bytes, lets the request pass, and the backend is called. *)
Lemma oversized_body_is_still_evaluated :
  len (Body oversizedPost) = maxBodySize smallPlugin + 1
  /\ sharesBody (Body oversizedPost) (guardReads guardFirstEnv) (clientReads guardFirstEnv)
  /\ rw_status (fst (ServeHTTP smallPlugin guardFirstEnv freshRW oversizedPost initialWorld))
     = Some StatusRequestEntityTooLarge
  /\ trace (snd (ServeHTTP smallPlugin guardFirstEnv freshRW oversizedPost initialWorld))
     = [EvEvaluate (mkProxyRequest "POST" "http://waf/upload" ∅ (mkStream "" None))]
  /\ sharesBody (Body oversizedPost) (guardReads clientTakesByteEnv)
                (clientReads clientTakesByteEnv)
  /\ HandleRequestBodyMaxSize smallPlugin (guardReads clientTakesByteEnv) freshRW
     = (freshRW, None)
  /\ trace (snd (ServeHTTP smallPlugin clientTakesByteEnv freshRW oversizedPost
                   initialWorld))
     = [EvEvaluate (mkProxyRequest "POST" "http://waf/upload" ∅ (mkStream "e" None));
        EvBackend oversizedPost Closed].
Proof.
  split; [reflexivity|]. split.
  { exists (list_ascii_of_string "abcde"), []. split; [|by rewrite app_nil_r].
    simpl. repeat constructor. }
  split; [vm_compute; reflexivity|]. split; [vm_compute; reflexivity|]. split.
  { exists (list_ascii_of_string "abcde"), []. split; [|by rewrite app_nil_r].
    simpl. repeat constructor. }
  split; vm_compute; reflexivity.
Qed.

(** C4, amended. For every non-upgrade request whose body the guard reads in
    full: a body of exactly [maxBodySize] bytes passes the guard, which then
    writes nothing; a body of [maxBodySize + 1] bytes makes the guard fail
    with the too-large error, the client gets status 413 with an empty line
    as body, and the backend handler is not called.  (Nothing is said about
    the evaluation service: the verdict task runs beside the guard.) *)
Theorem body_guard_boundary
        (a : Modsecurity) (env : Env) (rw : ResponseWriter) (req : Request) (w : World) :
  isWebsocket req = false ->
  maxBodySize a < MaxInt64 ->
  guardReads env = mkStream (Body req) None ->
  rw_status rw = None ->
  (len (Body req) = maxBodySize a ->
   HandleRequestBodyMaxSize a (guardReads env) rw = (rw, None))
  /\ (len (Body req) = maxBodySize a + 1 ->
      exists rw' w' evs,
        HandleRequestBodyMaxSize a (guardReads env) rw
        = (rw', Some "http: request body too large")
        /\ ServeHTTP a env rw req w = (rw', w')
        /\ rw_status rw' = Some StatusRequestEntityTooLarge
        /\ rw_body rw' = rw_body rw +:+ newline
        /\ trace w' = trace w ++ evs
        /\ noBackendCall evs).
Proof.
  intros Hws Hmax Hg Hrw. unfold MaxInt64 in Hmax.
  pose proof (len_nonneg (Body req)) as Hlen.
  split; intros Hb.
  - unfold HandleRequestBodyMaxSize, copyMaxBytes. rewrite Hg. simpl.
    rewrite wrap64_small by lia. settle_ltb. reflexivity.
  - assert (G : HandleRequestBodyMaxSize a (guardReads env) rw
                = (Error "" StatusRequestEntityTooLarge rw,
                   Some "http: request body too large")).
    { unfold HandleRequestBodyMaxSize, copyMaxBytes. rewrite Hg. simpl.
      rewrite wrap64_small by lia. settle_ltb. reflexivity. }
    destruct (HandleCacheAndForwardRequest_trace a env req w) as (evs & Ht & Hf).
    exists (Error "" StatusRequestEntityTooLarge rw),
           (snd (HandleCacheAndForwardRequest a env req w)), evs.
    split; [exact G|]. split.
    { unfold ServeHTTP. rewrite Hws, G. unfold mbind, M_bind.
      destruct (HandleCacheAndForwardRequest a env req w) as [[l|e] w1]; reflexivity. }
    split.
    { unfold Error, Write, WriteHeader. simpl. rewrite Hrw. reflexivity. }
    split.
    { unfold Error, Write, WriteHeader. simpl. rewrite Hrw. reflexivity. }
    split; [exact Ht|]. by apply verdict_events_no_backend.
Qed.

Lemma body_guard_boundary_witness :
  isWebsocket exactPost = false
  /\ maxBodySize smallPlugin < MaxInt64
  /\ guardReads exactEnv = mkStream (Body exactPost) None
  /\ guardReads guardFirstEnv = mkStream (Body oversizedPost) None
  /\ len (Body exactPost) = maxBodySize smallPlugin
  /\ len (Body oversizedPost) = maxBodySize smallPlugin + 1
  /\ HandleRequestBodyMaxSize smallPlugin (guardReads exactEnv) freshRW = (freshRW, None)
  /\ exists rw' w',
       ServeHTTP smallPlugin guardFirstEnv freshRW oversizedPost initialWorld = (rw', w')
       /\ rw_status rw' = Some 413.
Proof.
  assert (H1 : isWebsocket exactPost = false) by reflexivity.
  assert (H2 : maxBodySize smallPlugin < MaxInt64) by (vm_compute; reflexivity).
  assert (H3 : guardReads exactEnv = mkStream (Body exactPost) None) by reflexivity.
  assert (H4 : guardReads guardFirstEnv = mkStream (Body oversizedPost) None)
    by reflexivity.
  assert (H5 : len (Body exactPost) = maxBodySize smallPlugin) by reflexivity.
  assert (H6 : len (Body oversizedPost) = maxBodySize smallPlugin + 1) by reflexivity.
  assert (H7 : rw_status freshRW = None) by reflexivity.
  repeat (split; [assumption|]).
  split.
  - exact (proj1 (body_guard_boundary smallPlugin exactEnv freshRW exactPost
                    initialWorld H1 H2 H3 H7) H5).
  - destruct (proj2 (body_guard_boundary smallPlugin guardFirstEnv freshRW oversizedPost
                       initialWorld H1 H2 H4 H7) H6)
      as (rw' & w' & evs & _ & Hs & Hst & _).
    exists rw', w'. split; [exact Hs | exact Hst].
Defined.

(** ** C6: the second of two requests with one key is served from the cache *)


(** C6, as the claim states it, fails: with a key that includes every
    header, one and the same GET request (two headers, no body, cache
    enabled, method eligible) handled twice in a row is evaluated twice,
    because the second pass ranges over the header map in another order and
    derives another key. *)
Lemma identical_requests_evaluated_twice :
  validRange (rangeKey firstVisitEnv)
  /\ validRange (rangeKey secondVisitEnv)
  /\ cacheEnabled allHeadersPlugin = true
  /\ Check (cacheConditions allHeadersPlugin) twoHeaderRequest = true
  /\ generateCacheKey (rangeKey firstVisitEnv) twoHeaderRequest allHeadersOptions
     <> generateCacheKey (rangeKey secondVisitEnv) twoHeaderRequest allHeadersOptions
  /\ evaluations
       (trace (snd (HandleCacheAndForwardRequest allHeadersPlugin secondVisitEnv
                      twoHeaderRequest
                      (snd (HandleCacheAndForwardRequest allHeadersPlugin firstVisitEnv
                              twoHeaderRequest initialWorld)))))
     = 2%nat.
Proof.
  split; [intros h; reflexivity|].
  split; [intros h; apply reverse_Permutation|].
  split; [reflexivity|]. split; [reflexivity|].
  split; [vm_compute; discriminate | vm_compute; reflexivity].
Qed.

(** C6, amended. For two sequential cache-eligible requests that derive the
    same cache key (cache enabled), where the first meets no live entry and
    is answered by the evaluation service with a status of at most three
    digits, and the second looks the key up no later than the entry's expiry:
    the evaluation service is called exactly once over the two requests; the
    second request's response has the status of the first and, as body, the
    standard phrase for that status, whatever body the evaluation service
    sent. *)
Theorem second_request_with_same_key_served_from_cache
        (a : Modsecurity) (env1 env2 : Env) (req1 req2 : Request)
        (w w1 : World) (resp1 : nat) :
  cacheEnabled a = true ->
  Check (cacheConditions a) req1 = true ->
  Check (cacheConditions a) req2 = true ->
  generateCacheKey (rangeKey env1) req1 (cacheKey a)
  = generateCacheKey (rangeKey env2) req2 (cacheKey a) ->
  GoCache.Get (clockGet env1) (generateCacheKey (rangeKey env1) req1 (cacheKey a)) (cache w)
  = None ->
  HandleCacheAndForwardRequest a env1 req1 w = (inl resp1, w1) ->
  0 <= StatusCode (heap w1 !!! resp1) <= 999 ->
  clockGet env2 <= clockSet env1 + GoCache.DefaultExpiration ->
  exists p resp2 w2,
    let key := generateCacheKey (rangeKey env1) req1 (cacheKey a) in
    let status := StatusCode (heap w1 !!! resp1) in
    HandleCacheAndForwardRequest a env2 req2 w1 = (inl resp2, w2)
    /\ trace w2
       = trace w ++ [EvCacheGet key; EvEvaluate p; EvCacheSet key status; EvCacheGet key]
    /\ evaluations [EvCacheGet key; EvEvaluate p; EvCacheSet key status; EvCacheGet key]
       = 1%nat
    /\ StatusCode (heap w2 !!! resp2) = status
    /\ RespBody_ (heap w2 !!! resp2) = NopCloser (StatusText status).
Proof.
  intros Hen Hc1 Hc2 Hkey Hmiss Hfirst Hst Hclock.
  unfold HandleCacheAndForwardRequest in Hfirst. rewrite Hen, Hc1 in Hfirst.
  simpl in Hfirst.
  unfold GetCachedResponse, mbind, M_bind, cacheGet in Hfirst.
  rewrite Hmiss in Hfirst. simpl in Hfirst.
  destruct (PrepareForwardedRequest a env1 req1 _) as [[l|e] w0] eqn:Ep;
    simpl in Hfirst; [|discriminate].
  apply PrepareForwardedRequest_ok in Ep as (p & r & -> & ->).
  unfold load, cacheSetDefault, mret, M_ret in Hfirst. simpl in Hfirst.
  injection Hfirst as <- <-. simpl in *.
  rewrite lookup_total_insert_eq in *.
  assert (Hrem : Z.rem (StatusCode r) 1000 = StatusCode r)
    by (apply Z.rem_small; lia).
  rewrite Hrem.
  set (key := generateCacheKey (rangeKey env1) req1 (cacheKey a)) in *.
  set (w1 := mkWorld _ _ _ _ _).
  assert (Hhit : GoCache.Get (clockGet env2)
                   (generateCacheKey (rangeKey env2) req2 (cacheKey a)) (cache w1)
                 = Some (StatusCode r)).
  { rewrite <- Hkey. subst w1. unfold GoCache.Get, GoCache.SetDefault. simpl.
    fold key. rewrite lookup_insert_eq. simpl.
    replace (clockSet env1 + GoCache.DefaultExpiration <? clockGet env2) with false
      by (symmetry; apply Z.ltb_ge; lia).
    by rewrite andb_false_r. }
  destruct (GetCachedResponse_hit a env2 req2 (cacheKey a) w1 (StatusCode r) Hhit)
    as (resp2 & w0 & w2 & _ & _ & Hg & _ & Hh & _ & Ht).
  rewrite Hrem in Hh.
  exists p, resp2, w2.
  unfold HandleCacheAndForwardRequest. rewrite Hen, Hc2. simpl.
  split; [exact Hg|]. split.
  { rewrite Ht, <- Hkey. subst w1. simpl. by rewrite <- !app_assoc. }
  split; [reflexivity|].
  rewrite (lookup_total_correct _ _ _ Hh). split; reflexivity.
Qed.

Lemma second_request_with_same_key_served_from_cache_witness :
  cacheEnabled defaultPlugin = true
  /\ Check (cacheConditions defaultPlugin) getRequest = true
  /\ Check (cacheConditions defaultPlugin) getRequestAgain = true
  /\ generateCacheKey (rangeKey allowingEnv) getRequest (cacheKey defaultPlugin)
     = generateCacheKey (rangeKey rejectingEnv) getRequestAgain (cacheKey defaultPlugin)
  /\ clockGet rejectingEnv <= clockSet allowingEnv + GoCache.DefaultExpiration
  /\ exists resp2 w2,
       HandleCacheAndForwardRequest defaultPlugin rejectingEnv getRequestAgain
         (snd (HandleCacheAndForwardRequest defaultPlugin allowingEnv getRequest
                 initialWorld))
       = (inl resp2, w2)
       /\ StatusCode (heap w2 !!! resp2) = 200
       /\ RespBody_ (heap w2 !!! resp2) = NopCloser "OK".
Proof.
  assert (H1 : cacheEnabled defaultPlugin = true) by reflexivity.
  assert (H2 : Check (cacheConditions defaultPlugin) getRequest = true) by reflexivity.
  assert (H3 : Check (cacheConditions defaultPlugin) getRequestAgain = true)
    by reflexivity.
  assert (H4 : generateCacheKey (rangeKey allowingEnv) getRequest (cacheKey defaultPlugin)
               = generateCacheKey (rangeKey rejectingEnv) getRequestAgain
                   (cacheKey defaultPlugin)) by reflexivity.
  assert (H5 : GoCache.Get (clockGet allowingEnv)
                 (generateCacheKey (rangeKey allowingEnv) getRequest
                    (cacheKey defaultPlugin)) (cache initialWorld) = None)
    by reflexivity.
  set (w1 := snd (HandleCacheAndForwardRequest defaultPlugin allowingEnv getRequest
                    initialWorld)).
  assert (H6 : HandleCacheAndForwardRequest defaultPlugin allowingEnv getRequest
                 initialWorld = (inl 0%nat, w1)) by (vm_compute; reflexivity).
  assert (E : StatusCode (heap w1 !!! 0%nat) = 200) by (vm_compute; reflexivity).
  assert (H7 : 0 <= StatusCode (heap w1 !!! 0%nat) <= 999) by (rewrite E; lia).
  assert (H8 : clockGet rejectingEnv
               <= clockSet allowingEnv + GoCache.DefaultExpiration)
    by (vm_compute; discriminate).
  repeat (split; [assumption|]).
  destruct (second_request_with_same_key_served_from_cache defaultPlugin allowingEnv
              rejectingEnv getRequest getRequestAgain initialWorld w1 0%nat
              H1 H2 H3 H4 H5 H6 H7 H8)
    as (p & resp2 & w2 & Hs & _ & _ & Hst & Hb).
  exists resp2, w2. rewrite E in Hst, Hb. split; [exact Hs|]. split; assumption.
Defined.

(** ** C1: when two requests derive the same key *)

(** C1, as the claim states it, fails: for one and the same request the key
    changes with the order in which the range over the header map yields its
    entries, in match-all mode and in allow-list mode alike. *)
Lemma key_changes_with_header_iteration_order :
  validRange map_to_list
  /\ validRange reversedRange
  /\ generateCacheKey map_to_list twoHeaderRequest allHeadersOptions
     <> generateCacheKey reversedRange twoHeaderRequest allHeadersOptions
  /\ generateCacheKey map_to_list twoHeaderRequest allowListOptions
     <> generateCacheKey reversedRange twoHeaderRequest allowListOptions.
Proof.
  split; [intros h; reflexivity|].
  split; [intros h; apply reverse_Permutation|].
  split; vm_compute; discriminate.
Qed.

(** C1, amended. For every pair of requests whose values are identical
    across the attributes selected by the options (method, normalized request
    URI, host, remote address) and whose selected headers are yielded as the
    same sequence of entries by the two ranges over the header maps, the keys
    are equal.  When [IncludeHeaders] is off the condition on headers is
    void. *)
Theorem same_selected_attributes_same_key
        (range1 range2 : RangeOrder) (r1 r2 : Request) (options : CacheKeyOptions) :
  (isSet (IncludeMethod options) = true -> Method r1 = Method r2) ->
  (isSet (IncludeRequestURI options) = true ->
   removeTrackingParams (RequestURI r1) = removeTrackingParams (RequestURI r2)) ->
  (isSet (IncludeHeaders options) = true ->
   selectedHeaders options (range1 (Header_ r1))
   = selectedHeaders options (range2 (Header_ r2))) ->
  (isSet (IncludeHost options) = true -> Host r1 = Host r2) ->
  (isSet (IncludeRemoteAddress options) = true -> RemoteAddr r1 = RemoteAddr r2) ->
  generateCacheKey range1 r1 options = generateCacheKey range2 r2 options.
Proof.
  intros Hm Hu Hh Hhost Hra.
  unfold generateCacheKey. f_equal. f_equal. unfold hasherWrites.
  f_equal; [destruct (isSet (IncludeMethod options)); [by rewrite Hm | done]|].
  f_equal; [destruct (isSet (IncludeRequestURI options)); [by rewrite Hu | done]|].
  f_equal.
  { destruct (isSet (IncludeHeaders options)); [|done].
    specialize (Hh eq_refl). unfold selectedHeaders in Hh.
    destruct (isSet (MatchAllHeaders options)); by rewrite Hh. }
  f_equal; [destruct (isSet (IncludeHost options)); [by rewrite Hhost | done]|].
  destruct (isSet (IncludeRemoteAddress options)); [by rewrite Hra | done].
Qed.

Lemma same_selected_attributes_same_key_witness :
  selectedHeaders allowListOptions (map_to_list (Header_ twoHeaderRequest))
  = selectedHeaders allowListOptions
      (map_to_list (Header_ (mkRequest "GET" "/index.html?utm_source=mail"
                               (<[ "Cookie" := ["a=b"] ]> (Header_ twoHeaderRequest))
                               "example.com" "10.0.0.9:1234" 0 "")))
  /\ generateCacheKey map_to_list twoHeaderRequest allowListOptions
     = generateCacheKey map_to_list
         (mkRequest "GET" "/index.html?utm_source=mail"
                    (<[ "Cookie" := ["a=b"] ]> (Header_ twoHeaderRequest))
                    "example.com" "10.0.0.9:1234" 0 "")
         allowListOptions.
Proof.
  assert (H : selectedHeaders allowListOptions (map_to_list (Header_ twoHeaderRequest))
              = selectedHeaders allowListOptions
                  (map_to_list (Header_ (mkRequest "GET" "/index.html?utm_source=mail"
                                  (<[ "Cookie" := ["a=b"] ]> (Header_ twoHeaderRequest))
                                  "example.com" "10.0.0.9:1234" 0 ""))))
    by (vm_compute; reflexivity).
  split; [exact H|].
  apply same_selected_attributes_same_key.
  - reflexivity.
  - intros _. vm_compute. reflexivity.
  - intros _. exact H.
  - reflexivity.
  - intros E. discriminate E.
Defined.

(** ** C7: tracking parameters do not reach the key *)

(** *** Strings *)

Lemma sapp_nil (t : string) : "" +:+ t = t.
Proof. reflexivity. Qed.

Lemma sapp_cons (c : ascii) (s t : string) : String c s +:+ t = String c (s +:+ t).
Proof. reflexivity. Qed.

Lemma sapp_nil_r (s : string) : s +:+ "" = s.
Proof.
  induction s as [|c s IH]; [reflexivity|]. rewrite sapp_cons. by rewrite IH.
Qed.

Create Rewrite HintDb gostring.
#[local] Hint Rewrite sapp_nil sapp_cons sapp_nil_r : gostring.

Lemma sapp_assoc (a b c : string) : (a +:+ b) +:+ c = a +:+ (b +:+ c).
Proof.
  induction a as [|x a IH]; [reflexivity|].
  rewrite !sapp_cons. by rewrite IH.
Qed.

Lemma containsByte_cons (c x : ascii) (s : string) :
  containsByte c (String x s) = if Ascii.eqb x c then true else containsByte c s.
Proof. reflexivity. Qed.

Lemma containsByte_app (c : ascii) (a b : string) :
  containsByte c (a +:+ b) = containsByte c a || containsByte c b.
Proof.
  induction a as [|x a IH]; [reflexivity|].
  rewrite sapp_cons. simpl. destruct (Ascii.eqb x c); [reflexivity | exact IH].
Qed.

Lemma cut_absent (c : ascii) (s : string) :
  containsByte c s = false -> cut c s = (s, "", false).
Proof.
  induction s as [|x s IH]; [reflexivity|]. simpl.
  destruct (Ascii.eqb x c); [discriminate|]. intros H. by rewrite (IH H).
Qed.

Lemma cut_app (c : ascii) (b r : string) :
  containsByte c b = false -> cut c (b +:+ String c r) = (b, r, true).
Proof.
  induction b as [|x b IH].
  - intros _. rewrite sapp_nil. simpl. by rewrite Ascii.eqb_refl.
  - rewrite sapp_cons. simpl. destruct (Ascii.eqb x c); [discriminate|].
    intros H. by rewrite (IH H).
Qed.

Lemma countByte_app (c : ascii) (a b : string) :
  countByte c (a +:+ b) = (countByte c a + countByte c b)%nat.
Proof.
  induction a as [|x a IH]; [reflexivity|].
  rewrite sapp_cons. simpl. rewrite IH. lia.
Qed.

Lemma countByte_absent (c : ascii) (s : string) :
  containsByte c s = false -> countByte c s = 0%nat.
Proof.
  induction s as [|x s IH]; [reflexivity|]. simpl.
  destruct (Ascii.eqb x c); [discriminate|]. intros H. by rewrite (IH H).
Qed.

Lemma hasSuffixByte_absent (c : ascii) (s : string) :
  containsByte c s = false -> hasSuffixByte c s = false.
Proof.
  induction s as [|x s IH]; [reflexivity|]. simpl.
  destruct (Ascii.eqb x c) eqn:E; [discriminate|]. intros H.
  destruct s; [reflexivity | exact (IH H)].
Qed.

Lemma hasSuffixByte_count (c : ascii) (s : string) :
  hasSuffixByte c s = true -> (1 <= countByte c s)%nat.
Proof.
  induction s as [|x s IH]; [discriminate|]. simpl.
  destruct s as [|y s].
  - intros ->. simpl. lia.
  - intros H. specialize (IH H). lia.
Qed.

Lemma hasSuffixByte_app (c : ascii) (a b : string) :
  b <> "" -> hasSuffixByte c (a +:+ b) = hasSuffixByte c b.
Proof.
  intros Hb. induction a as [|x a IH]; [reflexivity|].
  rewrite sapp_cons. simpl.
  destruct (a +:+ b) eqn:E; [|exact IH].
  destruct a; [rewrite sapp_nil in E; congruence | rewrite sapp_cons in E; discriminate].
Qed.

Lemma stringContainsCTLByte_app (a b : string) :
  NetURL.stringContainsCTLByte (a +:+ b)
  = NetURL.stringContainsCTLByte a || NetURL.stringContainsCTLByte b.
Proof.
  induction a as [|x a IH]; [reflexivity|].
  rewrite sapp_cons. simpl. rewrite IH. by rewrite !orb_assoc.
Qed.

Lemma split_absent (c : ascii) (s : string) :
  containsByte c s = false -> split c s = [s].
Proof.
  induction s as [|x s IH]; [reflexivity|]. simpl.
  destruct (Ascii.eqb x c); [discriminate|]. intros H. by rewrite (IH H).
Qed.

Lemma split_app (c : ascii) (b r : string) :
  containsByte c b = false -> split c (b +:+ String c r) = b :: split c r.
Proof.
  induction b as [|x b IH].
  - intros _. rewrite sapp_nil. simpl. by rewrite Ascii.eqb_refl.
  - rewrite sapp_cons. simpl. destruct (Ascii.eqb x c); [discriminate|].
    intros H. by rewrite (IH H).
Qed.

Lemma split_join (pieces : list string) :
  pieces <> [] ->
  Forall (fun p => containsByte "&" p = false) pieces ->
  split "&" (join "&" pieces) = pieces.
Proof.
  induction pieces as [|p l IH]; [congruence|]. intros _ Hf.
  inversion Hf as [|? ? Hp Hl]; subst.
  destruct l as [|p' l].
  - simpl. by apply split_absent.
  - change (join "&" (p :: p' :: l)) with (p +:+ String "&" (join "&" (p' :: l))).
    rewrite split_app by exact Hp. f_equal. apply IH; [discriminate | exact Hl].
Qed.

Lemma containsByte_join (c : ascii) (pieces : list string) :
  c <> "&"%char ->
  Forall (fun p => containsByte c p = false) pieces ->
  containsByte c (join "&" pieces) = false.
Proof.
  intros Hc. induction pieces as [|p l IH]; [reflexivity|]. intros Hf.
  inversion Hf as [|? ? Hp Hl]; subst.
  destruct l as [|p' l]; [exact Hp|].
  change (join "&" (p :: p' :: l)) with (p +:+ String "&" (join "&" (p' :: l))).
  rewrite containsByte_app, Hp, orb_false_l, containsByte_cons.
  destruct (Ascii.eqb "&" c) eqn:E; [apply Ascii.eqb_eq in E; congruence|].
  apply IH. exact Hl.
Qed.

(** *** [url.Parse] on a URI with a query *)

Lemma scanScheme_cons (first : bool) (c : ascii) (r : string) :
  NetURL.scanScheme first (String c r)
  = if isAlpha c then
      match NetURL.scanScheme false r with
      | NetURL.FoundScheme sch rest => NetURL.FoundScheme (String c sch) rest
      | other => other
      end
    else if isDigit c || NetURL.oneOf "+-." c then
      if first then NetURL.NoScheme
      else match NetURL.scanScheme false r with
           | NetURL.FoundScheme sch rest => NetURL.FoundScheme (String c sch) rest
           | other => other
           end
    else if Ascii.eqb c ":" then
      if first then NetURL.MissingScheme else NetURL.FoundScheme EmptyString r
    else NetURL.NoScheme.
Proof. reflexivity. Qed.

Lemma scanScheme_query (b q : string) (first : bool) :
  containsByte "?" b = false ->
  NetURL.scanScheme first (b +:+ String "?" q)
  = match NetURL.scanScheme first b with
    | NetURL.FoundScheme s r => NetURL.FoundScheme s (r +:+ String "?" q)
    | other => other
    end.
Proof.
  revert first. induction b as [|c b IH]; intros first Hb.
  - rewrite sapp_nil. destruct first; reflexivity.
  - rewrite containsByte_cons in Hb.
    destruct (Ascii.eqb c "?"); [discriminate|].
    rewrite sapp_cons, !scanScheme_cons.
    destruct (isAlpha c).
    { rewrite (IH false Hb). by destruct (NetURL.scanScheme false b). }
    destruct (isDigit c || NetURL.oneOf "+-." c).
    { destruct first; [reflexivity|].
      rewrite (IH false Hb). by destruct (NetURL.scanScheme false b). }
    destruct (Ascii.eqb c ":"); [by destruct first | reflexivity].
Qed.

Lemma scanScheme_rest (b s r : string) (first : bool) :
  containsByte "?" b = false ->
  NetURL.scanScheme first b = NetURL.FoundScheme s r ->
  containsByte "?" r = false.
Proof.
  revert first s. induction b as [|c b IH]; intros first s Hb; [discriminate|].
  rewrite containsByte_cons in Hb.
  destruct (Ascii.eqb c "?"); [discriminate|].
  rewrite scanScheme_cons.
  destruct (isAlpha c).
  { destruct (NetURL.scanScheme false b) eqn:E; try discriminate.
    intros H. injection H as <- <-. by eapply IH. }
  destruct (isDigit c || NetURL.oneOf "+-." c).
  { destruct first; [discriminate|].
    destruct (NetURL.scanScheme false b) eqn:E; try discriminate.
    intros H. injection H as <- <-. by eapply IH. }
  destruct (Ascii.eqb c ":"); [|discriminate].
  destruct first; [discriminate|]. intros H. by injection H as <- <-.
Qed.

Lemma getScheme_query (b q : string) :
  containsByte "?" b = false ->
  NetURL.getScheme (b +:+ String "?" q)
  = match NetURL.getScheme b with
    | None => None
    | Some (s, r) => Some (s, r +:+ String "?" q)
    end.
Proof.
  intros Hb. unfold NetURL.getScheme. rewrite (scanScheme_query b q true Hb).
  by destruct (NetURL.scanScheme true b).
Qed.

Lemma getScheme_rest (b s r : string) :
  containsByte "?" b = false ->
  NetURL.getScheme b = Some (s, r) ->
  containsByte "?" r = false.
Proof.
  intros Hb. unfold NetURL.getScheme.
  destruct (NetURL.scanScheme true b) eqn:E; try discriminate.
  - intros H. by injection H as <- <-.
  - intros H. injection H as <- <-. by eapply scanScheme_rest.
Qed.

Lemma splitQuery_absent (r : string) :
  containsByte "?" r = false -> NetURL.splitQuery r = (r, "", false).
Proof.
  intros Hr. unfold NetURL.splitQuery.
  rewrite (hasSuffixByte_absent _ _ Hr). simpl.
  by rewrite (cut_absent _ _ Hr).
Qed.

Lemma splitQuery_query (r q : string) :
  containsByte "?" r = false -> q <> "" ->
  NetURL.splitQuery (r +:+ String "?" q) = (r, q, false).
Proof.
  intros Hr Hq. unfold NetURL.splitQuery.
  assert (E : hasSuffixByte "?" (r +:+ String "?" q)
              && (countByte "?" (r +:+ String "?" q) =? 1)%nat = false).
  { rewrite hasSuffixByte_app by discriminate.
    destruct q as [|c q]; [congruence|].
    change (hasSuffixByte "?" (String "?" (String c q)))
      with (hasSuffixByte "?" (String c q)).
    destruct (hasSuffixByte "?" (String c q)) eqn:Es; [|reflexivity].
    apply hasSuffixByte_count in Es. simpl.
    rewrite countByte_app, (countByte_absent _ _ Hr).
    change (countByte "?" (String "?" (String c q)))
      with (S (countByte "?" (String c q))).
    apply Nat.eqb_neq. lia. }
  rewrite E. by rewrite (cut_app _ _ _ Hr).
Qed.

Lemma withQuery_withQuery (q q' : string) (f f' : bool) (u : NetURL.URL) :
  NetURL.withQuery q f (NetURL.withQuery q' f' u) = NetURL.withQuery q f u.
Proof. reflexivity. Qed.

Lemma parseGeneral_absent (b : string) :
  containsByte "?" b = false ->
  parseGeneral b = option_map (NetURL.withQuery "" false) (parseGeneral b).
Proof.
  intros Hb. unfold parseGeneral.
  destruct (NetURL.getScheme b) as [[s r]|] eqn:E; [|reflexivity].
  rewrite (splitQuery_absent r (getScheme_rest _ _ _ Hb E)).
  by destruct (NetURL.parseHier _ r).
Qed.

Lemma parseGeneral_query (b q : string) :
  containsByte "?" b = false -> q <> "" ->
  parseGeneral (b +:+ String "?" q)
  = option_map (NetURL.withQuery q false) (parseGeneral b).
Proof.
  intros Hb Hq. unfold parseGeneral. rewrite (getScheme_query b q Hb).
  destruct (NetURL.getScheme b) as [[s r]|] eqn:E; [|reflexivity].
  pose proof (getScheme_rest _ _ _ Hb E) as Hr.
  rewrite (splitQuery_query r q Hr Hq), (splitQuery_absent r Hr).
  by destruct (NetURL.parseHier _ r).
Qed.

Lemma parse_unfold (x : string) :
  NetURL.parse x
  = if NetURL.stringContainsCTLByte x then None
    else if String.eqb x "*" then
      Some (NetURL.mkURL "" "" None "" "*" "" false false "" "" "")
    else parseGeneral x.
Proof. reflexivity. Qed.

Lemma join_nonempty (pieces : list string) :
  pieces <> [] -> pieces <> [""] -> join "&" pieces <> "".
Proof.
  destruct pieces as [|p [|p' l]]; [congruence| |].
  - simpl. congruence.
  - intros _ _.
    change (join "&" (p :: p' :: l)) with (p +:+ String "&" (join "&" (p' :: l))).
    destruct p; autorewrite with gostring; discriminate.
Qed.

Lemma query_uri_not_star (b q : string) :
  String.eqb (b +:+ String "?" q) "*" = false.
Proof.
  apply String.eqb_neq.
  destruct b as [|c [|c' b]]; autorewrite with gostring; discriminate.
Qed.

Lemma URL_String_outside_query (E : string) (F : bool) (u u' : NetURL.URL) :
  sameOutsideQuery u u' ->
  NetURL.URL_String (NetURL.withQuery E F u) = NetURL.URL_String (NetURL.withQuery E F u').
Proof.
  intros (Hh & Hf & Hr). unfold NetURL.URL_String.
  change (NetURL.hierString (NetURL.withQuery E F u)) with (NetURL.hierString u).
  change (NetURL.hierString (NetURL.withQuery E F u')) with (NetURL.hierString u').
  unfold NetURL.EscapedFragment. simpl. by rewrite Hh, Hf, Hr.
Qed.

(** The URL that [parse] returns for ["*"] prints like the one its general
    path returns. *)
Lemma star_same_outside_query :
  exists g, parseGeneral "*" = Some g
            /\ sameOutsideQuery (NetURL.mkURL "" "" None "" "*" "" false false "" "" "") g.
Proof.
  eexists. split; [vm_compute; reflexivity|].
  split; [|split]; vm_compute; reflexivity.
Qed.

Lemma queryText_no_hash (pieces : list string) :
  Forall queryPiece pieces -> containsByte "#" (queryText pieces) = false.
Proof.
  intros Hf. destruct pieces as [|p l]; [reflexivity|].
  unfold queryText. rewrite containsByte_cons.
  change (Ascii.eqb "?" "#") with false. cbv iota.
  apply containsByte_join; [discriminate|].
  eapply Forall_impl; [exact Hf|]. by intros x [_ H].
Qed.

(** The lemmas on a request URI [uriOf base pieces frag] share what makes
    [base] and [frag] the text before the query and the fragment text. *)
Section RequestURIParts.

Variables base frag : string.
Hypothesis base_no_query : containsByte "?" base = false.
Hypothesis base_no_hash : containsByte "#" base = false.
Hypothesis frag_shape : frag = "" \/ exists f, frag = String "#" f.

(** What [parse] returns for the text before the fragment. *)
Lemma parse_base_query (pieces : list string) (url : NetURL.URL) :
  pieces <> [""] ->
  NetURL.parse (base +:+ queryText pieces) = Some url ->
  exists g, parseGeneral base = Some g
            /\ sameOutsideQuery url g
            /\ NetURL.RawQuery url = join "&" pieces
            /\ NetURL.ForceQuery url = false.
Proof.
  intros Hne. rewrite parse_unfold.
  destruct (NetURL.stringContainsCTLByte _); [discriminate|].
  destruct pieces as [|p l].
  - unfold queryText. rewrite sapp_nil_r.
    destruct (String.eqb base "*") eqn:E.
    + apply String.eqb_eq in E. rewrite E. intros H. injection H as <-.
      destruct star_same_outside_query as (g & Hg & Hs).
      exists g. split; [exact Hg|]. split; [exact Hs|]. split; reflexivity.
    + pose proof (parseGeneral_absent base base_no_query) as Ha.
      destruct (parseGeneral base) as [g|]; [|discriminate].
      intros H. injection H as <-. simpl in Ha. injection Ha as Ha.
      exists g. split; [reflexivity|]. split; [by repeat split|].
      rewrite Ha. split; reflexivity.
  - unfold queryText. rewrite query_uri_not_star.
    rewrite (parseGeneral_query base _ base_no_query)
      by (apply join_nonempty; [discriminate | exact Hne]).
    destruct (parseGeneral base) as [g|]; [|discriminate].
    intros H. injection H as <-. exists g.
    split; [reflexivity|]. split; [by repeat split|]. split; reflexivity.
Qed.

(** What [url.Parse] returns for a request URI. *)
Lemma Parse_uriOf (pieces : list string) (u : NetURL.URL) :
  Forall queryPiece pieces ->
  pieces <> [""] ->
  NetURL.Parse (uriOf base pieces frag) = Some u ->
  exists g, parseGeneral base = Some g
            /\ NetURL.hierString u = NetURL.hierString g
            /\ (NetURL.Fragment u, NetURL.RawFragment u) = fragFields frag g
            /\ NetURL.RawQuery u = join "&" pieces
            /\ NetURL.ForceQuery u = false.
Proof.
  intros Hf Hne. unfold uriOf, NetURL.Parse.
  assert (Hx : containsByte "#" (base +:+ queryText pieces) = false).
  { by rewrite containsByte_app, base_no_hash, (queryText_no_hash _ Hf). }
  rewrite <- sapp_assoc.
  destruct frag_shape as [-> | [f ->]].
  - rewrite sapp_nil_r, (cut_absent _ _ Hx).
    destruct (NetURL.parse _) as [url|] eqn:E; [|discriminate].
    simpl. intros H. injection H as <-.
    destruct (parse_base_query pieces url Hne E) as (g & Hg & (H1 & H2 & H3) & H4 & H5).
    exists g. simpl. rewrite H2, H3. by repeat split.
  - rewrite (cut_app _ _ _ Hx).
    destruct (NetURL.parse _) as [url|] eqn:E; [|discriminate].
    destruct (parse_base_query pieces url Hne E) as (g & Hg & (H1 & H2 & H3) & H4 & H5).
    exists g. split; [exact Hg|].
    unfold fragFields.
    destruct (String.eqb f "") eqn:Ef.
    + injection H as <-. rewrite H2, H3. by repeat split.
    + unfold NetURL.setFragment in H.
      destruct (NetURL.unescape f NetURL.encodeFragment) as [fr|]; [|discriminate].
      injection H as <-. by repeat split.
Qed.

End RequestURIParts.

(** *** The query map without its tracking parameters *)

(** Sorting forgets the order in which the keys of a map were collected. *)
Lemma sortStrings_order_irrelevant (l l' : list string) :
  l ≡ₚ l' -> NetURL.sortStrings l = NetURL.sortStrings l'.
Proof.
  intros Hp. unfold NetURL.sortStrings.
  apply (Sorted_unique String.le); try apply Sorted_merge_sort; try apply _.
  by rewrite !merge_sort_Permutation.
Qed.

Lemma delAll_lookup (T : list string) (m : NetURL.Values) (k : string) :
  fold_left (fun q param => NetURL.Del param q) T m !! k
  = if decide (k ∈ T) then None else m !! k.
Proof.
  revert m. induction T as [|p T IH]; intros m; simpl.
  - destruct (decide (k ∈ [])) as [H|_]; [inversion H | reflexivity].
  - rewrite IH. unfold NetURL.Del.
    destruct (decide (k ∈ T)) as [Hin|Hnin];
      destruct (decide (k ∈ p :: T)) as [Hin'|Hnin']; try reflexivity.
    + exfalso. apply Hnin'. by right.
    + inversion Hin'; subst; [apply lookup_delete_eq | contradiction].
    + apply lookup_delete_ne. intros ->. apply Hnin'. left.
Qed.

Lemma tracking_names_unescape (k : string) :
  k ∈ trackingParams -> NetURL.QueryUnescape k = Some k.
Proof.
  revert k. apply Forall_forall. unfold trackingParams.
  repeat (constructor; [reflexivity|]). constructor.
Qed.

Lemma agreeOutsideTracking_trans (a b c : NetURL.Values) :
  agreeOutsideTracking a b -> agreeOutsideTracking b c -> agreeOutsideTracking a c.
Proof. intros H1 H2 k Hk. by rewrite (H1 k Hk), (H2 k Hk). Qed.

Lemma parsePair_tracking (m : NetURL.Values) (piece : string) :
  isTrackingPiece piece = true -> agreeOutsideTracking (NetURL.parsePair m piece) m.
Proof.
  unfold isTrackingPiece, pieceKey, NetURL.parsePair. intros Ht k Hk.
  apply contains_true_iff in Ht.
  destruct (containsByte ";" piece); [reflexivity|].
  destruct (String.eqb piece ""); [reflexivity|].
  destruct (cut "=" piece) as [[key value] found]. cbn [fst] in Ht.
  rewrite (tracking_names_unescape key Ht).
  destruct (NetURL.QueryUnescape value); [|reflexivity].
  apply lookup_insert_ne. intros ->. contradiction.
Qed.

Lemma parsePair_agree (m m' : NetURL.Values) (piece : string) :
  agreeOutsideTracking m m' ->
  agreeOutsideTracking (NetURL.parsePair m piece) (NetURL.parsePair m' piece).
Proof.
  unfold NetURL.parsePair. intros Ha k Hk.
  destruct (containsByte ";" piece); [by apply Ha|].
  destruct (String.eqb piece ""); [by apply Ha|].
  destruct (cut "=" piece) as [[key value] found].
  destruct (NetURL.QueryUnescape key) as [key'|]; [|by apply Ha].
  destruct (NetURL.QueryUnescape value) as [v|]; [|by apply Ha].
  destruct (decide (key' = k)) as [->|Hne].
  - rewrite !lookup_insert_eq, !lookup_total_alt, (Ha k Hk). reflexivity.
  - rewrite !lookup_insert_ne by exact Hne. by apply Ha.
Qed.

Lemma parsePair_dropped (m : NetURL.Values) (piece : string) :
  droppedPiece piece = true -> agreeOutsideTracking (NetURL.parsePair m piece) m.
Proof.
  unfold droppedPiece. intros Hd.
  destruct (String.eqb piece "") eqn:E.
  - apply String.eqb_eq in E. subst piece. intros k _. reflexivity.
  - by apply parsePair_tracking.
Qed.

Lemma parse_pieces_kept (pieces : list string) (m m' : NetURL.Values) :
  agreeOutsideTracking m m' ->
  agreeOutsideTracking (fold_left NetURL.parsePair pieces m)
                       (fold_left NetURL.parsePair (keptPieces pieces) m').
Proof.
  revert m m'. induction pieces as [|p l IH]; intros m m' Ha; [exact Ha|].
  unfold keptPieces. cbn [List.filter fold_left].
  destruct (droppedPiece p) eqn:E; cbn [negb fold_left].
  - apply IH. eapply agreeOutsideTracking_trans; [|exact Ha].
    by apply parsePair_dropped.
  - apply IH. by apply parsePair_agree.
Qed.

Lemma parseQuery_join (pieces : list string) :
  Forall queryPiece pieces ->
  NetURL.parseQuery ∅ (join "&" pieces) = fold_left NetURL.parsePair pieces ∅.
Proof.
  intros Hf. unfold NetURL.parseQuery.
  destruct pieces as [|p l]; [reflexivity|].
  rewrite split_join; [reflexivity | discriminate |].
  eapply Forall_impl; [exact Hf|]. by intros x [H _].
Qed.

(** The query that [removeTrackingParams] writes back depends on the pieces
    outside the removal set alone. *)
Lemma tracking_pieces_do_not_count (pieces1 pieces2 : list string) :
  Forall queryPiece pieces1 -> Forall queryPiece pieces2 ->
  keptPieces pieces1 = keptPieces pieces2 ->
  delTracking (NetURL.parseQuery ∅ (join "&" pieces1))
  = delTracking (NetURL.parseQuery ∅ (join "&" pieces2)).
Proof.
  intros H1 H2 Hnt. rewrite !parseQuery_join by assumption.
  apply map_eq. intros k. unfold delTracking. rewrite !delAll_lookup.
  case_decide as Hk; [reflexivity|].
  assert (A : agreeOutsideTracking (∅ : NetURL.Values) ∅) by (intros ? ?; reflexivity).
  rewrite (parse_pieces_kept pieces1 ∅ ∅ A k Hk).
  rewrite (parse_pieces_kept pieces2 ∅ ∅ A k Hk).
  by rewrite Hnt.
Qed.

(** [removeTrackingParams] on a request URI that parses, in closed form. *)
Lemma removeTrackingParams_uriOf (base frag : string) (pieces : list string) :
  containsByte "?" base = false ->
  containsByte "#" base = false ->
  (frag = "" \/ exists f, frag = String "#" f) ->
  Forall queryPiece pieces ->
  pieces <> [""] ->
  NetURL.Parse (uriOf base pieces frag) <> None ->
  exists g,
    parseGeneral base = Some g
    /\ removeTrackingParams (uriOf base pieces frag)
       = NetURL.URL_String
           (NetURL.withQuery
              (NetURL.Encode (delTracking (NetURL.parseQuery ∅ (join "&" pieces))))
              false
              (NetURL.withFragment (fst (fragFields frag g)) (snd (fragFields frag g)) g)).
Proof.
  intros Hq Hh Hfrag Hf Hne Hp. unfold removeTrackingParams.
  destruct (NetURL.Parse _) as [u|] eqn:E; [|congruence].
  destruct (Parse_uriOf base frag Hq Hh Hfrag pieces u Hf Hne E)
    as (g & Hg & H1 & H2 & H3 & H4).
  exists g. split; [exact Hg|].
  unfold NetURL.Query. rewrite H3, H4. fold delTracking.
  apply URL_String_outside_query.
  split; [exact H1|]. split; simpl; by rewrite <- H2.
Qed.

(** C7, as the claim states it, fails in two ways.  A query that holds a
    tracking parameter and nothing else is normalized to no query at all,
    while a bare [?] stays: ["/p?utm_source=x"] and ["/p?"] get different
    keys.  And a request URI that [url.Parse] rejects (here for the escape
    [%zz] in its fragment) is hashed as it is, tracking parameter included. *)
Lemma tracking_parameter_changes_key :
  "utm_source" ∈ trackingParams
  /\ RequestURI trackedRequest = uriOf "/p" ["utm_source=x"] ""
  /\ RequestURI bareQueryRequest = uriOf "/p" [""] ""
  /\ keptPieces ["utm_source=x"] = keptPieces [""]
  /\ removeTrackingParams (RequestURI trackedRequest) = "/p"
  /\ removeTrackingParams (RequestURI bareQueryRequest) = "/p?"
  /\ generateCacheKey map_to_list trackedRequest (CacheKey CreateConfig)
     <> generateCacheKey map_to_list bareQueryRequest (CacheKey CreateConfig)
  /\ RequestURI (brokenFragmentRequest "x") = uriOf "/p" ["utm_source=x"] "#%zz"
  /\ RequestURI (brokenFragmentRequest "y") = uriOf "/p" ["utm_source=y"] "#%zz"
  /\ NetURL.Parse (RequestURI (brokenFragmentRequest "x")) = None
  /\ generateCacheKey map_to_list (brokenFragmentRequest "x") (CacheKey CreateConfig)
     <> generateCacheKey map_to_list (brokenFragmentRequest "y") (CacheKey CreateConfig).
Proof.
  split; [apply contains_true_iff; reflexivity|].
  repeat split;
    first [ vm_compute; reflexivity | vm_compute; discriminate ].
Qed.

(** C7, amended. Take two request URIs with the same text before the query
    and the same fragment, whose queries hold the same pieces outside the
    removal set, in the same order, and differ only in the pieces that name
    a parameter of the removal set (present or not, with whatever value).
    If [url.Parse] accepts both and neither query is a bare [?], then
    [removeTrackingParams] maps both to the same string, and two requests
    that carry them and agree on everything else derive the same key (under
    one order of iteration over the headers). *)
Theorem tracking_parameters_do_not_change_key
        (base frag : string) (pieces1 pieces2 : list string) :
  containsByte "?" base = false ->
  containsByte "#" base = false ->
  (frag = "" \/ exists f, frag = String "#" f) ->
  Forall queryPiece pieces1 ->
  Forall queryPiece pieces2 ->
  keptPieces pieces1 = keptPieces pieces2 ->
  pieces1 <> [""] ->
  pieces2 <> [""] ->
  NetURL.Parse (uriOf base pieces1 frag) <> None ->
  NetURL.Parse (uriOf base pieces2 frag) <> None ->
  removeTrackingParams (uriOf base pieces1 frag)
  = removeTrackingParams (uriOf base pieces2 frag)
  /\ forall (range : RangeOrder) (method host remote body : string) (header : Header)
            (contentLength : Z) (options : CacheKeyOptions),
       generateCacheKey range
         (mkRequest method (uriOf base pieces1 frag) header host remote contentLength body)
         options
       = generateCacheKey range
           (mkRequest method (uriOf base pieces2 frag) header host remote contentLength body)
           options.
Proof.
  intros Hq Hh Hfrag Hf1 Hf2 Hkept Hn1 Hn2 Hp1 Hp2.
  assert (E : removeTrackingParams (uriOf base pieces1 frag)
              = removeTrackingParams (uriOf base pieces2 frag)).
  { destruct (removeTrackingParams_uriOf base frag pieces1 Hq Hh Hfrag Hf1 Hn1 Hp1)
      as (g1 & Hg1 & ->).
    destruct (removeTrackingParams_uriOf base frag pieces2 Hq Hh Hfrag Hf2 Hn2 Hp2)
      as (g2 & Hg2 & ->).
    rewrite Hg1 in Hg2. injection Hg2 as <-.
    by rewrite (tracking_pieces_do_not_count pieces1 pieces2 Hf1 Hf2 Hkept). }
  split; [exact E|].
  intros. unfold generateCacheKey, hasherWrites. cbn [Method RequestURI Header_ Host RemoteAddr].
  by rewrite E.
Qed.

Lemma tracking_parameters_do_not_change_key_witness :
  keptPieces ["q=rocq"; "utm_source=news"; "gclid=123"] = keptPieces ["q=rocq"]
  /\ uriOf "/search" ["q=rocq"; "utm_source=news"; "gclid=123"] "#top"
     = "/search?q=rocq&utm_source=news&gclid=123#top"
  /\ uriOf "/search" ["q=rocq"] "#top" = "/search?q=rocq#top"
  /\ removeTrackingParams "/search?q=rocq&utm_source=news&gclid=123#top"
     = removeTrackingParams "/search?q=rocq#top".
Proof.
  assert (H : keptPieces ["q=rocq"; "utm_source=news"; "gclid=123"]
              = keptPieces ["q=rocq"]) by reflexivity.
  split; [exact H|]. split; [reflexivity|]. split; [reflexivity|].
  refine (proj1 (tracking_parameters_do_not_change_key "/search" "#top"
                   ["q=rocq"; "utm_source=news"; "gclid=123"] ["q=rocq"]
                   _ _ _ _ _ H _ _ _ _)).
  - reflexivity.
  - reflexivity.
  - right. by eexists.
  - repeat constructor.
  - repeat constructor.
  - discriminate.
  - discriminate.
  - vm_compute. discriminate.
  - vm_compute. discriminate.
Defined.

(** * Further properties of the code *)

(** ** The body guard *)

(** X1. On a body that is read without error the guard decides by length
    alone: at most [maxBodySize] bytes pass and nothing is written, more
    than [maxBodySize] bytes are answered 413 and reported as too large.
    With a negative [maxBodySize] this rejects every body, the empty one
    included. *)
Theorem body_guard_decides_by_length
        (a : Modsecurity) (bytes : string) (rw : ResponseWriter) :
  - 2^63 <= maxBodySize a < MaxInt64 ->
  HandleRequestBodyMaxSize a (mkStream bytes None) rw
  = if len bytes <=? maxBodySize a then (rw, None)
    else (Error "" StatusRequestEntityTooLarge rw, Some "http: request body too large").
Proof.
  intros Hmax. unfold MaxInt64 in Hmax.
  pose proof (len_nonneg bytes) as Hlen.
  unfold HandleRequestBodyMaxSize, copyMaxBytes. simpl.
  rewrite wrap64_small by lia.
  destruct (len bytes <=? maxBodySize a) eqn:E.
  - apply Z.leb_le in E. settle_ltb. reflexivity.
  - apply Z.leb_gt in E.
    destruct (maxBodySize a + 1 <? 0) eqn:E1.
    + apply Z.ltb_lt in E1.
      destruct (0 <? len bytes) eqn:E2; [reflexivity|].
      apply Z.ltb_ge in E2. settle_ltb. reflexivity.
    + apply Z.ltb_ge in E1.
      destruct (maxBodySize a + 1 <? len bytes) eqn:E2; [reflexivity|].
      apply Z.ltb_ge in E2. settle_ltb. reflexivity.
Qed.

Lemma body_guard_decides_by_length_witness :
  - 2^63 <= maxBodySize smallPlugin < MaxInt64
  /\ HandleRequestBodyMaxSize smallPlugin (mkStream "abcd" None) freshRW = (freshRW, None)
  /\ snd (HandleRequestBodyMaxSize smallPlugin (mkStream "abcdefgh" None) freshRW)
     = Some "http: request body too large".
Proof.
  assert (H : - 2^63 <= maxBodySize smallPlugin < MaxInt64)
    by (vm_compute; split; [discriminate | reflexivity]).
  split; [exact H|].
  rewrite !(body_guard_decides_by_length smallPlugin _ freshRW H).
  split; reflexivity.
Defined.

(** X2. When reading the body fails before more than [maxBodySize + 1] bytes
    have arrived, the guard answers 502 and returns the read error, unless
    the error's text is that of the too-large error, which it answers 413.
    This holds also when exactly [maxBodySize + 1] bytes were read. *)
Theorem body_guard_read_failure
        (a : Modsecurity) (bytes e : string) (rw : ResponseWriter) :
  - 1 <= maxBodySize a < MaxInt64 ->
  len bytes <= maxBodySize a + 1 ->
  HandleRequestBodyMaxSize a (mkStream bytes (Some e)) rw
  = (Error "" (if String.eqb e "http: request body too large"
               then StatusRequestEntityTooLarge else StatusBadGateway) rw,
     Some e).
Proof.
  intros Hmax Hlen. unfold MaxInt64 in Hmax.
  unfold HandleRequestBodyMaxSize, copyMaxBytes. simpl.
  rewrite wrap64_small by lia.
  replace (maxBodySize a + 1 <? 0) with false by (symmetry; apply Z.ltb_ge; lia).
  cbv iota. settle_ltb.
  by destruct (String.eqb e _).
Qed.

Lemma body_guard_read_failure_witness :
  - 1 <= maxBodySize smallPlugin < MaxInt64
  /\ len "abcde" <= maxBodySize smallPlugin + 1
  /\ HandleRequestBodyMaxSize smallPlugin
       (mkStream "abcde" (Some "unexpected EOF")) freshRW
     = (Error "" StatusBadGateway freshRW, Some "unexpected EOF").
Proof.
  assert (H1 : - 1 <= maxBodySize smallPlugin < MaxInt64)
    by (vm_compute; split; [discriminate | reflexivity]).
  assert (H2 : len "abcde" <= maxBodySize smallPlugin + 1)
    by (vm_compute; discriminate).
  split; [exact H1|]. split; [exact H2|].
  rewrite (body_guard_read_failure smallPlugin "abcde" "unexpected EOF" freshRW H1 H2).
  reflexivity.
Defined.

(** X3. With [maxBodySize] at the largest [int64] the sum
    [maxBodySize + 1] wraps around to a negative limit, which the reader
    takes as 0: every body of at least one byte is answered 413, whatever
    follows the bytes. *)
Theorem body_guard_largest_ceiling_rejects
        (a : Modsecurity) (r : Stream) (rw : ResponseWriter) :
  maxBodySize a = MaxInt64 ->
  0 < len (s_bytes r) ->
  HandleRequestBodyMaxSize a r rw
  = (Error "" StatusRequestEntityTooLarge rw, Some "http: request body too large").
Proof.
  intros Hmax Hlen. unfold HandleRequestBodyMaxSize, copyMaxBytes.
  rewrite Hmax.
  change (wrap64 (MaxInt64 + 1) <? 0) with true. cbv iota.
  replace (0 <? len (s_bytes r)) with true by (symmetry; apply Z.ltb_lt; lia).
  reflexivity.
Qed.

Lemma body_guard_largest_ceiling_rejects_witness :
  HandleRequestBodyMaxSize
    (mkModsecurity "http://waf" MaxInt64 "waf" (2 * Second) true
                   (CacheConditions CreateConfig) (CacheKey CreateConfig))
    (mkStream "x" None) freshRW
  = (Error "" StatusRequestEntityTooLarge freshRW, Some "http: request body too large").
Proof.
  apply body_guard_largest_ceiling_rejects; [reflexivity | vm_compute; reflexivity].
Defined.

(** ** [ServeHTTP] as a whole *)

(** X4. When the body guard fails on a request that is no upgrade, the
    response is the guard's error response and nothing else: whatever the
    verdict, neither it nor the backend writes, and the backend is not
    called. *)
Theorem guard_failure_is_the_whole_response
        (a : Modsecurity) (env : Env) (rw : ResponseWriter) (req : Request)
        (w : World) (e : string) :
  isWebsocket req = false ->
  snd (HandleRequestBodyMaxSize a (guardReads env) rw) = Some e ->
  exists w' evs,
    ServeHTTP a env rw req w
    = (fst (HandleRequestBodyMaxSize a (guardReads env) rw), w')
    /\ trace w' = trace w ++ evs
    /\ noBackendCall evs.
Proof.
  intros Hws Hg.
  destruct (HandleCacheAndForwardRequest_trace a env req w) as (evs & Ht & Hf).
  unfold ServeHTTP. rewrite Hws.
  destruct (HandleRequestBodyMaxSize a (guardReads env) rw) as [rw1 reqErr].
  simpl in Hg. subst reqErr. unfold mbind, M_bind.
  destruct (HandleCacheAndForwardRequest a env req w) as [[l|e'] w1]; simpl in *;
    exists w1, evs; (split; [reflexivity|]); (split; [exact Ht|]);
    by apply verdict_events_no_backend.
Qed.

Lemma guard_failure_is_the_whole_response_witness :
  isWebsocket oversizedPost = false
  /\ snd (HandleRequestBodyMaxSize smallPlugin (guardReads guardFirstEnv) freshRW)
     = Some "http: request body too large"
  /\ fst (ServeHTTP smallPlugin guardFirstEnv freshRW oversizedPost initialWorld)
     = Error "" StatusRequestEntityTooLarge freshRW.
Proof.
  assert (H1 : isWebsocket oversizedPost = false) by reflexivity.
  assert (H2 : snd (HandleRequestBodyMaxSize smallPlugin (guardReads guardFirstEnv)
                      freshRW) = Some "http: request body too large") by reflexivity.
  split; [exact H1|]. split; [exact H2|].
  destruct (guard_failure_is_the_whole_response smallPlugin guardFirstEnv freshRW
              oversizedPost initialWorld _ H1 H2) as (w' & evs & Hs & _).
  rewrite Hs. reflexivity.
Defined.

(** ** Which requests use the cache *)

(** X6. When the cache is disabled, or when the body rule is set and does
    not match (a request that declares a body under a rule that wants none,
    or the reverse), the verdict sub-pipeline is the plain forwarding to the
    evaluation service: the cache is neither read nor written. *)
Theorem disabled_or_body_rule_bypasses_cache
        (a : Modsecurity) (env : Env) (req : Request) (w : World) :
  cacheEnabled a = false
  \/ (exists b, NoBody (cacheConditions a) = Some b
                /\ b <> (ContentLength req =? 0)) ->
  HandleCacheAndForwardRequest a env req w = PrepareForwardedRequest a env req w
  /\ cache (snd (HandleCacheAndForwardRequest a env req w)) = cache w
  /\ exists evs,
       trace (snd (HandleCacheAndForwardRequest a env req w)) = trace w ++ evs
       /\ Forall isEvaluate evs.
Proof.
  intros H.
  assert (E : HandleCacheAndForwardRequest a env req w
              = PrepareForwardedRequest a env req w).
  { unfold HandleCacheAndForwardRequest.
    destruct H as [-> | (b & Hb & Hne)]; [reflexivity|].
    destruct (cacheEnabled a); [|reflexivity]. simpl.
    unfold Check. rewrite Hb.
    destruct (_ && _); [reflexivity|].
    destruct b, (ContentLength req =? 0); simpl; congruence. }
  rewrite E. split; [reflexivity|].
  pose proof (PrepareForwardedRequest_frame a env req w) as F.
  destruct (PrepareForwardedRequest a env req w) as [r w']. simpl.
  destruct F as (Hc & _ & Ht). split; assumption.
Qed.

Lemma disabled_or_body_rule_bypasses_cache_witness :
  (exists b, NoBody (cacheConditions defaultPlugin) = Some b
             /\ b <> (ContentLength getWithBody =? 0))
  /\ cache (snd (HandleCacheAndForwardRequest defaultPlugin allowingEnv getWithBody
                   warmWorld))
     = cache warmWorld.
Proof.
  assert (H : exists b, NoBody (cacheConditions defaultPlugin) = Some b
                        /\ b <> (ContentLength getWithBody =? 0)).
  { exists true. split; [reflexivity | discriminate]. }
  split; [exact H|].
  exact (proj1 (proj2 (disabled_or_body_rule_bypasses_cache defaultPlugin allowingEnv
                          getWithBody warmWorld (or_intror H)))).
Defined.

(** X7. A plugin built by [New] from a configuration whose [CacheEnabled]
    is nil or points to false never touches the cache: its verdict
    sub-pipeline is the plain forwarding to the evaluation service. *)
Theorem New_without_cache_flag_never_caches
        (config : Config) (name : string) (a : Modsecurity)
        (env : Env) (req : Request) (w : World) :
  New config name = inl a ->
  CacheEnabled config <> Some true ->
  HandleCacheAndForwardRequest a env req w = PrepareForwardedRequest a env req w.
Proof.
  unfold New. destruct (len (ModSecurityUrl config) =? 0); [discriminate|].
  intros H Hc. injection H as <-.
  unfold HandleCacheAndForwardRequest. simpl.
  destruct (CacheEnabled config) as [[|]|]; [congruence | reflexivity | reflexivity].
Qed.

Lemma New_without_cache_flag_never_caches_witness :
  exists a,
    New cacheOffConfig "waf" = inl a
    /\ CacheEnabled cacheOffConfig <> Some true
    /\ HandleCacheAndForwardRequest a allowingEnv getRequest warmWorld
       = PrepareForwardedRequest a allowingEnv getRequest warmWorld.
Proof.
  eexists. split; [reflexivity|].
  assert (H : CacheEnabled cacheOffConfig <> Some true) by discriminate.
  split; [exact H|].
  exact (New_without_cache_flag_never_caches cacheOffConfig "waf" _ allowingEnv
           getRequest warmWorld eq_refl H).
Defined.

(** X8. Under the conditions of [CreateConfig] a request is eligible for the
    cache exactly when its method is ["GET"] (in this spelling) and its
    declared content length is 0. *)
Theorem default_conditions_accept_bodyless_GET (req : Request) :
  Check (CacheConditions CreateConfig) req = true
  <-> Method req = "GET" /\ ContentLength req = 0.
Proof.
  unfold Check. cbn [CacheConditions CreateConfig Methods NoBody boolPtr length contains].
  change (0 <? Z.of_nat 1) with true. cbn [andb].
  destruct (String.eqb "GET" (Method req)) eqn:Em.
  - apply String.eqb_eq in Em. cbn [negb].
    destruct (ContentLength req =? 0) eqn:Ec; simpl.
    + apply Z.eqb_eq in Ec. by split.
    + apply Z.eqb_neq in Ec. split; [discriminate | intros [_ H]; contradiction].
  - apply String.eqb_neq in Em. simpl. split; [discriminate|].
    intros [H _]. congruence.
Qed.

(** ** The life of a cache entry *)

Lemma expired_entry_is_a_miss now k c it :
  c !! k = Some it ->
  0 < GoCache.Expiration it < now ->
  GoCache.Get now k c = None.
Proof.
  intros Hk He. unfold GoCache.Get. rewrite Hk.
  replace (0 <? GoCache.Expiration it) with true by (symmetry; apply Z.ltb_lt; lia).
  replace (GoCache.Expiration it <? now) with true by (symmetry; apply Z.ltb_lt; lia).
  reflexivity.
Qed.

(** X9. An entry whose expiry lies before the lookup is not served: if
    [GetCachedResponse] returns a response at all, it has called the
    evaluation service, the response is the object just received (the pool
    is as before), and the entry is rewritten with the new status and an
    expiry five minutes after the write. *)
Theorem stale_entry_is_evaluated_again
        (a : Modsecurity) (env : Env) (req : Request) (options : CacheKeyOptions)
        (w w' : World) (it : GoCache.Item) (l : nat) :
  cache w !! generateCacheKey (rangeKey env) req options = Some it ->
  0 < GoCache.Expiration it < clockGet env ->
  GetCachedResponse a env req options w = (inl l, w') ->
  exists p,
    let key := generateCacheKey (rangeKey env) req options in
    let code := Z.rem (StatusCode (heap w' !!! l)) 1000 in
    trace w' = trace w ++ [EvCacheGet key; EvEvaluate p; EvCacheSet key code]
    /\ cache w' !! key
       = Some (GoCache.mkItem code (clockSet env + GoCache.DefaultExpiration))
    /\ cacheResponsePool w' = cacheResponsePool w.
Proof.
  intros Hk He Hg.
  pose proof (expired_entry_is_a_miss _ _ _ _ Hk He) as Hmiss.
  destruct (GetCachedResponse_miss_ok a env req options w l w' Hmiss Hg)
    as (p & r & -> & ->).
  exists p. simpl. rewrite lookup_total_insert_eq.
  split; [reflexivity|]. split; [|reflexivity].
  unfold GoCache.SetDefault. by rewrite lookup_insert_eq.
Qed.

Lemma stale_entry_is_evaluated_again_witness :
  exists it l w',
    cache warmWorld !! generateCacheKey (rangeKey lateEnv) getRequest (CacheKey CreateConfig)
    = Some it
    /\ 0 < GoCache.Expiration it < clockGet lateEnv
    /\ GetCachedResponse defaultPlugin lateEnv getRequest (CacheKey CreateConfig) warmWorld
       = (inl l, w')
    /\ evaluations (trace w') = 1%nat.
Proof.
  set (key := generateCacheKey (rangeKey lateEnv) getRequest (CacheKey CreateConfig)).
  assert (H1 : cache warmWorld !! key
               = Some (GoCache.mkItem 403 GoCache.DefaultExpiration))
    by (vm_compute; reflexivity).
  assert (H2 : 0 < GoCache.Expiration (GoCache.mkItem 403 GoCache.DefaultExpiration)
               < clockGet lateEnv) by (vm_compute; split; reflexivity).
  set (w' := snd (GetCachedResponse defaultPlugin lateEnv getRequest
                    (CacheKey CreateConfig) warmWorld)).
  assert (H3 : GetCachedResponse defaultPlugin lateEnv getRequest
                 (CacheKey CreateConfig) warmWorld = (inl 0%nat, w'))
    by (vm_compute; reflexivity).
  exists (GoCache.mkItem 403 GoCache.DefaultExpiration), 0%nat, w'.
  split; [exact H1|]. split; [exact H2|]. split; [exact H3|].
  destruct (stale_entry_is_evaluated_again defaultPlugin lateEnv getRequest
              (CacheKey CreateConfig) warmWorld w' _ 0%nat H1 H2 H3) as (p & Ht & _).
  rewrite Ht. reflexivity.
Defined.

(** X10. After a miss that the evaluation service answers with a status of
    at most three digits, a lookup of the same key finds that status at
    every clock reading up to five minutes after the write, that instant
    included, and finds nothing at any later reading. *)
Theorem written_verdict_lives_five_minutes
        (a : Modsecurity) (env : Env) (req : Request) (options : CacheKeyOptions)
        (w w' : World) (l : nat) (t : Z) :
  GoCache.Get (clockGet env) (generateCacheKey (rangeKey env) req options) (cache w)
  = None ->
  GetCachedResponse a env req options w = (inl l, w') ->
  0 <= StatusCode (heap w' !!! l) <= 999 ->
  0 < clockSet env + GoCache.DefaultExpiration ->
  GoCache.Get t (generateCacheKey (rangeKey env) req options) (cache w')
  = if t <=? clockSet env + GoCache.DefaultExpiration
    then Some (StatusCode (heap w' !!! l)) else None.
Proof.
  intros Hmiss Hg Hst Hpos.
  destruct (GetCachedResponse_miss_ok a env req options w l w' Hmiss Hg)
    as (p & r & -> & ->).
  simpl in *. rewrite lookup_total_insert_eq in *.
  unfold GoCache.Get, GoCache.SetDefault. rewrite lookup_insert_eq. simpl.
  rewrite Z.rem_small by lia.
  replace (0 <? clockSet env + GoCache.DefaultExpiration) with true
    by (symmetry; apply Z.ltb_lt; lia).
  simpl. destruct (t <=? _) eqn:E.
  - apply Z.leb_le in E.
    by replace (clockSet env + GoCache.DefaultExpiration <? t) with false
      by (symmetry; apply Z.ltb_ge; lia).
  - apply Z.leb_gt in E.
    by replace (clockSet env + GoCache.DefaultExpiration <? t) with true
      by (symmetry; apply Z.ltb_lt; lia).
Qed.

Lemma written_verdict_lives_five_minutes_witness :
  exists l w',
    GetCachedResponse defaultPlugin rejectingEnv getRequest (CacheKey CreateConfig)
      initialWorld = (inl l, w')
    /\ GoCache.Get (clockSet rejectingEnv + GoCache.DefaultExpiration)
         (generateCacheKey (rangeKey rejectingEnv) getRequest (CacheKey CreateConfig))
         (cache w') = Some 403
    /\ GoCache.Get (clockSet rejectingEnv + GoCache.DefaultExpiration + 1)
         (generateCacheKey (rangeKey rejectingEnv) getRequest (CacheKey CreateConfig))
         (cache w') = None.
Proof.
  set (w' := snd (GetCachedResponse defaultPlugin rejectingEnv getRequest
                    (CacheKey CreateConfig) initialWorld)).
  assert (H1 : GoCache.Get (clockGet rejectingEnv)
                 (generateCacheKey (rangeKey rejectingEnv) getRequest
                    (CacheKey CreateConfig)) (cache initialWorld) = None)
    by (vm_compute; reflexivity).
  assert (H2 : GetCachedResponse defaultPlugin rejectingEnv getRequest
                 (CacheKey CreateConfig) initialWorld = (inl 0%nat, w'))
    by (vm_compute; reflexivity).
  assert (E : StatusCode (heap w' !!! 0%nat) = 403) by (vm_compute; reflexivity).
  assert (H3 : 0 <= StatusCode (heap w' !!! 0%nat) <= 999)
    by (vm_compute; split; discriminate).
  assert (H4 : 0 < clockSet rejectingEnv + GoCache.DefaultExpiration)
    by (vm_compute; reflexivity).
  pose proof (written_verdict_lives_five_minutes defaultPlugin rejectingEnv getRequest
                (CacheKey CreateConfig) initialWorld w' 0%nat) as T.
  exists 0%nat, w'. split; [exact H2|]. split.
  - etransitivity; [exact (T _ H1 H2 H3 H4)|]. vm_compute. reflexivity.
  - etransitivity; [exact (T _ H1 H2 H3 H4)|]. vm_compute. reflexivity.
Defined.

(** ** The pool of synthesized responses *)

Lemma poolReset_fields (w w' : World) :
  heap w' = heap w -> cacheResponsePool w' = cacheResponsePool w ->
  nextLoc w' = nextLoc w -> poolReset w -> poolReset w'.
Proof. intros Hh Hp Hn H l. rewrite Hh, Hp, Hn. apply H. Qed.

Lemma poolReset_alloc (w : World) c r t :
  poolReset w ->
  poolReset (mkWorld c (<[ nextLoc w := r ]> (heap w)) (cacheResponsePool w)
                     (S (nextLoc w)) t).
Proof.
  intros H l Hl. simpl in *. destruct (H l Hl) as (Hlt & Hh & Hb).
  rewrite lookup_total_insert_ne by lia. split; [lia | by split].
Qed.

(** Closing the body of any object keeps the pool as it should be. *)
Lemma poolReset_close (w : World) (l : nat) c t :
  poolReset w ->
  poolReset (mkWorld c
               (<[ l := mkResponse (StatusCode (heap w !!! l)) (RespHeader (heap w !!! l))
                                   (closeBody (RespBody_ (heap w !!! l))) ]> (heap w))
               (cacheResponsePool w) (nextLoc w) t).
Proof.
  intros H l' Hl. simpl in *. destruct (H l' Hl) as (Hlt & Hh & Hb).
  destruct (decide (l' = l)) as [->|Hne].
  - rewrite lookup_total_insert_eq. simpl. split; [exact Hlt|]. split; [exact Hh|].
    by destruct (RespBody_ (heap w !!! l)).
  - rewrite lookup_total_insert_ne by done. by split.
Qed.

Lemma poolReset_PrepareForwardedRequest a env req w :
  poolReset w -> poolReset (snd (PrepareForwardedRequest a env req w)).
Proof.
  intros H. unfold PrepareForwardedRequest.
  destruct (NewRequestWithContext _ _ _) as [p|err]; simpl; [|exact H].
  unfold mbind, M_bind, logEvent, mret, M_ret, alloc; simpl.
  destruct (httpClientDo env _) as [resp|err]; simpl.
  - by apply (poolReset_alloc w).
  - by apply (poolReset_fields w).
Qed.

Lemma poolReset_synthesis (w : World) (l : nat) (pool : list nat) n c t code h body :
  poolReset w ->
  (forall l', l' ∈ pool -> l' ∈ cacheResponsePool w) ->
  (nextLoc w <= n)%nat -> (l < n)%nat ->
  poolReset (mkWorld c
               (<[ l := mkResponse code ∅ (NopCloser body) ]> h) (l :: pool) n t)
  <-> forall l', l' ∈ pool -> l' <> l ->
        (l' < n)%nat /\ RespHeader (h !!! l') = ∅
        /\ isNetBody (RespBody_ (h !!! l')) = false.
Proof.
  intros H Hsub Hn Hl. split.
  - intros P l' Hl' Hne. destruct (P l') as (A & B & C); [by right|].
    simpl in *. rewrite lookup_total_insert_ne in B, C by done. by split.
  - intros P l' Hl'. simpl in *.
    destruct (decide (l' = l)) as [->|Hne].
    + rewrite lookup_total_insert_eq. by split.
    + rewrite lookup_total_insert_ne by done.
      apply P; [|done]. apply elem_of_cons in Hl' as [?|?]; done.
Qed.

Lemma poolReset_GetCachedResponse a env req options w :
  poolReset w -> poolReset (snd (GetCachedResponse a env req options w)).
Proof.
  intros H. unfold GetCachedResponse, mbind, M_bind, cacheGet. simpl.
  destruct (GoCache.Get _ _ _) as [code|].
  - unfold newPooledCacheResponse, putResponse, mbind, M_bind, poolGet. simpl.
    destruct (cacheResponsePool w !! poolPick env) as [l|] eqn:Ep; simpl.
    + rewrite !lookup_total_insert_eq. simpl.
      assert (Hin : l ∈ cacheResponsePool w) by (eapply list_elem_of_lookup_2; eauto).
      destruct (H l Hin) as (Hlt & _).
      apply (poolReset_synthesis w); [exact H | | lia | exact Hlt |].
      * intros l' Hl'. eapply list_elem_of_delete_inv; exact Hl'.
      * intros l' Hl' Hne. rewrite lookup_total_insert_ne by done.
        apply H. eapply list_elem_of_delete_inv; exact Hl'.
    + rewrite !lookup_total_insert_eq. simpl.
      apply (poolReset_synthesis w); [exact H | done | lia | lia |].
      intros l' Hl' Hne. destruct (H l' Hl') as (A & B & C).
      rewrite !lookup_total_insert_ne by done. split; [lia | by split].
  - pose proof (poolReset_PrepareForwardedRequest a env req
                  (mkWorld (cache w) (heap w) (cacheResponsePool w) (nextLoc w)
                     (trace w ++ [EvCacheGet (generateCacheKey (rangeKey env) req options)]))
                  (poolReset_fields w _ eq_refl eq_refl eq_refl H)) as P.
    destruct (PrepareForwardedRequest a env req _) as [[l|e] w1]; simpl in *;
      [|exact P].
    by apply (poolReset_fields w1).
Qed.

Lemma poolReset_HandleCacheAndForwardRequest a env req w :
  poolReset w -> poolReset (snd (HandleCacheAndForwardRequest a env req w)).
Proof.
  intros H. unfold HandleCacheAndForwardRequest.
  destruct (cacheEnabled a); simpl;
    [|by apply poolReset_PrepareForwardedRequest].
  destruct (Check _ _);
    [by apply poolReset_GetCachedResponse | by apply poolReset_PrepareForwardedRequest].
Qed.

(** X11. Whatever request [ServeHTTP] handles, with whatever answers from
    the evaluation service, the clock and the pool, it leaves the pool as it
    should be: every pooled object has been allocated, carries no header,
    and is never a response received from the evaluation service. *)
Theorem ServeHTTP_keeps_pool_reset
        (a : Modsecurity) (env : Env) (rw : ResponseWriter) (req : Request)
        (w : World) :
  poolReset w ->
  poolReset (snd (ServeHTTP a env rw req w)).
Proof.
  intros H. unfold ServeHTTP.
  destruct (isWebsocket req).
  { by apply (poolReset_fields w). }
  destruct (HandleRequestBodyMaxSize a (guardReads env) rw) as [rw1 reqErr].
  unfold mbind, M_bind.
  pose proof (poolReset_HandleCacheAndForwardRequest a env req w H) as P.
  destruct (HandleCacheAndForwardRequest a env req w) as [[l|e] w1]; simpl in P.
  - destruct reqErr as [e|]; [exact P|].
    unfold load. simpl. destruct (400 <=? _); simpl.
    + by apply (poolReset_close w1).
    + by apply (poolReset_close w1).
  - destruct reqErr; exact P.
Qed.

Lemma ServeHTTP_keeps_pool_reset_witness :
  poolReset pooledWorld
  /\ poolReset (snd (ServeHTTP defaultPlugin quietEnv freshRW getRequest pooledWorld)).
Proof.
  assert (H : poolReset pooledWorld).
  { intros l Hl. apply list_elem_of_singleton in Hl as ->.
    vm_compute. repeat split. constructor. }
  split; [exact H|].
  exact (ServeHTTP_keeps_pool_reset defaultPlugin quietEnv freshRW getRequest
           pooledWorld H).
Defined.

(** ** A verdict taken from the cache *)




(** X13. A cache hit allocates a response object only when the pool offers
    none: when the pool hands out an object, that object is the one
    returned, nothing is allocated and the pool ends with as many objects as
    before; when it hands out nothing, one object is allocated, returned and
    added to the pool. *)
Theorem cache_hit_allocates_only_when_pool_offers_nothing
        (a : Modsecurity) (env : Env) (req : Request) (options : CacheKeyOptions)
        (w : World) (code : Z) :
  GoCache.Get (clockGet env) (generateCacheKey (rangeKey env) req options) (cache w)
  = Some code ->
  exists l w',
    GetCachedResponse a env req options w = (inl l, w')
    /\ match cacheResponsePool w !! poolPick env with
       | Some l0 =>
           l = l0 /\ nextLoc w' = nextLoc w
           /\ length (cacheResponsePool w') = length (cacheResponsePool w)
       | None =>
           l = nextLoc w /\ nextLoc w' = S (nextLoc w)
           /\ cacheResponsePool w' = l :: cacheResponsePool w
       end.
Proof.
  intros Hhit. unfold GetCachedResponse, mbind, M_bind, cacheGet.
  rewrite Hhit. simpl.
  unfold newPooledCacheResponse, putResponse, mbind, M_bind, poolGet. simpl.
  destruct (cacheResponsePool w !! poolPick env) as [l0|] eqn:Ep; simpl.
  - eexists _, _. split; [reflexivity|]. simpl.
    split; [reflexivity|]. split; [reflexivity|].
    rewrite length_delete by eauto.
    apply lookup_lt_Some in Ep. lia.
  - eexists _, _. split; [reflexivity|]. simpl. by repeat split.
Qed.

Lemma cache_hit_allocates_only_when_pool_offers_nothing_witness :
  exists w',
    GetCachedResponse defaultPlugin allowingEnv getRequest (CacheKey CreateConfig)
      pooledWorld = (inl 0%nat, w')
    /\ nextLoc w' = 1%nat /\ length (cacheResponsePool w') = 1%nat.
Proof.
  assert (H : GoCache.Get (clockGet allowingEnv)
                (generateCacheKey (rangeKey allowingEnv) getRequest
                   (CacheKey CreateConfig)) (cache pooledWorld) = Some 403)
    by (vm_compute; reflexivity).
  destruct (cache_hit_allocates_only_when_pool_offers_nothing defaultPlugin
              allowingEnv getRequest (CacheKey CreateConfig) pooledWorld 403 H)
    as (l & w' & Hg & Hm).
  change (cacheResponsePool pooledWorld !! poolPick allowingEnv) with (Some 0%nat) in Hm.
  destruct Hm as (-> & Hn & Hl).
  exists w'. split; [exact Hg|]. split; [exact Hn | exact Hl].
Defined.

(** ** The cache key *)

Lemma concat_empty_sep_app (l1 l2 : list string) :
  String.concat "" (l1 ++ l2) = String.concat "" l1 +:+ String.concat "" l2.
Proof.
  induction l1 as [|x l1 IH]; [by rewrite sapp_nil|].
  destruct l1 as [|y l1].
  - simpl. destruct l2 as [|z l2]; simpl.
    + by rewrite sapp_nil_r.
    + by rewrite sapp_nil.
  - change (String.concat "" ((x :: y :: l1) ++ l2))
      with (x +:+ "" +:+ String.concat "" ((y :: l1) ++ l2)).
    change (String.concat "" (x :: y :: l1))
      with (x +:+ "" +:+ String.concat "" (y :: l1)).
    rewrite IH, !sapp_nil, sapp_assoc. reflexivity.
Qed.

Lemma concat_optional (b : bool) (s : string) :
  String.concat "" (if b then [s] else []) = if b then s else "".
Proof. by destruct b. Qed.

(** X14. The parts of a request that go into the key are hashed one after
    the other with nothing between them.  When headers are not part of the
    key, two requests whose included parts (method, request URI after
    [removeTrackingParams], host, remote address) give the same text when
    written end to end get the same key, even where the parts themselves
    differ. *)
Theorem key_parts_are_hashed_without_separator
        (range range' : RangeOrder) (req req' : Request) (options : CacheKeyOptions) :
  isSet (IncludeHeaders options) = false ->
  (if isSet (IncludeMethod options) then Method req else "")
  +:+ (if isSet (IncludeRequestURI options)
       then removeTrackingParams (RequestURI req) else "")
  +:+ (if isSet (IncludeHost options) then Host req else "")
  +:+ (if isSet (IncludeRemoteAddress options) then RemoteAddr req else "")
  = (if isSet (IncludeMethod options) then Method req' else "")
    +:+ (if isSet (IncludeRequestURI options)
         then removeTrackingParams (RequestURI req') else "")
    +:+ (if isSet (IncludeHost options) then Host req' else "")
    +:+ (if isSet (IncludeRemoteAddress options) then RemoteAddr req' else "") ->
  generateCacheKey range req options = generateCacheKey range' req' options.
Proof.
  intros Hh E. unfold generateCacheKey, hasherWrites. rewrite Hh.
  rewrite !concat_empty_sep_app, !concat_optional.
  change (String.concat "" []) with "". rewrite !sapp_nil.
  by rewrite E.
Qed.

Lemma key_parts_are_hashed_without_separator_witness :
  RequestURI shortPathRequest <> RequestURI longPathRequest
  /\ Host shortPathRequest <> Host longPathRequest
  /\ generateCacheKey map_to_list shortPathRequest (CacheKey CreateConfig)
     = generateCacheKey map_to_list longPathRequest (CacheKey CreateConfig).
Proof.
  split; [discriminate|]. split; [discriminate|].
  apply key_parts_are_hashed_without_separator; vm_compute; reflexivity.
Defined.

Lemma hexDigit_lower_hex (x : Z) :
  0 <= x < 16 -> isLowerHex (Sha256.hexDigit x) = true.
Proof.
  intros H.
  assert (C : x = 0 \/ x = 1 \/ x = 2 \/ x = 3 \/ x = 4 \/ x = 5 \/ x = 6 \/ x = 7
              \/ x = 8 \/ x = 9 \/ x = 10 \/ x = 11 \/ x = 12 \/ x = 13 \/ x = 14
              \/ x = 15) by lia.
  repeat (destruct C as [->|C]; [vm_compute; reflexivity|]).
  subst. vm_compute. reflexivity.
Qed.

Lemma hex_format (bs : list Z) :
  Forall (fun b => 0 <= b < 256) bs ->
  String.length (Sha256.hex bs) = (2 * length bs)%nat
  /\ Forall (fun c => isLowerHex c = true) (list_ascii_of_string (Sha256.hex bs)).
Proof.
  induction 1 as [|b bs Hb _ [IH1 IH2]]; [by split|].
  cbn [Sha256.hex String.length list_ascii_of_string length]. split; [lia|].
  constructor; [|constructor; [|exact IH2]].
  - apply hexDigit_lower_hex. split; [apply Z.div_pos; lia|].
    apply Z.div_lt_upper_bound; lia.
  - apply hexDigit_lower_hex. apply Z.mod_pos_bound. lia.
Qed.

Lemma round_length (st : list Z) (kw : Z * Z) :
  length (Sha256.round st kw) = length st.
Proof.
  unfold Sha256.round.
  do 9 (destruct st as [|? st]; [reflexivity|]). reflexivity.
Qed.

Lemma block_length (h blk : list Z) : length (Sha256.block h blk) = length h.
Proof.
  unfold Sha256.block. rewrite length_map, length_combine.
  assert (E : forall l s, length (fold_left Sha256.round l s) = length s).
  { induction l as [|x l IH]; intros s; [reflexivity|].
    simpl. by rewrite IH, round_length. }
  rewrite E. lia.
Qed.

Lemma blocks_length (fuel : nat) (h bs : list Z) :
  length (Sha256.blocks fuel h bs) = length h.
Proof.
  revert h bs. induction fuel as [|f IH]; intros h bs; [reflexivity|].
  simpl. destruct bs; [reflexivity|]. by rewrite IH, block_length.
Qed.

Lemma sum_format (msg : list Z) :
  length (Sha256.sum msg) = 32%nat /\ Forall (fun b => 0 <= b < 256) (Sha256.sum msg).
Proof.
  unfold Sha256.sum.
  pose proof (blocks_length (S (length (Sha256.pad msg) / 64)) Sha256.H0
                (Sha256.pad msg)) as L.
  change (length Sha256.H0) with 8%nat in L.
  set (st := Sha256.blocks _ _ _) in *. clearbody st.
  split.
  - repeat (destruct st as [|? st]; [discriminate L|]).
    destruct st; [reflexivity | discriminate L].
  - apply Forall_forall. intros b Hb.
    apply list_elem_of_In, in_flat_map in Hb as (x & _ & Hb).
    unfold Sha256.be_bytes in Hb. apply in_map_iff in Hb as (i & <- & _).
    apply Z.mod_pos_bound. lia.
Qed.

(** X15. Whatever the request and the options, the cache key is a string of
    64 characters, each one of [0-9a-f]. *)
Theorem cache_key_is_64_hex_digits
        (range : RangeOrder) (req : Request) (options : CacheKeyOptions) :
  String.length (generateCacheKey range req options) = 64%nat
  /\ Forall (fun c => isLowerHex c = true)
            (list_ascii_of_string (generateCacheKey range req options)).
Proof.
  unfold generateCacheKey, Sha256.hexdigest.
  destruct (sum_format (bytes (String.concat "" (hasherWrites range req options))))
    as [L B].
  destruct (hex_format _ B) as [H1 H2]. rewrite L in H1. by split.
Qed.

(** ** [removeTrackingParams] and the order of the parameters *)

Lemma parsePair_commute (m : NetURL.Values) (p q : string) :
  NetURL.QueryUnescape (pieceKey p) <> NetURL.QueryUnescape (pieceKey q) ->
  NetURL.parsePair (NetURL.parsePair m p) q = NetURL.parsePair (NetURL.parsePair m q) p.
Proof.
  unfold pieceKey, NetURL.parsePair. intros Hne.
  destruct (containsByte ";" p); [reflexivity|].
  destruct (containsByte ";" q); [reflexivity|].
  destruct (String.eqb p ""); [reflexivity|].
  destruct (String.eqb q ""); [reflexivity|].
  destruct (cut "=" p) as [[kp vp] fp], (cut "=" q) as [[kq vq] fq].
  cbn [fst] in Hne.
  destruct (NetURL.QueryUnescape kp) as [kp'|]; [|reflexivity].
  destruct (NetURL.QueryUnescape kq) as [kq'|];
    [|destruct (NetURL.QueryUnescape vp); reflexivity].
  destruct (NetURL.QueryUnescape vp) as [vp'|]; [|reflexivity].
  destruct (NetURL.QueryUnescape vq) as [vq'|]; [|reflexivity].
  assert (kp' <> kq') by congruence.
  rewrite !lookup_total_insert_ne by done.
  by apply insert_insert_ne.
Qed.

Lemma parse_pieces_permutation (l l' : list string) :
  l ≡ₚ l' ->
  NoDup ((fun p => NetURL.QueryUnescape (pieceKey p)) <$> l) ->
  forall m, fold_left NetURL.parsePair l m = fold_left NetURL.parsePair l' m.
Proof.
  induction 1 as [|x l l' Hp IH|x y l|l l' l'' Hp1 IH1 Hp2 IH2]; intros Hnd m.
  - reflexivity.
  - simpl. apply IH. by inversion Hnd.
  - simpl. f_equal. apply parsePair_commute.
    rewrite !fmap_cons in Hnd. inversion Hnd as [|? ? Hnotin _]; subst.
    intros E. apply Hnotin. rewrite E. left.
  - rewrite IH1 by done. apply IH2. by rewrite <- Hp1.
Qed.

(** X16. [removeTrackingParams] writes the query back with its keys sorted,
    so the order in which a request URI lists parameters of different names
    does not show in the result: two request URIs that [url.Parse] accepts,
    with the same text before the query and the same fragment, whose queries
    hold the same pieces in any order, each piece under a name of its own,
    are mapped to the same string. *)
Theorem parameter_order_does_not_change_result
        (base frag : string) (pieces1 pieces2 : list string) :
  containsByte "?" base = false ->
  containsByte "#" base = false ->
  (frag = "" \/ exists f, frag = String "#" f) ->
  Forall queryPiece pieces1 ->
  pieces1 ≡ₚ pieces2 ->
  NoDup ((fun p => NetURL.QueryUnescape (pieceKey p)) <$> pieces1) ->
  pieces1 <> [""] ->
  NetURL.Parse (uriOf base pieces1 frag) <> None ->
  NetURL.Parse (uriOf base pieces2 frag) <> None ->
  removeTrackingParams (uriOf base pieces1 frag)
  = removeTrackingParams (uriOf base pieces2 frag).
Proof.
  intros Hq Hh Hfrag Hf1 Hperm Hnd Hn1 Hp1 Hp2.
  assert (Hf2 : Forall queryPiece pieces2) by (by rewrite <- Hperm).
  assert (Hn2 : pieces2 <> [""]).
  { intros ->. apply Hn1. by apply Permutation_singleton_r. }
  destruct (removeTrackingParams_uriOf base frag pieces1 Hq Hh Hfrag Hf1 Hn1 Hp1)
    as (g1 & Hg1 & ->).
  destruct (removeTrackingParams_uriOf base frag pieces2 Hq Hh Hfrag Hf2 Hn2 Hp2)
    as (g2 & Hg2 & ->).
  rewrite Hg1 in Hg2. injection Hg2 as <-.
  rewrite !parseQuery_join by assumption.
  by rewrite (parse_pieces_permutation pieces1 pieces2 Hperm Hnd).
Qed.

Lemma parameter_order_does_not_change_result_witness :
  uriOf "/search" ["b=2"; "a=1"] "#top" = "/search?b=2&a=1#top"
  /\ uriOf "/search" ["a=1"; "b=2"] "#top" = "/search?a=1&b=2#top"
  /\ removeTrackingParams "/search?b=2&a=1#top"
     = removeTrackingParams "/search?a=1&b=2#top".
Proof.
  split; [reflexivity|]. split; [reflexivity|].
  apply (parameter_order_does_not_change_result "/search" "#top"
           ["b=2"; "a=1"] ["a=1"; "b=2"]).
  - reflexivity.
  - reflexivity.
  - right. by eexists.
  - repeat constructor.
  - apply perm_swap.
  - apply (bool_decide_unpack _). vm_compute. exact I.
  - discriminate.
  - vm_compute. discriminate.
  - vm_compute. discriminate.
Defined.

(** ** The request sent to the evaluation service *)

(** X17. [PrepareForwardedRequest] contacts the evaluation service at most
    once, and only with a request that mirrors the original: the same method
    ([GET] for an empty one), the service address followed by the request
    URI as it arrived, the same header map, and as body what is still to be
    read from the original body.  When the method is no token or the address
    does not parse, it fails without contacting the service and leaves
    everything as it was. *)
Theorem evaluation_request_mirrors_the_original
        (a : Modsecurity) (env : Env) (req : Request) (w w' : World)
        (r : nat + string) :
  PrepareForwardedRequest a env req w = (r, w') ->
  let method := if String.eqb (Method req) "" then "GET" else Method req in
  let url := modSecurityUrl a +:+ RequestURI req in
  if validMethod method
     && match NetURL.Parse url with Some _ => true | None => false end
  then trace w'
       = trace w ++ [EvEvaluate (mkProxyRequest method url (Header_ req)
                                                (clientReads env))]
  else w' = w /\ exists e, r = inr e.
Proof.
  unfold PrepareForwardedRequest, NewRequestWithContext. intros H. simpl.
  destruct (validMethod _); simpl in *.
  - destruct (NetURL.Parse _) as [u|]; simpl in *.
    + unfold mbind, M_bind, logEvent, mret, M_ret, alloc in H. simpl in H.
      destruct (httpClientDo env _); injection H as <- <-; reflexivity.
    + unfold mret, M_ret in H. injection H as <- <-. split; [reflexivity | by eexists].
  - unfold mret, M_ret in H. injection H as <- <-. split; [reflexivity | by eexists].
Qed.

Lemma evaluation_request_mirrors_the_original_witness :
  (exists w', PrepareForwardedRequest defaultPlugin allowingEnv getRequest initialWorld
              = (inl 0%nat, w')
              /\ trace w' = [EvEvaluate (mkProxyRequest "GET" "http://waf/index.html"
                                                        ∅ (mkStream "" None))])
  /\ PrepareForwardedRequest defaultPlugin allowingEnv badMethodRequest initialWorld
     = (inr "net/http: invalid method", initialWorld).
Proof.
  split.
  - eexists. split; [vm_compute; reflexivity|].
    exact (evaluation_request_mirrors_the_original defaultPlugin allowingEnv
             getRequest initialWorld _ _ eq_refl).
  - reflexivity.
Defined.

(** ** The earlier middleware *)

(** X18. The earlier [ServeHTTP] reads the whole body before anything else.
    A body longer than the ceiling (a negative ceiling counting as 0) is
    answered with 413, and neither the evaluation service nor the backend is
    called: the world is left as it was. *)
Theorem Legacy_oversized_body_is_rejected_before_evaluation
        (a : Legacy.Modsecurity) (env : Legacy.Env) (rw : ResponseWriter)
        (req : Request) (w : World) :
  isWebsocket req = false ->
  Z.max 0 (Legacy.maxBodySize a) < len (s_bytes (Legacy.bodyReads env)) ->
  Legacy.ServeHTTP a env rw req w = (Error "" StatusRequestEntityTooLarge rw, w).
Proof.
  intros Hws Hlen. unfold Legacy.ServeHTTP, Legacy.readAllMaxBytes. rewrite Hws.
  destruct (Legacy.maxBodySize a <? 0) eqn:E.
  - apply Z.ltb_lt in E.
    replace (0 <? len (s_bytes (Legacy.bodyReads env))) with true
      by (symmetry; apply Z.ltb_lt; lia).
    reflexivity.
  - apply Z.ltb_ge in E.
    replace (Legacy.maxBodySize a <? len (s_bytes (Legacy.bodyReads env))) with true
      by (symmetry; apply Z.ltb_lt; lia).
    reflexivity.
Qed.

Lemma Legacy_oversized_body_is_rejected_before_evaluation_witness :
  Legacy.ServeHTTP legacyPlugin (legacyAllows "abcde") freshRW oversizedPost initialWorld
  = (Error "" StatusRequestEntityTooLarge freshRW, initialWorld).
Proof.
  apply Legacy_oversized_body_is_rejected_before_evaluation.
  - reflexivity.
  - vm_compute. reflexivity.
Defined.

(** What the earlier [ServeHTTP] does once the body is read and the request
    to the evaluation service is built. *)
Lemma Legacy_ServeHTTP_buffered a env rw req w :
  isWebsocket req = false ->
  len (s_bytes (Legacy.bodyReads env)) <= Z.max 0 (Legacy.maxBodySize a) ->
  s_err (Legacy.bodyReads env) = None ->
  Legacy.ServeHTTP a env rw req w
  = let body := s_bytes (Legacy.bodyReads env) in
    match NewRequestWithContext (Method req)
            (Legacy.modSecurityUrl a +:+ RequestURI req) (mkStream body None) with
    | inr _ => (Error "" StatusBadGateway rw, w)
    | inl p0 =>
        let p := mkProxyRequest (pr_Method p0) (pr_URL p0) (Header_ req) (pr_Body p0) in
        match Legacy.httpClientDo env p with
        | inr _ =>
            (Error "" StatusBadGateway rw,
             mkWorld (cache w) (heap w) (cacheResponsePool w) (nextLoc w)
                     (trace w ++ [EvEvaluate p]))
        | inl resp =>
            let closed := mkResponse (StatusCode resp) (RespHeader resp)
                                     (closeBody (RespBody_ resp)) in
            if 400 <=? StatusCode resp
            then (Legacy.forwardResponse (Legacy.rangeForward env) resp rw,
                  mkWorld (cache w)
                          (<[ nextLoc w := closed ]> (<[ nextLoc w := resp ]> (heap w)))
                          (cacheResponsePool w) (S (nextLoc w))
                          (trace w ++ [EvEvaluate p]))
            else (Legacy.next env req (Unread body) rw,
                  mkWorld (cache w)
                          (<[ nextLoc w := closed ]> (<[ nextLoc w := resp ]> (heap w)))
                          (cacheResponsePool w) (S (nextLoc w))
                          ((trace w ++ [EvEvaluate p]) ++ [EvBackend req (Unread body)]))
        end
    end.
Proof.
  intros Hws Hlen Herr. unfold Legacy.ServeHTTP, Legacy.readAllMaxBytes. rewrite Hws.
  replace ((if Legacy.maxBodySize a <? 0 then 0 else Legacy.maxBodySize a)
           <? len (s_bytes (Legacy.bodyReads env))) with false.
  2:{ symmetry. apply Z.ltb_ge. destruct (Legacy.maxBodySize a <? 0) eqn:E;
        [apply Z.ltb_lt in E | apply Z.ltb_ge in E]; lia. }
  rewrite Herr. cbv zeta.
  destruct (NewRequestWithContext _ _ _) as [p0|e]; [|reflexivity].
  unfold mbind, M_bind, logEvent, alloc, store, mret, M_ret. simpl.
  destruct (Legacy.httpClientDo env _) as [resp|e]; [|reflexivity].
  simpl. destruct (400 <=? StatusCode resp); reflexivity.
Qed.

Lemma Error_status (code : Z) (rw : ResponseWriter) :
  rw_status rw = None -> rw_status (Error "" code rw) = Some code.
Proof. intros H. unfold Error, Write, WriteHeader. simpl. by rewrite H. Qed.

Lemma Legacy_forwardResponse_status (range : RangeOrder) (resp : Response)
      (rw : ResponseWriter) :
  rw_status rw = None ->
  rw_status (Legacy.forwardResponse range resp rw) = Some (StatusCode resp).
Proof.
  intros H. unfold Legacy.forwardResponse, Write, WriteHeader. simpl. by rewrite H.
Qed.

(** X19. The earlier [ServeHTTP] never returns without an answer.  For a
    request that is no upgrade, on a writer that has not started its
    response, either a response with a status of 400 or more has been
    started and the backend has not been called, or the evaluation service
    was asked once, with the whole body, and the backend was then called
    once with that same body, unread. *)
Theorem Legacy_every_exit_answers_or_hands_over
        (a : Legacy.Modsecurity) (env : Legacy.Env) (rw rw' : ResponseWriter)
        (req : Request) (w w' : World) :
  isWebsocket req = false ->
  rw_status rw = None ->
  Legacy.ServeHTTP a env rw req w = (rw', w') ->
  exists evs,
    trace w' = trace w ++ evs
    /\ ((exists code, 400 <= code /\ rw_status rw' = Some code /\ noBackendCall evs)
        \/ (exists p,
              let body := s_bytes (Legacy.bodyReads env) in
              evs = [EvEvaluate p; EvBackend req (Unread body)]
              /\ pr_Body p = mkStream body None
              /\ rw' = Legacy.next env req (Unread body) rw)).
Proof.
  intros Hws Hst. unfold Legacy.ServeHTTP. rewrite Hws.
  assert (Hquiet : forall code, 400 <= code ->
            (Error "" code rw, w) = (rw', w') ->
            exists evs, trace w' = trace w ++ evs
              /\ ((exists code, 400 <= code /\ rw_status rw' = Some code
                                /\ noBackendCall evs)
                  \/ (exists p,
                        let body := s_bytes (Legacy.bodyReads env) in
                        evs = [EvEvaluate p; EvBackend req (Unread body)]
                        /\ pr_Body p = mkStream body None
                        /\ rw' = Legacy.next env req (Unread body) rw))).
  { intros code Hc H. injection H as <- <-. exists []. rewrite app_nil_r.
    split; [reflexivity|]. left. exists code.
    split; [exact Hc|]. split; [by apply Error_status | constructor]. }
  destruct (Legacy.readAllMaxBytes _ _) as [body [e|]] eqn:Er.
  { destruct (String.eqb e _); unfold mret, M_ret;
      apply Hquiet; vm_compute; discriminate. }
  assert (Hb : body = s_bytes (Legacy.bodyReads env)).
  { unfold Legacy.readAllMaxBytes in Er. destruct (_ <? len _); [discriminate|].
    by injection Er as <- _. }
  subst body.
  unfold NewRequestWithContext.
  destruct (negb (validMethod _)).
  { unfold mret, M_ret. apply Hquiet. vm_compute. discriminate. }
  destruct (NetURL.Parse _) as [u|].
  2:{ unfold mret, M_ret. apply Hquiet. vm_compute. discriminate. }
  unfold mbind, M_bind, logEvent, alloc, store, mret, M_ret. simpl.
  destruct (Legacy.httpClientDo env _) as [resp|e].
  - simpl. destruct (400 <=? StatusCode resp) eqn:E; intros H; injection H as <- <-.
    + eexists. split; [reflexivity|]. left. exists (StatusCode resp).
      split; [by apply Z.leb_le|].
      split; [by apply Legacy_forwardResponse_status|].
      constructor; [|constructor]. intros (r & b & Hev). discriminate.
    + eexists. simpl. split; [by rewrite <- app_assoc|]. right.
      eexists. split; [reflexivity|]. split; reflexivity.
  - intros H. injection H as <- <-.
    eexists. split; [reflexivity|]. left. exists StatusBadGateway.
    split; [vm_compute; discriminate|].
    split; [by apply Error_status|].
    constructor; [|constructor]. intros (r & b & Hev). discriminate.
Qed.

Lemma Legacy_every_exit_answers_or_hands_over_witness :
  exists rw' w' evs,
    Legacy.ServeHTTP legacyPlugin legacyUnreachable freshRW exactPost initialWorld
    = (rw', w')
    /\ trace w' = trace initialWorld ++ evs
    /\ ((exists code, 400 <= code /\ rw_status rw' = Some code /\ noBackendCall evs)
        \/ (exists p,
              evs = [EvEvaluate p; EvBackend exactPost (Unread "abcd")]
              /\ pr_Body p = mkStream "abcd" None
              /\ rw' = Legacy.next legacyUnreachable exactPost (Unread "abcd") freshRW)).
Proof.
  destruct (Legacy.ServeHTTP legacyPlugin legacyUnreachable freshRW exactPost
              initialWorld) as [rw' w'] eqn:E.
  destruct (Legacy_every_exit_answers_or_hands_over legacyPlugin legacyUnreachable
              freshRW rw' exactPost initialWorld w' eq_refl eq_refl E)
    as (evs & H).
  exists rw', w', evs. split; [reflexivity | exact H].
Defined.

(** X20. When the evaluation service cannot be reached, the earlier
    [ServeHTTP] answers a request whose body it could read with 502 and an
    empty message, and does not call the backend. *)
Theorem Legacy_unreachable_service_gives_502
        (a : Legacy.Modsecurity) (env : Legacy.Env) (rw : ResponseWriter)
        (req : Request) (w : World) :
  isWebsocket req = false ->
  len (s_bytes (Legacy.bodyReads env)) <= Z.max 0 (Legacy.maxBodySize a) ->
  s_err (Legacy.bodyReads env) = None ->
  (forall p, exists e, Legacy.httpClientDo env p = inr e) ->
  fst (Legacy.ServeHTTP a env rw req w) = Error "" StatusBadGateway rw
  /\ exists evs, trace (snd (Legacy.ServeHTTP a env rw req w)) = trace w ++ evs
                 /\ noBackendCall evs.
Proof.
  intros Hws Hlen Herr Hdown.
  rewrite (Legacy_ServeHTTP_buffered a env rw req w Hws Hlen Herr). cbv zeta.
  destruct (NewRequestWithContext _ _ _) as [p0|e]; simpl.
  - destruct (Hdown (mkProxyRequest (pr_Method p0) (pr_URL p0) (Header_ req)
                                    (pr_Body p0))) as [e ->]. simpl.
    split; [reflexivity|]. eexists. split; [reflexivity|].
    constructor; [|constructor]. intros (r & b & Hev). discriminate.
  - split; [reflexivity|]. exists []. rewrite app_nil_r. split; [reflexivity|constructor].
Qed.

Lemma Legacy_unreachable_service_gives_502_witness :
  fst (Legacy.ServeHTTP legacyPlugin legacyUnreachable freshRW exactPost initialWorld)
  = Error "" StatusBadGateway freshRW.
Proof.
  apply Legacy_unreachable_service_gives_502.
  - reflexivity.
  - vm_compute. discriminate.
  - reflexivity.
  - intros p. by eexists.
Defined.

(** X21. When the evaluation service lets a request through (a status below
    400), the earlier [ServeHTTP] has read the whole body, has sent it to the
    evaluation service, and hands the request to the backend with that same
    body, unread; the writer reaches the backend untouched. *)
Theorem Legacy_allowed_request_reaches_backend_with_its_body
        (a : Legacy.Modsecurity) (env : Legacy.Env) (rw : ResponseWriter)
        (req : Request) (w : World) (p0 : ProxyRequest) :
  isWebsocket req = false ->
  len (s_bytes (Legacy.bodyReads env)) <= Z.max 0 (Legacy.maxBodySize a) ->
  s_err (Legacy.bodyReads env) = None ->
  NewRequestWithContext (Method req) (Legacy.modSecurityUrl a +:+ RequestURI req)
    (mkStream (s_bytes (Legacy.bodyReads env)) None) = inl p0 ->
  (forall p, exists resp, Legacy.httpClientDo env p = inl resp /\ StatusCode resp < 400) ->
  let body := s_bytes (Legacy.bodyReads env) in
  let p := mkProxyRequest (pr_Method p0) (Legacy.modSecurityUrl a +:+ RequestURI req)
                          (Header_ req) (mkStream body None) in
  fst (Legacy.ServeHTTP a env rw req w) = Legacy.next env req (Unread body) rw
  /\ trace (snd (Legacy.ServeHTTP a env rw req w))
     = trace w ++ [EvEvaluate p; EvBackend req (Unread body)].
Proof.
  intros Hws Hlen Herr Hnew Hok.
  rewrite (Legacy_ServeHTTP_buffered a env rw req w Hws Hlen Herr). cbv zeta.
  rewrite Hnew.
  assert (Hp : pr_URL p0 = Legacy.modSecurityUrl a +:+ RequestURI req
               /\ pr_Body p0 = mkStream (s_bytes (Legacy.bodyReads env)) None).
  { unfold NewRequestWithContext in Hnew.
    destruct (negb (validMethod _)); [discriminate|].
    destruct (NetURL.Parse _); [|discriminate].
    injection Hnew as <-. by split. }
  destruct Hp as [-> ->].
  destruct (Hok (mkProxyRequest (pr_Method p0)
                   (Legacy.modSecurityUrl a +:+ RequestURI req) (Header_ req)
                   (mkStream (s_bytes (Legacy.bodyReads env)) None)))
    as (resp & -> & Hlt).
  replace (400 <=? StatusCode resp) with false by (symmetry; apply Z.leb_gt; lia).
  simpl. split; [reflexivity|]. by rewrite <- app_assoc.
Qed.

Lemma Legacy_allowed_request_reaches_backend_with_its_body_witness :
  fst (Legacy.ServeHTTP legacyPlugin (legacyAllows "abcd") freshRW exactPost initialWorld)
  = Write "backend" freshRW
  /\ trace (snd (Legacy.ServeHTTP legacyPlugin (legacyAllows "abcd") freshRW exactPost
                   initialWorld))
     = [EvEvaluate (mkProxyRequest "POST" "http://waf/upload" ∅ (mkStream "abcd" None));
        EvBackend exactPost (Unread "abcd")].
Proof.
  apply (Legacy_allowed_request_reaches_backend_with_its_body legacyPlugin
           (legacyAllows "abcd") freshRW exactPost initialWorld
           (mkProxyRequest "POST" "http://waf/upload" ∅ (mkStream "abcd" None))).
  - reflexivity.
  - vm_compute. discriminate.
  - reflexivity.
  - vm_compute. reflexivity.
  - intros p. eexists. split; [reflexivity|]. reflexivity.
Defined.

Lemma set_values_lookup (k k' : string) (vs : list string) (h : Header) :
  CanonicalMIMEHeaderKey k = k ->
  fold_left (fun h v => Header_Set k v h) vs h !! k'
  = if decide (k = k')
    then match last vs with Some v => Some [v] | None => h !! k' end
    else h !! k'.
Proof.
  intros Hk. revert h. induction vs as [|v vs IH]; intros h.
  - simpl. by case_decide.
  - cbn [fold_left]. rewrite IH, last_cons. unfold Header_Set. rewrite Hk.
    case_decide as E.
    + subst k'. destruct (last vs); [reflexivity|]. by rewrite lookup_insert_eq.
    + by rewrite lookup_insert_ne.
Qed.

Lemma set_headers_lookup (l : list (string * list string)) (h : Header) (k : string) :
  NoDup l.*1 ->
  (forall kv, kv ∈ l -> CanonicalMIMEHeaderKey (fst kv) = fst kv) ->
  fold_left (fun h kv => fold_left (fun h v => Header_Set (fst kv) v h) (snd kv) h) l h
    !! k
  = match (list_to_map l : Header) !! k ≫= last with
    | Some v => Some [v]
    | None => h !! k
    end.
Proof.
  revert h. induction l as [|[k1 vs] l IH]; intros h Hnd Hcan.
  - simpl. by rewrite lookup_empty.
  - inversion Hnd as [|? ? Hnotin Hnd']; subst.
    cbn [fold_left fst snd].
    rewrite IH; [|done|intros kv Hkv; apply Hcan; by right].
    cbn [list_to_map foldr fst snd uncurry].
    destruct (decide (k1 = k)) as [->|Hne].
    + rewrite lookup_insert_eq. rewrite (not_elem_of_list_to_map_1 _ _ Hnotin).
      simpl. rewrite set_values_lookup by (apply (Hcan (k, vs)); left).
      by rewrite decide_True.
    + rewrite lookup_insert_ne by done.
      destruct (list_to_map l !! k ≫= last); [reflexivity|].
      rewrite set_values_lookup by (apply (Hcan (k1, vs)); left).
      by rewrite decide_False.
Qed.

(** X22. The earlier [forwardResponse] copies each header of the verdict
    with [Set]: under every name of the verdict's header map that has a
    value, the writer ends with the last value alone, whatever it held
    before and in whatever order the map is ranged over; every other name of
    the writer is left as it was. *)
Theorem Legacy_forwardResponse_keeps_last_value
        (range : RangeOrder) (resp : Response) (rw : ResponseWriter) (k : string) :
  validRange range ->
  (forall k', is_Some (RespHeader resp !! k') -> CanonicalMIMEHeaderKey k' = k') ->
  rw_Header (Legacy.forwardResponse range resp rw) !! k
  = match RespHeader resp !! k ≫= last with
    | Some v => Some [v]
    | None => rw_Header rw !! k
    end.
Proof.
  intros Hr Hcan.
  assert (Hnd : NoDup (range (RespHeader resp)).*1).
  { rewrite (Hr (RespHeader resp)). apply NoDup_fst_map_to_list. }
  assert (E : rw_Header (Legacy.forwardResponse range resp rw)
              = fold_left
                  (fun h kv => fold_left (fun h v => Header_Set (fst kv) v h) (snd kv) h)
                  (range (RespHeader resp)) (rw_Header rw)).
  { unfold Legacy.forwardResponse, Write, WriteHeader. simpl.
    by destruct (rw_status rw). }
  rewrite E, set_headers_lookup; [|exact Hnd|].
  - rewrite (list_to_map_proper _ _ Hnd (Hr (RespHeader resp))).
    by rewrite list_to_map_to_list.
  - intros [k' vs] Hin. simpl. apply Hcan.
    rewrite (Hr (RespHeader resp)) in Hin.
    apply elem_of_map_to_list in Hin. by eexists.
Qed.

Lemma Legacy_forwardResponse_keeps_last_value_witness :
  rw_Header (Legacy.forwardResponse map_to_list twoCookies freshRW) !! "Set-Cookie"
  = Some ["b=2"]
  /\ rw_Header (forwardResponse map_to_list twoCookies freshRW) !! "Set-Cookie"
     = Some ["a=1"; "b=2"].
Proof.
  split; [|vm_compute; reflexivity].
  rewrite Legacy_forwardResponse_keeps_last_value.
  - vm_compute. reflexivity.
  - intros h. reflexivity.
  - intros k' [vs Hk].
    unfold twoCookies in Hk. simpl in Hk.
    apply lookup_singleton_Some in Hk as [<- _]. vm_compute. reflexivity.
Defined.

(** ** [New] and the configuration *)

(** X23. [New] takes the cache rules from the two struct fields
    [CacheConditions] and [CacheKey] alone.  The nine flat options of
    [Config] ([CacheConditionsMethods], [CacheConditionsNoBody],
    [CacheKeyIncludeMethod], [CacheKeyIncludeRequestURI],
    [CacheKeyIncludeHeaders], [CacheKeyHeaders], [CacheKeyMatchAllHeaders],
    [CacheKeyIncludeHost], [CacheKeyIncludeRemoteAddress]) are not read:
    whatever they hold, [New] returns the same plugin, or the same error. *)
Theorem New_ignores_flat_cache_options
        (config : Config) (name : string)
        (methods headers : list string)
        (noBody incMethod incURI incHeaders matchAll incHost incRemote : option bool) :
  New (mkConfig (TimeoutMillis config) (ModSecurityUrl config) (MaxBodySize config)
                (CacheEnabled config) methods noBody incMethod incURI incHeaders
                headers matchAll incHost incRemote
                (CacheConditions config) (CacheKey config)) name
  = New config name.
Proof. reflexivity. Qed.

(** X24. For a configuration with a service address and a timeout of at most
    9223372036854 milliseconds in absolute value, [New] succeeds and the
    HTTP client's timeout is the configured number of milliseconds, with 0
    standing for 2000; it is never 0, the value for which the client would
    wait without limit. *)
Theorem New_timeout_without_overflow (config : Config) (name : string) :
  ModSecurityUrl config <> "" ->
  - 9223372036854 <= TimeoutMillis config <= 9223372036854 ->
  exists a,
    New config name = inl a
    /\ httpClientTimeout a
       = (if TimeoutMillis config =? 0 then 2000 else TimeoutMillis config) * Millisecond
    /\ httpClientTimeout a <> 0.
Proof.
  intros Hurl Ht. unfold New.
  assert (Hlen : (len (ModSecurityUrl config) =? 0) = false).
  { apply Z.eqb_neq. destruct (ModSecurityUrl config) as [|c s]; [done|].
    unfold len. simpl. lia. }
  rewrite Hlen. eexists. split; [reflexivity|]. simpl.
  destruct (TimeoutMillis config =? 0) eqn:E.
  - split; [reflexivity | discriminate].
  - apply Z.eqb_neq in E. unfold Millisecond in *.
    rewrite wrap64_small by lia. split; [reflexivity | lia].
Qed.

Lemma New_timeout_without_overflow_witness :
  exists a, New zeroTimeoutConfig "waf" = inl a
            /\ httpClientTimeout a = 2000 * Millisecond.
Proof.
  destruct (New_timeout_without_overflow zeroTimeoutConfig "waf")
    as (a & Ha & Ht & _).
  - discriminate.
  - vm_compute. split; discriminate.
  - exists a. split; [exact Ha | exact Ht].
Defined.
